(** * Yahoo! Earnings Calendar scraper: a shallow embedding of
      [yahoo_earnings_calendar/scraper.py] and the properties of its
      extraction, pagination, date-range and next-date logic.

    Python values are embedded as the type [pyval]; exceptions as [exn];
    code that can raise returns a [result]; code that fetches pages threads
    the trace of sleeps and requests ([world]) through the monad [M].
    Library functions whose text is not part of the repository
    ([json.loads], [requests.get], [strftime], [strptime], the clock) are
    variables of the section [Scraper]. *)

From Stdlib Require Import ZArith List String Ascii Bool Lia DecimalString.
From Stdlib Require Import Sorted Permutation.
Import ListNotations.
Open Scope string_scope.
Open Scope Z_scope.

(** ** Python values *)

(** A Python [float]: a NaN, an infinity, or the finite value [m * 2^e]
    (the sign of a zero is not kept: it plays no role in comparisons). *)
Inductive pyfloat : Type :=
| FNaN
| FInf (neg : bool)
| FFin (m : Z) (e : Z).

(** The values the scraper handles: what [json.loads] builds ([None], [bool],
    [int], [float], [str], [list], [dict]) and the [datetime.date] and naive
    [datetime.datetime] objects callers pass in.  A [str] is a sequence of
    characters, one [ascii] per character.  A dict is kept in insertion
    order; keys are values (the normalizer stores column identifiers taken
    from the page, which need not be strings).  A date is its proleptic
    Gregorian ordinal ([date.toordinal()]); a datetime is the ordinal of its
    date and the microsecond of the day. *)
#[local] Set Warnings "-register-all".
Inductive pyval : Type :=
| VNone
| VBool (b : bool)
| VInt (z : Z)
| VFloat (f : pyfloat)
| VStr (s : string)
| VList (l : list pyval)
| VDict (d : list (pyval * pyval))
| VDate (ord : Z)
| VDateTime (ord : Z) (us : Z).

(** ** Exceptions *)

Inductive exn_class : Type :=
| JSONDecodeError | UnicodeDecodeError | ValueError | KeyError | IndexError
| TypeError | AttributeError | OverflowError | RecursionError
| RequestException | Exception.

(** An exception: its class and, for those the scraper raises itself, its
    message (the messages of interpreter-raised errors are not modelled and
    left empty). *)
Record exn : Type := Exn { exn_cls : exn_class; exn_msg : string }.

Definition exn_class_eqb (a b : exn_class) : bool :=
  match a, b with
  | JSONDecodeError, JSONDecodeError | UnicodeDecodeError, UnicodeDecodeError
  | ValueError, ValueError | KeyError, KeyError | IndexError, IndexError
  | TypeError, TypeError | AttributeError, AttributeError
  | OverflowError, OverflowError | RecursionError, RecursionError
  | RequestException, RequestException | Exception, Exception => true
  | _, _ => false
  end.

(** [subclass c h]: an exception of class [c] is caught by [except h]. *)
Definition subclass (c h : exn_class) : bool :=
  match h with
  | Exception => true
  | ValueError =>
      match c with
      | ValueError | JSONDecodeError | UnicodeDecodeError => true
      | _ => false
      end
  | _ => exn_class_eqb c h
  end.

(** [except (h1, h2, ...)]. *)
Definition caught_by (hs : list exn_class) (e : exn) : bool :=
  existsb (subclass (exn_cls e)) hs.

Inductive result (A : Type) : Type :=
| Ok (a : A)
| Err (e : exn).
Arguments Ok {A} a.
Arguments Err {A} e.

Definition rbind {A B} (r : result A) (k : A -> result B) : result B :=
  match r with
  | Ok a => k a
  | Err e => Err e
  end.

Definition raise_ {A} (c : exn_class) : result A := Err (Exn c EmptyString).

Declare Scope res_scope.
Delimit Scope res_scope with res.
Notation "x <- r ;; k" := (rbind r (fun x => k))
  (at level 61, r at next level, right associativity) : res_scope.

(** [mapM] on [result]: left to right, stopping at the first exception. *)
Fixpoint rmap {A B} (f : A -> result B) (l : list A) : result (list B) :=
  match l with
  | [] => Ok []
  | a :: l' =>
      match f a with
      | Err e => Err e
      | Ok b =>
          match rmap f l' with
          | Err e => Err e
          | Ok bs => Ok (b :: bs)
          end
      end
  end.

(** ** Numbers *)

(** Exact comparison of an [int] with a [float]; [None] when the float is a
    NaN (every ordering test is then false). *)
Definition Z_float_compare (z : Z) (f : pyfloat) : option comparison :=
  match f with
  | FNaN => None
  | FInf neg => Some (if neg then Gt else Lt)
  | FFin m e =>
      if 0 <=? e then Some (Z.compare z (m * 2 ^ e))
      else Some (Z.compare (z * 2 ^ (- e)) m)
  end.

Definition float_compare (f g : pyfloat) : option comparison :=
  match f, g with
  | FNaN, _ | _, FNaN => None
  | FInf a, FInf b =>
      Some (if a then (if b then Eq else Lt) else (if b then Gt else Eq))
  | FInf a, FFin _ _ => Some (if a then Lt else Gt)
  | FFin _ _, FInf b => Some (if b then Gt else Lt)
  | FFin m e, FFin n d =>
      let c := Z.min e d in
      Some (Z.compare (m * 2 ^ (e - c)) (n * 2 ^ (d - c)))
  end.

(** The numeric tower: [bool] is a subclass of [int]. *)
Inductive number : Type :=
| NInt (z : Z)
| NFloat (f : pyfloat).

Definition as_number (v : pyval) : option number :=
  match v with
  | VBool b => Some (NInt (if b then 1 else 0))
  | VInt z => Some (NInt z)
  | VFloat f => Some (NFloat f)
  | _ => None
  end.

Definition num_compare (a b : number) : option comparison :=
  match a, b with
  | NInt x, NInt y => Some (Z.compare x y)
  | NInt x, NFloat g => Z_float_compare x g
  | NFloat f, NInt y => option_map CompOpp (Z_float_compare y f)
  | NFloat f, NFloat g => float_compare f g
  end.

Definition is_lt (c : option comparison) : bool :=
  match c with Some Lt => true | _ => false end.
Definition is_eq (c : option comparison) : bool :=
  match c with Some Eq => true | _ => false end.
Definition is_ge (c : option comparison) : bool :=
  match c with Some Gt | Some Eq => true | _ => false end.
Definition is_le (c : option comparison) : bool :=
  match c with Some Lt | Some Eq => true | _ => false end.

(** ** Strings *)

Definition str_chars (s : string) : list ascii := list_ascii_of_string s.

(** [sub in s] for two strings. *)
Fixpoint str_contains (sub s : string) : bool :=
  prefix sub s ||
  match s with
  | EmptyString => false
  | String _ s' => str_contains sub s'
  end.

(** [s.split(c)] for a one-character separator [c]. *)
Fixpoint str_split_char (c : ascii) (s : string) : list string :=
  match s with
  | EmptyString => [EmptyString]
  | String a s' =>
      if Ascii.eqb a c then EmptyString :: str_split_char c s'
      else
        match str_split_char c s' with
        | [] => [String a EmptyString]
        | p :: ps => String a p :: ps
        end
  end.

(** [s[:-1]]. *)
Fixpoint str_drop_last (s : string) : string :=
  match s with
  | EmptyString => EmptyString
  | String a EmptyString => EmptyString
  | String a s' => String a (str_drop_last s')
  end.

(** [s[:n]]. *)
Fixpoint str_take (n : nat) (s : string) : string :=
  match n, s with
  | O, _ => EmptyString
  | _, EmptyString => EmptyString
  | S n', String a s' => String a (str_take n' s')
  end.

(** [s[n:]]. *)
Fixpoint str_drop (n : nat) (s : string) : string :=
  match n, s with
  | O, _ => s
  | _, EmptyString => EmptyString
  | S n', String _ s' => str_drop n' s'
  end.

(** [s.split(sep, 1)] for a non-empty separator: cut at the first
    occurrence of [sep], or the whole string alone when there is none. *)
Fixpoint str_split_once (sep s : string) : list string :=
  if prefix sep s then [EmptyString; str_drop (String.length sep) s]
  else
    match s with
    | EmptyString => [EmptyString]
    | String a s' =>
        match str_split_once sep s' with
        | [p] => [String a p]
        | p :: ps => String a p :: ps
        | [] => [String a EmptyString]
        end
    end.

(** ** Operations of the interpreter on values *)

(** [bool(v)]. *)
Definition py_truthy (v : pyval) : bool :=
  match v with
  | VNone => false
  | VBool b => b
  | VInt z => negb (z =? 0)
  | VFloat f => match f with FFin m _ => negb (m =? 0) | _ => true end
  | VStr s => match s with EmptyString => false | _ => true end
  | VList l => match l with [] => false | _ => true end
  | VDict d => match d with [] => false | _ => true end
  | VDate _ | VDateTime _ _ => true
  end.

Definition hashable (v : pyval) : bool :=
  match v with
  | VList _ | VDict _ => false
  | _ => true
  end.

(** Equality of two hashable values, as dict lookup decides it: numbers
    compare by value across [bool], [int] and [float]. *)
Definition key_eqb (a b : pyval) : bool :=
  match a, b with
  | VNone, VNone => true
  | VStr s, VStr t => String.eqb s t
  | VDate x, VDate y => x =? y
  | VDateTime x u, VDateTime y v => (x =? y) && (u =? v)
  | _, _ =>
      match as_number a, as_number b with
      | Some x, Some y => is_eq (num_compare x y)
      | _, _ => false
      end
  end.

Fixpoint dict_lookup (k : pyval) (d : list (pyval * pyval)) : option pyval :=
  match d with
  | [] => None
  | (k', v) :: d' => if key_eqb k k' then Some v else dict_lookup k d'
  end.

(** [d[k] = v] on the entries of a dict with a hashable [k]: an existing
    key keeps its place, a new one goes last. *)
Fixpoint dict_store (k v : pyval) (d : list (pyval * pyval))
  : list (pyval * pyval) :=
  match d with
  | [] => [(k, v)]
  | (k', v') :: d' =>
      if key_eqb k k' then (k', v) :: d' else (k', v') :: dict_store k v d'
  end.

(** [d[k] = v] as a statement: [TypeError] on an unhashable key. *)
Definition dict_setitem (d : list (pyval * pyval)) (k v : pyval)
  : result (list (pyval * pyval)) :=
  if hashable k then Ok (dict_store k v d) else raise_ TypeError.

(** [v == s] for a string literal [s]. *)
Definition py_eq_str (v : pyval) (s : string) : bool :=
  match v with
  | VStr t => String.eqb t s
  | _ => false
  end.

(** [k in c] for a string literal [k]. *)
Definition py_in_str (k : string) (c : pyval) : result bool :=
  match c with
  | VDict d =>
      Ok match dict_lookup (VStr k) d with Some _ => true | None => false end
  | VList l => Ok (existsb (fun x => py_eq_str x k) l)
  | VStr s => Ok (str_contains k s)
  | _ => raise_ TypeError
  end.

(** [c[k]] for a string literal [k]. *)
Definition py_getitem_str (c : pyval) (k : string) : result pyval :=
  match c with
  | VDict d =>
      match dict_lookup (VStr k) d with
      | Some v => Ok v
      | None => raise_ KeyError
      end
  | _ => raise_ TypeError
  end.

(** [c[i]] for an integer [i >= 0]. *)
Definition py_getitem_int (c : pyval) (i : nat) : result pyval :=
  match c with
  | VList l =>
      match nth_error l i with
      | Some v => Ok v
      | None => raise_ IndexError
      end
  | VStr s =>
      match String.get i s with
      | Some a => Ok (VStr (String a EmptyString))
      | None => raise_ IndexError
      end
  | VDict d =>
      match dict_lookup (VInt (Z.of_nat i)) d with
      | Some v => Ok v
      | None => raise_ KeyError
      end
  | _ => raise_ TypeError
  end.

(** [len(v)]. *)
Definition py_len (v : pyval) : result nat :=
  match v with
  | VList l => Ok (List.length l)
  | VStr s => Ok (String.length s)
  | VDict d => Ok (List.length d)
  | _ => raise_ TypeError
  end.

(** The items a [for] loop over [v] visits. *)
Definition py_iter (v : pyval) : result (list pyval) :=
  match v with
  | VList l => Ok l
  | VDict d => Ok (map fst d)
  | VStr s => Ok (map (fun a => VStr (String a EmptyString)) (str_chars s))
  | _ => raise_ TypeError
  end.

(** [d.get(k, default)]: only a dict has the method. *)
Definition py_get (d : pyval) (k : string) (default : pyval) : result pyval :=
  match d with
  | VDict kvs =>
      match dict_lookup (VStr k) kvs with
      | Some v => Ok v
      | None => Ok default
      end
  | _ => raise_ AttributeError
  end.

(** [a == b]. *)
Fixpoint py_eq (a b : pyval) {struct a} : bool :=
  match a, b with
  | VList xs, VList ys =>
      (fix all2 (xs ys : list pyval) {struct xs} : bool :=
         match xs, ys with
         | [], [] => true
         | x :: xs', y :: ys' => py_eq x y && all2 xs' ys'
         | _, _ => false
         end) xs ys
  | VDict d, VDict d' =>
      Nat.eqb (List.length d) (List.length d') &&
      (fix all (d : list (pyval * pyval)) : bool :=
         match d with
         | [] => true
         | (k, v) :: r =>
             match dict_lookup k d' with
             | Some v' => py_eq v v'
             | None => false
             end && all r
         end) d
  | VList _, _ | VDict _, _ | _, VList _ | _, VDict _ => false
  | _, _ => key_eqb a b
  end.

(** The ordering of two values: [TypeError] where Python has none, [None]
    where a NaN makes every ordering test false.  Lists compare at their
    first unequal position. *)
Fixpoint py_cmp (a b : pyval) {struct a} : result (option comparison) :=
  match a, b with
  | VStr s, VStr t => Ok (Some (String.compare s t))
  | VDate x, VDate y => Ok (Some (Z.compare x y))
  | VDateTime x u, VDateTime y v =>
      Ok (Some match Z.compare x y with Eq => Z.compare u v | c => c end)
  | VList xs, VList ys =>
      (fix lex (xs ys : list pyval) {struct xs}
         : result (option comparison) :=
         match xs, ys with
         | [], [] => Ok (Some Eq)
         | [], _ :: _ => Ok (Some Lt)
         | _ :: _, [] => Ok (Some Gt)
         | x :: xs', y :: ys' => if py_eq x y then lex xs' ys' else py_cmp x y
         end) xs ys
  | _, _ =>
      match as_number a, as_number b with
      | Some x, Some y => Ok (num_compare x y)
      | _, _ => raise_ TypeError
      end
  end.

Definition py_lt (a b : pyval) : result bool :=
  (c <- py_cmp a b ;; Ok (is_lt c))%res.
Definition py_le (a b : pyval) : result bool :=
  (c <- py_cmp a b ;; Ok (is_le c))%res.
Definition py_gt (a b : pyval) : result bool := py_lt b a.
Definition py_ge (a b : pyval) : result bool := py_le b a.

(** [sorted(items, key=...)] on the list of (key, item) pairs: a stable
    insertion sort that only asks [<] of two keys, as the interpreter's sort
    does; an exception of a comparison ends the sort. *)
Fixpoint insert_by_key (x : pyval * pyval) (l : list (pyval * pyval))
  : result (list (pyval * pyval)) :=
  match l with
  | [] => Ok [x]
  | y :: l' =>
      match py_lt (fst x) (fst y) with
      | Err e => Err e
      | Ok true => Ok (x :: y :: l')
      | Ok false =>
          match insert_by_key x l' with
          | Err e => Err e
          | Ok r => Ok (y :: r)
          end
      end
  end.

Definition sort_by_key (l : list (pyval * pyval))
  : result (list (pyval * pyval)) :=
  fold_left (fun acc x => (a <- acc ;; insert_by_key x a)%res) l (Ok []).

(** [x[k1][k2]...] for string literals. *)
Fixpoint py_getpath (v : pyval) (ks : list string) : result pyval :=
  match ks with
  | [] => Ok v
  | k :: ks' => (x <- py_getitem_str v k ;; py_getpath x ks')%res
  end.

(** [l[i]] on a list of strings. *)
Definition strs_index (l : list string) (i : nat) : result string :=
  match nth_error l i with
  | Some s => Ok s
  | None => raise_ IndexError
  end.

(** [try: r except (hs): h]. *)
Definition rcatch {A} (r : result A) (hs : list exn_class)
  (h : exn -> result A) : result A :=
  match r with
  | Ok a => Ok a
  | Err e => if caught_by hs e then h e else Err e
  end.

(** ** The pattern of the embedded-script tags

    [re.findall(pattern, page_content, re.DOTALL)] for the one pattern of
    [_extract_earnings_from_sveltekit], which reads, with Q for the double
    quote character:
    [<script type=Qapplication/jsonQ data-sveltekit-fetched
     data-url=Qhttps://query[12]\.finance\.yahoo\.com/v1/finance/visualization[^Q]*Q[^>]*>({.*?})</script>]
    Every piece of the pattern has one way to match at a given position, so
    the matcher is a scan. *)

Definition dquote : string := String (ascii_of_nat 34) EmptyString.
Definition newline : ascii := ascii_of_nat 10.

Definition tag_open : string :=
  "<script type=" ++ dquote ++ "application/json" ++ dquote
  ++ " data-sveltekit-fetched data-url=" ++ dquote ++ "https://query".
Definition tag_host : string := ".finance.yahoo.com/v1/finance/visualization".
Definition tag_close : string := "}</script>".

Definition strip_prefix (p s : string) : option string :=
  if prefix p s then Some (str_drop (String.length p) s) else None.

(** [[^c]*c]: the text after the first [c]. *)
Fixpoint skip_past (c : ascii) (s : string) : option string :=
  match s with
  | EmptyString => None
  | String a s' => if Ascii.eqb a c then Some s' else skip_past c s'
  end.

(** [.*?stop]: the shortest text followed by [stop], and what follows
    [stop]. *)
Fixpoint lazy_until (stop s : string) : option (string * string) :=
  if prefix stop s then Some (EmptyString, str_drop (String.length stop) s)
  else
    match s with
    | EmptyString => None
    | String a s' =>
        match lazy_until stop s' with
        | Some (p, r) => Some (String a p, r)
        | None => None
        end
    end.

(** A match of the pattern at the start of [s]: the group and the text
    after the match. *)
Definition match_here (s : string) : option (string * string) :=
  match strip_prefix tag_open s with
  | Some (String c s2) =>
      if Ascii.eqb c "1" || Ascii.eqb c "2" then
        match strip_prefix tag_host s2 with
        | None => None
        | Some s3 =>
            match skip_past (ascii_of_nat 34) s3 with
            | None => None
            | Some s4 =>
                match skip_past ">" s4 with
                | Some (String "{" s6) =>
                    match lazy_until tag_close s6 with
                    | Some (body, rest) => Some ("{" ++ body ++ "}", rest)
                    | None => None
                    end
                | _ => None
                end
            end
        end
      else None
  | _ => None
  end.

(** The groups of the non-overlapping matches, left to right; [skip] is the
    number of characters still inside the last match. *)
Fixpoint findall_from (skip : nat) (s : string) {struct s} : list string :=
  match s with
  | EmptyString => []
  | String _ s' =>
      match skip with
      | S k => findall_from k s'
      | O =>
          match match_here s with
          | Some (g, rest) =>
              g :: findall_from (String.length s' - String.length rest) s'
          | None => findall_from 0 s'
          end
      end
  end.

Definition re_findall_sveltekit (page_content : string) : list string :=
  findall_from 0 page_content.

(** ** Module constants *)

Definition BASE_URL : string := "https://finance.yahoo.com/calendar/earnings".
Definition BASE_STOCK_URL : string := "https://finance.yahoo.com/quote".
Definition OFFSET_STEP : Z := 100.

(** [datetime.date.max.toordinal()]: 9999-12-31. *)
Definition MAX_ORDINAL : Z := 3652059.

(** ** Effects: the trace of sleeps and requests *)

Inductive event : Type :=
| EvSleep (seconds : pyval)
| EvGet (url : string).

(** What has happened so far, oldest first. *)
Definition world : Type := list event.

Definition M (A : Type) : Type := world -> result A * world.

Definition ret {A} (a : A) : M A := fun w => (Ok a, w).
Definition raise {A} (e : exn) : M A := fun w => (Err e, w).
Definition lift {A} (r : result A) : M A := fun w => (r, w).
Definition bind {A B} (m : M A) (k : A -> M B) : M B :=
  fun w =>
    match m w with
    | (Ok a, w') => k a w'
    | (Err e, w') => (Err e, w')
    end.

(** [try: m except: h] where [h] decides what it catches. *)
Definition try_except {A} (m : M A) (h : exn -> M A) : M A :=
  fun w =>
    match m w with
    | (Ok a, w') => (Ok a, w')
    | (Err e, w') => h e w'
    end.

Declare Scope M_scope.
Delimit Scope M_scope with M.
Notation "x <- m ;; k" := (bind m (fun x => k))
  (at level 61, m at next level, right associativity) : M_scope.

(** The requests of a trace, oldest first. *)
Fixpoint fetches (w : world) : list string :=
  match w with
  | [] => []
  | EvGet url :: w' => url :: fetches w'
  | EvSleep _ :: w' => fetches w'
  end.

(** [str(z)] for an [int]. *)
Definition str_of_int (z : Z) : string := NilZero.string_of_int (Z.to_int z).

(** [isinstance(v, datetime.date)]: [datetime.datetime] is a subclass of
    [datetime.date]. *)
Definition isinstance_date (v : pyval) : bool :=
  match v with
  | VDate _ | VDateTime _ _ => true
  | _ => false
  end.

(** [d + datetime.timedelta(days=1)] on a date or datetime: [OverflowError]
    past [date.max]. *)
Definition add_one_day (v : pyval) : result pyval :=
  match v with
  | VDate o =>
      if o + 1 <=? MAX_ORDINAL then Ok (VDate (o + 1))
      else raise_ OverflowError
  | VDateTime o us =>
      if o + 1 <=? MAX_ORDINAL then Ok (VDateTime (o + 1) us)
      else raise_ OverflowError
  | _ => raise_ TypeError
  end.

Definition ordinal_of (v : pyval) : Z :=
  match v with
  | VDate o | VDateTime o _ => o
  | _ => 0
  end.

(** [x + l] where [l] is a list. *)
Definition py_add_list (x : pyval) (l : list pyval) : result (list pyval) :=
  match x with
  | VList xs => Ok (xs ++ l)%list
  | _ => raise_ TypeError
  end.

(** Order of two naive datetimes, each the ordinal of its date and the
    microsecond of its day. *)
Definition dt_compare (a b : Z * Z) : comparison :=
  match Z.compare (fst a) (fst b) with
  | Eq => Z.compare (snd a) (snd b)
  | c => c
  end.

(** The object: [self.delay] is its only attribute. *)
Record YahooEarningsCalendar : Type := { delay : pyval }.

Definition unparseable : exn :=
  Exn ValueError "Unable to parse earnings data from page".
Definition date_type_error : exn :=
  Exn TypeError "Date should be a datetime.date object".
Definition range_error : exn :=
  Exn ValueError "From-date should not be after to-date".
Definition range_type_error : exn :=
  Exn TypeError "From-date and to-date should be datetime.date objects".
Definition symbol_error : exn :=
  Exn Exception "Invalid Symbol or Unavailable Earnings Date".
Definition no_upcoming : exn :=
  Exn Exception "No upcoming earnings date found".

(** The legacy shape of a page's data: the total under
    [ScreenerCriteriaStore.meta.total], the rows under
    [ScreenerResultsStore.results.rows]. *)
Definition stores_path : list string := ["context"; "dispatcher"; "stores"].
Definition total_path : list string :=
  ["ScreenerCriteriaStore"; "meta"; "total"].
Definition rows_path : list string :=
  ["ScreenerResultsStore"; "results"; "rows"].

Definition legacy_dict (total earnings_rows : pyval) : pyval :=
  VDict [(VStr "context",
    VDict [(VStr "dispatcher",
      VDict [(VStr "stores",
        VDict [(VStr "ScreenerCriteriaStore",
                 VDict [(VStr "meta", VDict [(VStr "total", total)])]);
               (VStr "ScreenerResultsStore",
                 VDict [(VStr "results",
                          VDict [(VStr "rows", earnings_rows)])])])])])].

(** ** The normalizer: [_convert_visualization_to_dict] *)

(** The inner loop: [for i, col in enumerate(columns): row_dict[col] =
    row[i] if i < len(row) else None], from position [i] on. *)
Fixpoint fill_row (row : pyval) (i : nat) (columns : list pyval)
  (row_dict : list (pyval * pyval)) : result (list (pyval * pyval)) :=
  match columns with
  | [] => Ok row_dict
  | col :: columns' =>
      (n <- py_len row ;;
       v <- (if Nat.ltb i n then py_getitem_int row i else Ok VNone) ;;
       row_dict' <- dict_setitem row_dict col v ;;
       fill_row row (S i) columns' row_dict')%res
  end.

Definition _convert_visualization_to_dict (result_ doc : pyval)
  : result pyval :=
  (cols <- py_get doc "columns" (VList []) ;;
   cols <- py_iter cols ;;
   columns <- rmap (fun col => py_getitem_str col "id") cols ;;
   rows <- py_get doc "rows" (VList []) ;;
   rows_items <- py_iter rows ;;
   earnings_rows <-
     rmap (fun row => d <- fill_row row 0 columns [] ;; Ok (VDict d))
          rows_items ;;
   n <- py_len rows ;;
   total <- py_get result_ "total" (VInt (Z.of_nat n)) ;;
   Ok (legacy_dict total (VList earnings_rows)))%res.

Section Scraper.

(** [json.loads] on a string: the value, or [None] for [JSONDecodeError]. *)
Variable json_loads : string -> option pyval.

(** [requests.get(url).content.decode(encoding='utf-8', errors='strict')]:
    the page text the server answers with, given everything that happened
    before, or the exception of the transport or of the decoding. *)
Variable http_get : world -> string -> result string.

(** [d.strftime('%Y-%m-%d')] for the date of ordinal [d]. *)
Variable strftime_ymd : Z -> string.

(** [datetime.strptime(s, '%Y-%m-%dT%H:%M:%S')]: the naive datetime, or
    [None] for [ValueError]. *)
Variable strptime : string -> option (Z * Z).

(** [int(d.timestamp())] for a naive datetime. *)
Variable timestamp : Z * Z -> result Z.

(** [datetime.now(timezone.utc).replace(tzinfo=None)]. *)
Variable utcnow : Z * Z.

(** [json.loads(v)]: [TypeError] unless [v] is a string. *)
Definition py_json_loads (v : pyval) : result pyval :=
  match v with
  | VStr s =>
      match json_loads s with
      | Some x => Ok x
      | None => raise_ JSONDecodeError
      end
  | _ => raise_ TypeError
  end.

(** *** [_extract_earnings_from_sveltekit] *)

(** [for doc in result['documents']: if doc.get('entityIdType') ==
    'SP_EARNINGS': return ...]; [None] when the loop ends without a
    return. *)
Fixpoint scan_documents (result_ : pyval) (docs : list pyval)
  : result (option pyval) :=
  match docs with
  | [] => Ok None
  | doc :: docs' =>
      (t <- py_get doc "entityIdType" VNone ;;
       if py_eq_str t "SP_EARNINGS"
       then (d <- _convert_visualization_to_dict result_ doc ;; Ok (Some d))
       else scan_documents result_ docs')%res
  end.

(** [for result in body['finance']['result']: ...]. *)
Fixpoint scan_results (results : list pyval) : result (option pyval) :=
  match results with
  | [] => Ok None
  | result_ :: results' =>
      (has <- py_in_str "documents" result_ ;;
       if negb has then scan_results results'
       else
         docs <- py_getitem_str result_ "documents" ;;
         docs <- py_iter docs ;;
         found <- scan_documents result_ docs ;;
         match found with
         | Some d => Ok (Some d)
         | None => scan_results results'
         end)%res
  end.

(** The body of the [try] for one match: [Some d] for [return d], [None]
    for [continue] or the end of the body. *)
Definition try_match (match_ : string) : result (option pyval) :=
  (parsed <- py_json_loads (VStr match_) ;;
   has_body <- py_in_str "body" parsed ;;
   if negb has_body then Ok None
   else
     body <- py_getitem_str parsed "body" ;;
     body <- py_json_loads body ;;
     has_finance <- py_in_str "finance" body ;;
     if negb has_finance then Ok None
     else
       finance <- py_getitem_str body "finance" ;;
       has_result <- py_in_str "result" finance ;;
       if negb has_result then Ok None
       else
         finance <- py_getitem_str body "finance" ;;
         results <- py_getitem_str finance "result" ;;
         results <- py_iter results ;;
         scan_results results)%res.

(** [for match in matches: try: ... except (json.JSONDecodeError,
    KeyError): continue], then [return None]. *)
Fixpoint scan_matches (matches : list string) : result pyval :=
  match matches with
  | [] => Ok VNone
  | match_ :: matches' =>
      match try_match match_ with
      | Ok (Some d) => Ok d
      | Ok None => scan_matches matches'
      | Err e =>
          if caught_by [JSONDecodeError; KeyError] e
          then scan_matches matches'
          else Err e
      end
  end.

Definition _extract_earnings_from_sveltekit (page_content : string)
  : result pyval :=
  scan_matches (re_findall_sveltekit page_content).

(** *** [_get_data_dict] *)

Definition assign_prefix : string := "root.App.main = ".

(** The body of the fallback's [try]. *)
Definition legacy_page_data (page_content : string) : result pyval :=
  (page_data_string <-
     strs_index
       (filter (prefix assign_prefix) (str_split_char newline page_content))
       0 ;;
   let page_data_string := str_drop_last page_data_string in
   page_data_string <-
     strs_index (str_split_once assign_prefix page_data_string) 1 ;;
   py_json_loads (VStr page_data_string))%res.

(** What [_get_data_dict] does with the text of the page. *)
Definition page_data (page_content : string) : result pyval :=
  (earnings_data <- _extract_earnings_from_sveltekit page_content ;;
   if py_truthy earnings_data then Ok earnings_data
   else
     rcatch (legacy_page_data page_content) [IndexError; JSONDecodeError]
            (fun _ => Err unparseable))%res.

(** [time.sleep(seconds)]; that it refuses a delay that is negative or not
    a number is not modelled. *)
Definition time_sleep (seconds : pyval) : M unit :=
  fun w => (Ok tt, w ++ [EvSleep seconds])%list.

Definition requests_get_text (url : string) : M string :=
  fun w => (http_get w url, w ++ [EvGet url])%list.

Definition _get_data_dict (self : YahooEarningsCalendar) (url : string)
  : M pyval :=
  (_ <- time_sleep (delay self) ;;
   page_content <- requests_get_text url ;;
   lift (page_data page_content))%M.

(** *** [earnings_on] *)

Definition dated_url (date : pyval) (offset : Z) : string :=
  BASE_URL ++ "?day=" ++ strftime_ymd (ordinal_of date)
  ++ "&offset=" ++ str_of_int offset
  ++ "&size=" ++ str_of_int OFFSET_STEP.

(** [earnings_on(date, offset, count)] with an [int] offset.  [depth] is
    the number of nested calls the interpreter still allows:
    [RecursionError] when none is left. *)
Fixpoint earnings_on (depth : nat) (self : YahooEarningsCalendar)
  (date : pyval) (offset : Z) (count : pyval) {struct depth}
  : M (list pyval) :=
  match depth with
  | O => raise (Exn RecursionError EmptyString)
  | S depth' =>
      (stop <- lift (py_ge (VInt offset) count) ;;
       if stop then ret []
       else if negb (isinstance_date date) then raise date_type_error
       else
         page_data_dict <- _get_data_dict self (dated_url date offset) ;;
         stores_dict <- lift (py_getpath page_data_dict stores_path) ;;
         earnings_count <- lift (py_getpath stores_dict total_path) ;;
         let new_offset := offset + OFFSET_STEP in
         more_earnings <-
           earnings_on depth' self date new_offset earnings_count ;;
         curr_offset_earnings <- lift (py_getpath stores_dict rows_path) ;;
         lift (py_add_list curr_offset_earnings more_earnings))%M
  end.

(** *** [earnings_between] *)

(** [while current_date <= to_date: earnings_data +=
    self.earnings_on(current_date); current_date += delta], for at most
    [n] tests of the condition. *)
Fixpoint between_loop (n depth : nat) (self : YahooEarningsCalendar)
  (current_date to_date : pyval) (earnings_data : list pyval) {struct n}
  : M (list pyval) :=
  match n with
  | O => ret earnings_data
  | S n' =>
      (continue <- lift (py_le current_date to_date) ;;
       if continue then
         day <- earnings_on depth self current_date 0 (VInt 1) ;;
         current_date <- lift (add_one_day current_date) ;;
         between_loop n' depth self current_date to_date
                      (earnings_data ++ day)%list
       else ret earnings_data)%M
  end.

(** The loop tests its condition at most this many times: each turn moves
    [current_date] one day towards [to_date]. *)
Definition between_bound (from_date to_date : pyval) : nat :=
  Z.to_nat (ordinal_of to_date - ordinal_of from_date + 2).

Definition earnings_between (depth : nat) (self : YahooEarningsCalendar)
  (from_date to_date : pyval) : M (list pyval) :=
  (after <- lift (py_gt from_date to_date) ;;
   if after then raise range_error
   else if negb (isinstance_date from_date && isinstance_date to_date)
   then raise range_type_error
   else
     between_loop (between_bound from_date to_date) depth self
                  from_date to_date [])%M.

(** *** [get_earnings_of] *)

Definition symbol_url (symbol : string) : string :=
  "https://finance.yahoo.com/calendar/earnings?symbol=" ++ symbol.

Definition get_earnings_of (self : YahooEarningsCalendar) (symbol : string)
  : M pyval :=
  try_except
    (page_data_dict <- _get_data_dict self (symbol_url symbol) ;;
     lift (py_getpath page_data_dict (stores_path ++ rows_path)%list))%M
    (fun _ => raise symbol_error).

(** *** [get_next_earnings_date] *)

(** The body of the inner [try] for a start time that is a string. *)
Definition upcoming_of_str (s : string) : result (option pyval) :=
  if str_contains "T" s then
    let dt_str :=
      if str_contains "." s then hd EmptyString (str_split_char "." s)
      else str_take 19 s in
    match strptime dt_str with
    | None => raise_ ValueError
    | Some earnings_dt =>
        if is_ge (Some (dt_compare earnings_dt utcnow))
        then (t <- timestamp earnings_dt ;; Ok (Some (VInt t)))%res
        else Ok None
    end
  else Ok None.

(** One turn of the [for earning in sorted(...)] loop: [Some t] for
    [return t], [None] to go on with the next record. *)
Definition upcoming_timestamp (earning : pyval) : result (option pyval) :=
  (start_datetime_str <- py_get earning "startdatetime" (VStr EmptyString) ;;
   if py_truthy start_datetime_str then
     rcatch
       match start_datetime_str with
       | VStr s => upcoming_of_str s
       | other =>
           has_T <- py_in_str "T" other ;;
           if has_T then
             has_dot <- py_in_str "." other ;;
             if has_dot then raise_ AttributeError else raise_ TypeError
           else Ok None
       end
       [ValueError] (fun _ => Ok None)
   else Ok None)%res.

Fixpoint scan_upcoming (earnings : list pyval) : result pyval :=
  match earnings with
  | [] => Err no_upcoming
  | earning :: earnings' =>
      (r <- upcoming_timestamp earning ;;
       match r with
       | Some t => Ok t
       | None => scan_upcoming earnings'
       end)%res
  end.

(** [sorted(earnings, key=lambda x: x.get('startdatetime', ''))]. *)
Definition sorted_by_start (earnings : pyval) : result (list pyval) :=
  (items <- py_iter earnings ;;
   keyed <-
     rmap (fun x => k <- py_get x "startdatetime" (VStr EmptyString) ;;
                    Ok (k, x)) items ;;
   sorted <- sort_by_key keyed ;;
   Ok (map snd sorted))%res.

Definition quote_summary_path : list string :=
  ["context"; "dispatcher"; "stores"; "QuoteSummaryStore"; "calendarEvents";
   "earnings"; "earningsDate"].

(** The value of [page_data_dict[...]['earningsDate'][0]['raw']]. *)
Definition quote_summary_raw (page_data_dict : pyval) : result pyval :=
  (dates <- py_getpath page_data_dict quote_summary_path ;;
   first <- py_getitem_int dates 0 ;;
   py_getitem_str first "raw")%res.

Definition stock_url (symbol : string) : string :=
  BASE_STOCK_URL ++ "/" ++ symbol.

(** The value returned is the timestamp, or [None] where the function ends
    without a [return]. *)
Definition get_next_earnings_date (self : YahooEarningsCalendar)
  (symbol : string) : M pyval :=
  try_except
    (page_data_dict <- _get_data_dict self (stock_url symbol) ;;
     match quote_summary_raw page_data_dict with
     | Ok raw => ret raw
     | Err e =>
         if caught_by [KeyError; TypeError; IndexError] e then
           earnings <- get_earnings_of self symbol ;;
           if py_truthy earnings then
             n <- lift (py_len earnings) ;;
             if Nat.ltb 0 n then
               sorted <- lift (sorted_by_start earnings) ;;
               lift (scan_upcoming sorted)
             else ret VNone
           else ret VNone
         else raise e
     end)%M
    (fun e =>
       if caught_by [ValueError; KeyError; TypeError] e then raise symbol_error
       else if caught_by [Exception] e then raise symbol_error
       else raise e).

End Scraper.

(** ** A concrete site

    An instance of the library functions and of the server, on which the
    operations run to a value: pages in both layouts, written as the JSON
    text of the values they carry. *)

Module Demo.

(** [s] with its double quotes and backslashes escaped, as inside a JSON
    string. *)
Fixpoint json_escape (s : string) : string :=
  match s with
  | EmptyString => EmptyString
  | String a s' =>
      if Ascii.eqb a (ascii_of_nat 34) || Ascii.eqb a (ascii_of_nat 92)
      then String (ascii_of_nat 92) (String a (json_escape s'))
      else String a (json_escape s')
  end.

(** The JSON text of a value made of [None], booleans, integers, strings,
    lists and dicts with string keys, the only values on the pages of this
    site. *)
Fixpoint json_text (v : pyval) : string :=
  match v with
  | VNone => "null"
  | VBool b => if b then "true" else "false"
  | VInt z => str_of_int z
  | VStr s => dquote ++ json_escape s ++ dquote
  | VList l =>
      "[" ++
      (fix items (l : list pyval) : string :=
         match l with
         | [] => EmptyString
         | [x] => json_text x
         | x :: l' => json_text x ++ ", " ++ items l'
         end) l
      ++ "]"
  | VDict d =>
      "{" ++
      (fix members (d : list (pyval * pyval)) : string :=
         match d with
         | [] => EmptyString
         | [(k, x)] => json_text k ++ ": " ++ json_text x
         | (k, x) :: d' =>
             json_text k ++ ": " ++ json_text x ++ ", " ++ members d'
         end) d
      ++ "}"
  | VFloat _ | VDate _ | VDateTime _ _ => "null"
  end.

(** [date.fromordinal(o).strftime('%Y-%m-%d')] for a year of four digits. *)
Definition pad (width : nat) (z : Z) : string :=
  let s := str_of_int z in
  string_of_list_ascii
    (repeat "0"%char (width - String.length s)) ++ s.

Definition civil_of_ordinal (o : Z) : Z * Z * Z :=
  let z := o + 305 in
  let era := z / 146097 in
  let doe := z - era * 146097 in
  let yoe := (doe - doe / 1460 + doe / 36524 - doe / 146096) / 365 in
  let doy := doe - (365 * yoe + yoe / 4 - yoe / 100) in
  let mp := (5 * doy + 2) / 153 in
  let d := doy - (153 * mp + 2) / 5 + 1 in
  let m := if mp <? 10 then mp + 3 else mp - 9 in
  let y := yoe + era * 400 + (if m <=? 2 then 1 else 0) in
  (y, m, d).

Definition strftime_ymd (o : Z) : string :=
  let '(y, m, d) := civil_of_ordinal o in
  pad 4 y ++ "-" ++ pad 2 m ++ "-" ++ pad 2 d.

(** [date(y, m, d).toordinal()]. *)
Definition ordinal_of_civil (y m d : Z) : Z :=
  let y' := if m <=? 2 then y - 1 else y in
  let era := y' / 400 in
  let yoe := y' - era * 400 in
  let mp := if 2 <? m then m - 3 else m + 9 in
  let doy := (153 * mp + 2) / 5 + d - 1 in
  let doe := yoe * 365 + yoe / 4 - yoe / 100 + doy in
  era * 146097 + doe - 305.

Definition digit (a : ascii) : option Z :=
  let n := nat_of_ascii a in
  if Nat.leb 48 n && Nat.leb n 57 then Some (Z.of_nat (n - 48)) else None.

Fixpoint digits (l : list ascii) (acc : Z) : option Z :=
  match l with
  | [] => Some acc
  | a :: l' =>
      match digit a with
      | Some d => digits l' (10 * acc + d)
      | None => None
      end
  end.

(** [datetime.strptime(s, '%Y-%m-%dT%H:%M:%S')] on the zero-padded form
    (the interpreter also reads fields of one digit; the site has none). *)
Definition strptime (s : string) : option (Z * Z) :=
  match list_ascii_of_string s with
  | [y1; y2; y3; y4; "-"; m1; m2; "-"; d1; d2; "T";
     h1; h2; ":"; n1; n2; ":"; s1; s2]%char =>
      match digits [y1; y2; y3; y4] 0, digits [m1; m2] 0, digits [d1; d2] 0,
            digits [h1; h2] 0, digits [n1; n2] 0, digits [s1; s2] 0 with
      | Some y, Some m, Some d, Some h, Some n, Some sec =>
          let o := ordinal_of_civil y m d in
          let '(y', m', d') := civil_of_ordinal o in
          if (1 <=? y) && (y' =? y) && (m' =? m) && (d' =? d)
             && (h <? 24) && (n <? 60) && (sec <? 60)
          then Some (o, ((h * 60 + n) * 60 + sec) * 1000000)
          else None
      | _, _, _, _, _, _ => None
      end
  | _ => None
  end.

(** [int(d.timestamp())] on a machine whose local time is UTC. *)
Definition timestamp (d : Z * Z) : result Z :=
  Ok ((fst d - 719163) * 86400 + snd d / 1000000).

(** The clock: 2026-11-04 12:00:00. *)
Definition utcnow : Z * Z := (ordinal_of_civil 2026 11 4, 43200000000).

(** *** Pages *)

Definition nl : string := String newline EmptyString.

(** A page of the current layout: the visualization answer [body] inside a
    [data-sveltekit-fetched] script element, after another such element
    that is not a visualization answer. *)
Definition fetched (body : pyval) : pyval :=
  VDict [(VStr "status", VInt 200); (VStr "statusText", VStr "OK");
         (VStr "headers", VDict []); (VStr "body", VStr (json_text body))].

Definition sveltekit_page (body : pyval) : string :=
  "<!doctype html>" ++ nl ++ "<html><body>" ++ nl
  ++ "<script type=" ++ dquote ++ "application/json" ++ dquote
  ++ " data-sveltekit-fetched data-url=" ++ dquote
  ++ "https://query1.finance.yahoo.com/v1/test/getcrumb" ++ dquote
  ++ ">{}</script>" ++ nl
  ++ tag_open ++ "1" ++ tag_host ++ "?lang=en-US&region=US" ++ dquote
  ++ " data-ttl=" ++ dquote ++ "1" ++ dquote ++ ">"
  ++ json_text (fetched body) ++ "</script>" ++ nl
  ++ "</body></html>" ++ nl.

(** A page of the old layout: the data assigned to [root.App.main]. *)
Definition legacy_page (data : pyval) : string :=
  "<html><script>" ++ nl
  ++ "root.App = {};" ++ nl
  ++ assign_prefix ++ json_text data ++ ";" ++ nl
  ++ "</script></html>" ++ nl.

Definition error_page : string := "<html><body>Not Found</body></html>".

Definition column (id : string) : pyval :=
  VDict [(VStr "id", VStr id); (VStr "label", VStr id)].

Definition column_ids : list string :=
  ["ticker"; "companyshortname"; "startdatetime"; "epsestimate"].

(** The visualization answer for a table of rows and a total. *)
Definition earnings_doc (table : list (list pyval)) : pyval :=
  VDict [(VStr "entityIdType", VStr "SP_EARNINGS");
         (VStr "columns", VList (map column column_ids));
         (VStr "rows", VList (map VList table))].

Definition visualization (table : list (list pyval)) (total : Z) : pyval :=
  VDict [(VStr "finance",
          VDict [(VStr "result",
                  VList [VDict [(VStr "documents",
                                  VList [VDict [(VStr "entityIdType",
                                                 VStr "SP_SCREENER")];
                                         earnings_doc table]);
                                (VStr "total", VInt total)]]);
                 (VStr "error", VNone)])].

Definition row (ticker company start : string) : list pyval :=
  [VStr ticker; VStr company; VStr start; VNone].

(** The record of a row, as the old layout carries it. *)
Definition record (r : list pyval) : pyval :=
  VDict (combine (map VStr column_ids) r).

(** 2018-02-01: three announcements, on one page of the current layout. *)
Definition day_a : Z := ordinal_of_civil 2018 2 1.
Definition table_a : list (list pyval) :=
  [row "AAPL" "Apple Inc." "2018-02-01T21:00:00.000Z";
   row "AMZN" "Amazon.com, Inc." "2018-02-01T21:00:00.000Z";
   row "GOOG" "Alphabet Inc." "2018-02-01T21:00:00.000Z"].

(** 2018-02-02: the same announcements, on a page of the old layout. *)
Definition day_a_legacy : Z := ordinal_of_civil 2018 2 2.

(** 2018-02-03: a day without announcements. *)
Definition day_empty : Z := ordinal_of_civil 2018 2 3.

(** 2018-02-05: 250 announcements, on three pages. *)
Definition day_c : Z := ordinal_of_civil 2018 2 5.
Definition table_c : list (list pyval) :=
  map (fun k => row ("T" ++ str_of_int (Z.of_nat k)) "Company"
                    "2018-02-05T12:00:00.000Z")
      (seq 0 250).
Definition page_c (k : nat) : list (list pyval) :=
  firstn 100 (skipn (100 * k) table_c).

(** 9999-12-31, the last date there is: one announcement. *)
Definition table_max : list (list pyval) :=
  [row "LAST" "Last Corp." "9999-12-31T12:00:00.000Z"].

(** Symbols: [box] has a past and two coming announcements, [old] only past
    ones, [none] no announcement; their quote pages are of the old layout
    without a quote summary, that of [leg] has one. *)
Definition table_box : list (list pyval) :=
  [row "BOX" "Box, Inc." "2027-05-27T20:05:00.000Z";
   row "BOX" "Box, Inc." "2025-08-26T20:05:00.000Z";
   row "BOX" "Box, Inc." "2027-03-02T21:05:00.000Z";
   [VStr "BOX"; VStr "Box, Inc."; VStr "2028-01-01"; VNone]].
Definition table_old : list (list pyval) :=
  [row "OLD" "Old Corp." "2019-08-26T20:05:00.000Z";
   row "OLD" "Old Corp." "2020-02-30T20:05:00.000Z"].

Definition quote_data : pyval :=
  VDict [(VStr "context",
    VDict [(VStr "dispatcher",
      VDict [(VStr "stores", VDict [(VStr "PageStore", VDict [])])])])].

Definition quote_data_leg : pyval :=
  VDict [(VStr "context",
    VDict [(VStr "dispatcher",
      VDict [(VStr "stores",
        VDict [(VStr "QuoteSummaryStore",
          VDict [(VStr "calendarEvents",
            VDict [(VStr "earnings",
              VDict [(VStr "earningsDate",
                VList [VDict [(VStr "raw", VInt 1803600000);
                              (VStr "fmt", VStr "2027-02-25")]])])])])])])])].

(** A page of the current layout with one visualization element for each
    of the texts [candidates]. *)
Definition candidates_page (candidates : list string) : string :=
  "<!doctype html>" ++ nl ++ "<html><body>" ++ nl
  ++ String.concat nl
       (map (fun text =>
               tag_open ++ "2" ++ tag_host ++ "?lang=en-US" ++ dquote ++ ">"
               ++ text ++ "</script>")
            candidates)
  ++ nl ++ "</body></html>" ++ nl.

(** A visualization answer whose earnings document has a column without
    an identifier. *)
Definition doc_no_id : pyval :=
  VDict [(VStr "entityIdType", VStr "SP_EARNINGS");
         (VStr "columns", VList [VDict [(VStr "label", VStr "Symbol")]]);
         (VStr "rows", VList [])].

Definition visualization_no_id : pyval :=
  VDict [(VStr "finance",
          VDict [(VStr "result",
                  VList [VDict [(VStr "documents", VList [doc_no_id])]])])].

(** Candidates that do not match: text that is not JSON, an answer without
    a body, a body without [finance], a column without [id]. *)
Definition bad_candidates : list string :=
  ["{oops}";
   json_text (VDict [(VStr "status", VInt 404)]);
   json_text (fetched (VDict []));
   json_text (fetched visualization_no_id)].

Definition broken_page : string := candidates_page bad_candidates.

(** A candidate that parses to an answer whose body is a number. *)
Definition odd_candidate : string :=
  json_text (VDict [(VStr "body", VInt 5)]).

Definition good_candidate : string :=
  json_text (fetched (visualization table_a 3)).

Definition mixed_page : string :=
  candidates_page (bad_candidates ++ [good_candidate]).

(** A columnar document with a row shorter and a row longer than the list
    of columns, and an identifier that comes twice. *)
Definition ragged_doc : pyval :=
  VDict [(VStr "entityIdType", VStr "SP_EARNINGS");
         (VStr "columns",
          VList (map column ["ticker"; "eps"; "ticker"]));
         (VStr "rows",
          VList (map VList [[VStr "A"; VInt 1];
                            [VStr "B"; VInt 2; VStr "C"; VInt 4];
                            []]))].

(** The result object of the visualization answer for [table_a]. *)
Definition result_a : pyval :=
  VDict [(VStr "documents",
          VList [VDict [(VStr "entityIdType", VStr "SP_SCREENER")];
                 earnings_doc table_a]);
         (VStr "total", VInt 3)].

Definition self : YahooEarningsCalendar := {| delay := VInt 0 |}.

Definition day_url (o offset : Z) : string :=
  dated_url strftime_ymd (VDate o) offset.

(** The site: the page behind each address. *)
Definition site : list (string * string) :=
  [(day_url day_a 0, sveltekit_page (visualization table_a 3));
   (day_url day_a_legacy 0,
    legacy_page (legacy_dict (VInt 3) (VList (map record table_a))));
   (day_url day_empty 0, sveltekit_page (visualization [] 0));
   (day_url day_c 0, sveltekit_page (visualization (page_c 0) 250));
   (day_url day_c 100, sveltekit_page (visualization (page_c 1) 250));
   (day_url day_c 200, sveltekit_page (visualization (page_c 2) 250));
   (day_url MAX_ORDINAL 0, sveltekit_page (visualization table_max 1));
   (stock_url "box", legacy_page quote_data);
   (stock_url "old", legacy_page quote_data);
   (stock_url "none", legacy_page quote_data);
   (stock_url "leg", legacy_page quote_data_leg);
   (symbol_url "box", sveltekit_page (visualization table_box 4));
   (symbol_url "old", sveltekit_page (visualization table_old 2));
   (symbol_url "none", sveltekit_page (visualization [] 0));
   (stock_url "bad", broken_page);
   (symbol_url "mixed", mixed_page)].

Fixpoint page_at (url : string) (pages : list (string * string)) : string :=
  match pages with
  | [] => error_page
  | (u, text) :: pages' => if String.eqb u url then text else page_at url pages'
  end.

Definition http_get (_ : world) (url : string) : result string :=
  Ok (page_at url site).

(** The values whose JSON text the pages of the site carry. *)
Definition bodies : list pyval :=
  [visualization table_a 3; visualization [] 0;
   visualization (page_c 0) 250; visualization (page_c 1) 250;
   visualization (page_c 2) 250; visualization table_max 1;
   visualization table_box 4; visualization table_old 2].

Definition texts : list pyval :=
  VDict [] :: legacy_dict (VInt 3) (VList (map record table_a))
  :: quote_data :: quote_data_leg
  :: VDict [(VStr "status", VInt 404)] :: fetched (VDict [])
  :: VDict [(VStr "body", VInt 5)]
  :: visualization_no_id :: fetched visualization_no_id
  :: bodies ++ map fetched bodies.

(** [json.loads] on the JSON texts of the site; any other string of the
    site's pages is not JSON. *)
Definition json_loads (s : string) : option pyval :=
  find (fun v => String.eqb (json_text v) s) texts.

End Demo.

(** ** Vocabulary of the properties *)

(** [ceil(a / b)]. *)
Definition ceil_div (a b : Z) : Z := (a + b - 1) / b.

(** The pages [earnings_on] asks for when the total is [T]: the first one,
    then one for every further hundred begun. *)
Definition pages (T : nat) : nat :=
  Nat.max 1 (Z.to_nat (ceil_div (Z.of_nat T) 100)).

(** The [k]-th page of a day's records. *)
Definition page_slice (db : list pyval) (k : nat) : list pyval :=
  firstn 100 (skipn (100 * k) db).

(** A pure calendar date: a [datetime.date] that carries no time. *)
Definition pure_calendar_date (v : pyval) : bool :=
  match v with
  | VDate _ => true
  | _ => false
  end.

(** The contents of a page's result set: its rows and its total count, the
    two places of the data that [earnings_on] and [get_earnings_of] read. *)
Definition page_result_set (data : pyval) : result (pyval * pyval) :=
  (rows <- py_getpath data (stores_path ++ rows_path)%list ;;
   total <- py_getpath data (stores_path ++ total_path)%list ;;
   Ok (rows, total))%res.

(** The row-mappings of a table under its column identifiers. *)
Definition records (ids : list string) (table : list (list pyval))
  : list pyval :=
  map (fun r => VDict (combine (map VStr ids) r)) table.

(** [doc] lays the table out in columns: a list of columns, each with its
    identifier under [id], and the rows as positional lists. *)
Definition columnar (doc : pyval) (ids : list string)
  (table : list (list pyval)) : Prop :=
  exists cols,
    py_get doc "columns" (VList []) = Ok (VList cols)
    /\ rmap (fun col => py_getitem_str col "id") cols = Ok (map VStr ids)
    /\ py_get doc "rows" (VList []) = Ok (VList (map VList table)).

(** The value a record holds for the column at position [i] of a row. *)
Definition cell (r : list pyval) (i : nat) : pyval :=
  nth i r VNone.

(** The dict the inner loop of the normalizer builds for the list row [r],
    from position [i] on: each column identifier gets the cell at its
    position. *)
Fixpoint filled (r : list pyval) (i : nat) (columns : list string)
  (row_dict : list (pyval * pyval)) : list (pyval * pyval) :=
  match columns with
  | [] => row_dict
  | col :: columns' =>
      filled r (S i) columns' (dict_store (VStr col) (cell r i) row_dict)
  end.

(** The entries of distinct columns, in column order. *)
Fixpoint cells (r : list pyval) (i : nat) (columns : list string)
  : list (pyval * pyval) :=
  match columns with
  | [] => []
  | col :: columns' => (VStr col, cell r i) :: cells r (S i) columns'
  end.

(** Every key of the dict is a string. *)
Definition str_keyed (d : list (pyval * pyval)) : Prop :=
  Forall (fun kv => exists s, fst kv = VStr s) d.

Section Vocabulary.

Variable json_loads : string -> option pyval.
Variable http_get : world -> string -> result string.
Variable strftime_ymd : Z -> string.

(** The total and the rows of the page behind [url], as [earnings_on] reads
    them from what [_get_data_dict] returns. *)
Definition fetched_page (w : world) (url : string) : result (pyval * pyval) :=
  (text <- http_get w url ;;
   data <- page_data json_loads text ;;
   stores_dict <- py_getpath data stores_path ;;
   total <- py_getpath stores_dict total_path ;;
   rows <- py_getpath stores_dict rows_path ;;
   Ok (total, rows))%res.

(** The server answers the day queries for [date] from the records [db]:
    every page asked for carries its hundred records and the total. *)
Definition serves (date : pyval) (db : list pyval) : Prop :=
  forall (k : nat) (w : world),
    (k < pages (List.length db))%nat ->
    fetched_page w (dated_url strftime_ymd date (100 * Z.of_nat k))
    = Ok (VInt (Z.of_nat (List.length db)), VList (page_slice db k)).

(** The events of fetching pages [k], [k+1], ..., [k+n-1] of a day. *)
Definition page_events (self : YahooEarningsCalendar) (date : pyval)
  (k n : nat) : world :=
  flat_map (fun j => [EvSleep (delay self);
                      EvGet (dated_url strftime_ymd date (100 * Z.of_nat j))])
           (seq k n).

(** A candidate of the primary strategy that does not match: its text does
    not parse, a key is missing, or it holds no earnings document. *)
Definition no_match (match_ : string) : bool :=
  match try_match json_loads match_ with
  | Ok None => true
  | Ok (Some _) => false
  | Err e => caught_by [JSONDecodeError; KeyError] e
  end.


(** The records of the days of ordinals [l], a plain [earnings_on] for
    each day, one after the other. *)
Fixpoint each_day (depth : nat) (self : YahooEarningsCalendar) (l : list Z)
  : M (list pyval) :=
  match l with
  | [] => ret []
  | d :: l' =>
      (day <- earnings_on json_loads http_get strftime_ymd depth self
                          (VDate d) 0 (VInt 1) ;;
       rest <- each_day depth self l' ;;
       ret (day ++ rest)%list)%M
  end.

(** The ordinals of the [n] days from [a] on. *)
Definition days_from (a : Z) (n : nat) : list Z :=
  map (fun k => a + Z.of_nat k) (seq 0 n).

End Vocabulary.

(** ** A second site

    Pages whose data is not what the operations expect, and addresses that
    do not answer. *)

Module Odd.

(** 2018-03-01: a page of the old layout whose total is [null]. *)
Definition day_null_total : Z := Demo.ordinal_of_civil 2018 3 1.
Definition data_null_total : pyval :=
  legacy_dict VNone (VList (map Demo.record Demo.table_a)).

(** The symbol [short]: a coming announcement, and a row that ends before
    the start time. *)
Definition table_short : list (list pyval) :=
  [Demo.row "SHRT" "Short Corp." "2027-06-01T12:00:00.000Z";
   [VStr "SHRT"; VStr "Short Corp."]].

Definition site : list (string * string) :=
  [(Demo.day_url day_null_total 0, Demo.legacy_page data_null_total);
   (stock_url "short", Demo.legacy_page Demo.quote_data);
   (symbol_url "short",
    Demo.sveltekit_page (Demo.visualization table_short 2))].

Fixpoint answer (url : string) (pages : list (string * string))
  : result string :=
  match pages with
  | [] => Err (Exn RequestException "connection refused")
  | (u, text) :: pages' =>
      if String.eqb u url then Ok text else answer url pages'
  end.

(** An address that is not of the site does not answer: the request
    raises. *)
Definition http_get (_ : world) (url : string) : result string :=
  answer url site.

Definition texts : list pyval :=
  [data_null_total; Demo.quote_data; Demo.visualization table_short 2;
   Demo.fetched (Demo.visualization table_short 2)].

Definition json_loads (s : string) : option pyval :=
  find (fun v => String.eqb (Demo.json_text v) s) texts.

End Odd.

(** ** Vocabulary of the further properties *)

(** The events of fetching the pages at [urls], one after the other: a
    sleep of [self.delay] before each request. *)
Definition blocks (self : YahooEarningsCalendar) (urls : list string)
  : world :=
  flat_map (fun u => [EvSleep (delay self); EvGet u]) urls.

(** The offsets [offset], [offset + 100], ... of [n] pages. *)
Definition offsets_from (offset : Z) (n : nat) : list Z :=
  map (fun j => offset + OFFSET_STEP * Z.of_nat j) (seq 0 n).

(** The sort key of a record is a string. *)
Definition has_str_start (r : pyval) : Prop :=
  exists s, py_get r "startdatetime" (VStr EmptyString) = Ok (VStr s).

(** Two records in the order of their start strings. *)
Definition start_le (a b : pyval) : Prop :=
  exists s t,
    py_get a "startdatetime" (VStr EmptyString) = Ok (VStr s)
    /\ py_get b "startdatetime" (VStr EmptyString) = Ok (VStr t)
    /\ String.leb s t = true.

(** The last day a range between two datetimes reaches: the day of the end
    when the time of the start is not later than the time of the end, the
    day before otherwise. *)
Definition last_day (us : Z) (b vs : Z) : Z :=
  if us <=? vs then b else b - 1.

(** A document that is a dict and not an earnings document. *)
Definition plain_doc (doc : pyval) : bool :=
  match doc with
  | VDict fields =>
      match dict_lookup (VStr "entityIdType") fields with
      | Some t => negb (py_eq_str t "SP_EARNINGS")
      | None => true
      end
  | _ => false
  end.

(** A result object that holds no earnings document: a dict without
    [documents], or whose [documents] is a list of plain documents. *)
Definition no_earnings_doc (result_ : pyval) : bool :=
  match result_ with
  | VDict fields =>
      match dict_lookup (VStr "documents") fields with
      | None => true
      | Some (VList docs) => forallb plain_doc docs
      | Some _ => false
      end
  | _ => false
  end.

(** Two (key, record) pairs of the sort in the order of their keys, both
    keys strings and each the start string of its record. *)
Definition keyed_le (a b : pyval * pyval) : Prop :=
  exists s t,
    fst a = VStr s /\ fst b = VStr t /\ String.leb s t = true
    /\ py_get (snd a) "startdatetime" (VStr EmptyString) = Ok (fst a)
    /\ py_get (snd b) "startdatetime" (VStr EmptyString) = Ok (fst b).

(** A (key, record) pair of the sort whose key is a string. *)
Definition keyed_str (a : pyval * pyval) : Prop :=
  exists s,
    fst a = VStr s
    /\ py_get (snd a) "startdatetime" (VStr EmptyString) = Ok (fst a).

(** The sort key of the record with the entries [fields]. *)
Definition start_of (fields : list (pyval * pyval)) : pyval :=
  match dict_lookup (VStr "startdatetime") fields with
  | Some v => v
  | None => VStr EmptyString
  end.

Section SecondAttempt.

Variable strptime : string -> option (Z * Z).
Variable timestamp : Z * Z -> result Z.
Variable utcnow : Z * Z.

(** The moment a start string stands for: the text before its first dot,
    or its first nineteen characters when it has no dot, read in the format
    [%Y-%m-%dT%H:%M:%S]; none for a string without a [T] and for a text
    that does not have the format. *)
Definition start_moment (s : string) : option (Z * Z) :=
  if str_contains "T" s then
    strptime (if str_contains "." s
              then hd EmptyString (str_split_char "." s)
              else str_take 19 s)
  else None.

(** What [get_next_earnings_date] computes from the records of the symbol
    once the quote-summary path has failed. *)
Definition second_attempt (earnings : pyval) : result pyval :=
  if py_truthy earnings then
    (n <- py_len earnings ;;
     if Nat.ltb 0 n then
       sorted <- sorted_by_start earnings ;;
       scan_upcoming strptime timestamp utcnow sorted
     else Ok VNone)%res
  else Ok VNone.

End SecondAttempt.

(** * Properties *)

Section Properties.

Variable json_loads : string -> option pyval.
Variable http_get : world -> string -> result string.
Variable strftime_ymd : Z -> string.

Local Open Scope list_scope.

Abbreviation get_data := (_get_data_dict json_loads http_get).
Abbreviation on_date := (earnings_on json_loads http_get strftime_ymd).
Abbreviation between := (earnings_between json_loads http_get strftime_ymd).
Abbreviation url_of := (dated_url strftime_ymd).

(** ** The monad *)

Lemma bind_lift_ok {A B} (r : result A) (a : A) (k : A -> M B) (w : world) :
  r = Ok a -> bind (lift r) k w = k a w.
Proof. intros ->. reflexivity. Qed.

Lemma bind_lift_err {A B} (r : result A) (e : exn) (k : A -> M B) (w : world) :
  r = Err e -> bind (lift r) k w = (Err e, w).
Proof. intros ->. reflexivity. Qed.

Lemma py_getpath_app (v : pyval) (p q : list string) :
  py_getpath v (p ++ q) = rbind (py_getpath v p) (fun x => py_getpath x q).
Proof.
  revert v. induction p as [|k p IH]; intros v; simpl; [reflexivity|].
  destruct (py_getitem_str v k); simpl; [apply IH | reflexivity].
Qed.

(** [_get_data_dict] sleeps, asks for the page and extracts its data: two
    events whatever the outcome. *)
Lemma get_data_dict_run (self : YahooEarningsCalendar) (url : string)
  (w : world) :
  get_data self url w
  = (rbind (http_get (w ++ [EvSleep (delay self)]) url) (page_data json_loads),
     w ++ [EvSleep (delay self); EvGet url]).
Proof.
  unfold _get_data_dict, bind, time_sleep, requests_get_text, lift.
  rewrite <- app_assoc. simpl.
  destruct (http_get _ url); reflexivity.
Qed.

(** ** The short circuit of [earnings_on] *)

Lemma earnings_on_stop (depth : nat) (self : YahooEarningsCalendar)
  (date : pyval) (offset : Z) (count : pyval) (w : world) :
  py_ge (VInt offset) count = Ok true ->
  on_date (S depth) self date offset count w = (Ok [], w).
Proof.
  intros H. simpl. rewrite (bind_lift_ok _ true); [reflexivity | exact H].
Qed.

Lemma py_ge_ints (a b : Z) : py_ge (VInt a) (VInt b) = Ok (b <=? a).
Proof.
  unfold py_ge, py_le. simpl. unfold is_le.
  destruct (Z.compare_spec b a), (Z.leb_spec b a); try reflexivity; lia.
Qed.

(** C5. For all integer arguments with [offset >= limit], [earnings_on]
    returns the empty list and leaves the trace as it was: no sleep and no
    request. *)
Theorem earnings_on_offset_past_limit (depth : nat)
  (self : YahooEarningsCalendar) (date : pyval) (offset limit : Z) (w : world) :
  offset >= limit ->
  on_date (S depth) self date offset (VInt limit) w = (Ok [], w).
Proof.
  intros H. apply earnings_on_stop. rewrite py_ge_ints.
  destruct (Z.leb_spec limit offset); [reflexivity | lia].
Qed.

(** C9. Where [offset >= count] holds, [earnings_on] returns the empty list
    before it looks at [date]: a [date] that is no date object raises
    nothing, and nothing is fetched. *)
Theorem earnings_on_stops_before_validation (depth : nat)
  (self : YahooEarningsCalendar) (date : pyval) (offset : Z) (count : pyval)
  (w : world) :
  isinstance_date date = false ->
  py_ge (VInt offset) count = Ok true ->
  on_date (S depth) self date offset count w = (Ok [], w)
  /\ fetches (snd (on_date (S depth) self date offset count w)) = fetches w.
Proof.
  intros _ H. rewrite (earnings_on_stop _ _ _ _ _ _ H). split; reflexivity.
Qed.

(** ** Validation of the date *)

Lemma earnings_on_datetime (depth : nat) (self : YahooEarningsCalendar)
  (o us : Z) (offset : Z) (count : pyval) (w : world) :
  on_date depth self (VDateTime o us) offset count w
  = on_date depth self (VDate o) offset count w.
Proof.
  revert offset count w. induction depth as [|depth IH]; intros; [reflexivity|].
  cbn [earnings_on]. unfold dated_url. cbn [ordinal_of isinstance_date negb].
  unfold bind, lift.
  destruct (py_ge (VInt offset) count) as [[]|e]; try reflexivity.
  destruct (get_data self _ w) as [[d|e] w2]; [|reflexivity].
  destruct (py_getpath d stores_path) as [st|e]; [|reflexivity].
  destruct (py_getpath st total_path) as [c|e]; [|reflexivity].
  rewrite IH. reflexivity.
Qed.

(** C8, amended. A [date] that is no date object makes [earnings_on] raise
    [TypeError] (InvalidArgument) before anything is fetched, provided the
    call is not cut short by [offset >= count]; a [datetime.datetime], which
    carries a time, is a date object, and is queried as its calendar day. *)
Theorem earnings_on_rejects_non_dates (depth : nat)
  (self : YahooEarningsCalendar) (offset : Z) (count : pyval) (w : world) :
  py_ge (VInt offset) count = Ok false ->
  (forall date, isinstance_date date = false ->
     on_date (S depth) self date offset count w = (Err date_type_error, w))
  /\ (forall o us,
        on_date (S depth) self (VDateTime o us) offset count w
        = on_date (S depth) self (VDate o) offset count w).
Proof.
  intros H. split.
  - intros date Hd. simpl. rewrite (bind_lift_ok _ false) by exact H.
    rewrite Hd. reflexivity.
  - intros. apply earnings_on_datetime.
Qed.

(** ** Pagination *)

Abbreviation fetched := (fetched_page json_loads http_get).
Abbreviation events_of := (page_events strftime_ymd).

(** One call of [earnings_on] that fetches: the page, then the rest of the
    day from the next offset with the total of this page as the limit, then
    this page's rows in front. *)
Lemma earnings_on_page (depth : nat) (self : YahooEarningsCalendar)
  (date : pyval) (offset : Z) (count total rows : pyval) (w : world) :
  py_ge (VInt offset) count = Ok false ->
  isinstance_date date = true ->
  fetched (w ++ [EvSleep (delay self)]) (url_of date offset)
  = Ok (total, rows) ->
  on_date (S depth) self date offset count w
  = (rbind (fst (on_date depth self date (offset + OFFSET_STEP) total
                   (w ++ [EvSleep (delay self); EvGet (url_of date offset)])))
           (py_add_list rows),
     snd (on_date depth self date (offset + OFFSET_STEP) total
            (w ++ [EvSleep (delay self); EvGet (url_of date offset)]))).
Proof.
  intros Hge Hdate Hpage. cbn [earnings_on].
  rewrite (bind_lift_ok _ false) by exact Hge. rewrite Hdate. cbn [negb].
  unfold bind at 1. rewrite get_data_dict_run.
  unfold fetched_page in Hpage.
  destruct (http_get _ _) as [text|e]; [|discriminate]. cbn [rbind] in *.
  destruct (page_data json_loads text) as [data|e]; [|discriminate].
  cbn [rbind] in Hpage.
  destruct (py_getpath data stores_path) as [st|e] eqn:Hst; [|discriminate].
  cbn [rbind] in Hpage.
  destruct (py_getpath st total_path) as [t|e] eqn:Ht; [|discriminate].
  cbn [rbind] in Hpage.
  destruct (py_getpath st rows_path) as [r|e] eqn:Hr; [|discriminate].
  injection Hpage as -> ->.
  rewrite (bind_lift_ok _ st) by reflexivity.
  rewrite (bind_lift_ok _ total) by exact Ht.
  unfold bind at 1.
  destruct (on_date depth self date _ total _) as [[more|e] w'];
    [|reflexivity].
  rewrite (bind_lift_ok _ rows) by exact Hr. reflexivity.
Qed.

Lemma pages_pos (T : nat) : (1 <= pages T)%nat.
Proof. unfold pages. lia. Qed.

(** Beyond the first page, page [k] is asked for exactly when the total
    reaches past its offset. *)
Lemma page_wanted (T k : nat) :
  (1 <= k)%nat -> (k < pages T)%nat <-> 100 * Z.of_nat k < Z.of_nat T.
Proof.
  intros Hk. unfold pages, ceil_div.
  assert (Hc : 0 <= (Z.of_nat T + 100 - 1) / 100)
    by (apply Z.div_pos; lia).
  split; intros H.
  - assert (Z.of_nat k < (Z.of_nat T + 100 - 1) / 100) by lia.
    Z.div_mod_to_equations. lia.
  - assert (Z.of_nat k < (Z.of_nat T + 100 - 1) / 100)
      by (Z.div_mod_to_equations; lia).
    lia.
Qed.

Lemma page_events_cons (self : YahooEarningsCalendar) (date : pyval)
  (k n : nat) :
  events_of self date k (S n)
  = [EvSleep (delay self); EvGet (url_of date (100 * Z.of_nat k))]
    ++ events_of self date (S k) n.
Proof. reflexivity. Qed.

Lemma skipn_page (db : list pyval) (k : nat) :
  page_slice db k ++ skipn (100 * S k) db = skipn (100 * k) db.
Proof.
  unfold page_slice.
  replace (100 * S k)%nat with (100 + 100 * k)%nat by lia.
  rewrite <- skipn_skipn. apply firstn_skipn.
Qed.

(** From page [k >= 1] on, with the true total as the limit: the rest of
    the records, one fetch for each page that is left. *)
Lemma earnings_on_rest (self : YahooEarningsCalendar) (date : pyval)
  (db : list pyval) :
  isinstance_date date = true ->
  serves json_loads http_get strftime_ymd date db ->
  forall (m k depth : nat) (w : world),
    (1 <= k)%nat -> (k + m = pages (List.length db))%nat -> (m < depth)%nat ->
    on_date depth self date (100 * Z.of_nat k)
            (VInt (Z.of_nat (List.length db))) w
    = (Ok (skipn (100 * k) db), w ++ events_of self date k m).
Proof.
  intros Hdate Hserve. induction m as [|m IH]; intros k depth w Hk Hkm Hd.
  - destruct depth as [|depth]; [lia|].
    rewrite earnings_on_stop.
    + rewrite skipn_all2.
      * unfold page_events. cbn [seq flat_map]. rewrite app_nil_r. reflexivity.
      * assert (~ (k < pages (List.length db))%nat) by lia.
        rewrite page_wanted in H by exact Hk. lia.
    + rewrite py_ge_ints.
      assert (~ (k < pages (List.length db))%nat) by lia.
      rewrite page_wanted in H by exact Hk.
      destruct (Z.leb_spec (Z.of_nat (List.length db)) (100 * Z.of_nat k));
        [reflexivity | lia].
  - destruct depth as [|depth]; [lia|].
    assert (Hlt : (k < pages (List.length db))%nat) by lia.
    rewrite (earnings_on_page depth self date _ _
               (VInt (Z.of_nat (List.length db))) (VList (page_slice db k))).
    + replace (100 * Z.of_nat k + OFFSET_STEP) with (100 * Z.of_nat (S k))
        by (unfold OFFSET_STEP; lia).
      rewrite IH by lia. cbn [fst snd rbind py_add_list].
      rewrite skipn_page, page_events_cons, <- app_assoc. reflexivity.
    + rewrite py_ge_ints. apply page_wanted in Hlt; [|exact Hk].
      destruct (Z.leb_spec (Z.of_nat (List.length db)) (100 * Z.of_nat k));
        [lia | reflexivity].
    + exact Hdate.
    + apply Hserve. exact Hlt.
Qed.

Lemma concat_pages (db : list pyval) (m k : nat) :
  (List.length db <= 100 * (k + m))%nat ->
  List.concat (map (page_slice db) (seq k m)) = skipn (100 * k) db.
Proof.
  revert k. induction m as [|m IH]; intros k H.
  - cbn [seq map List.concat]. symmetry. apply skipn_all2. lia.
  - cbn [seq map List.concat]. rewrite IH by lia. apply skipn_page.
Qed.

Lemma pages_cover (T : nat) : (T <= 100 * pages T)%nat.
Proof.
  unfold pages, ceil_div.
  assert (0 <= (Z.of_nat T + 100 - 1) / 100) by (apply Z.div_pos; lia).
  assert (Z.of_nat T <= 100 * ((Z.of_nat T + 100 - 1) / 100))
    by (Z.div_mod_to_equations; lia).
  lia.
Qed.

Lemma fetches_app (w v : world) : fetches (w ++ v) = fetches w ++ fetches v.
Proof.
  induction w as [|[d|u] w IH]; cbn [fetches app]; [reflexivity | exact IH |].
  rewrite IH. reflexivity.
Qed.

Lemma fetches_page_events (self : YahooEarningsCalendar) (date : pyval)
  (k n : nat) :
  fetches (events_of self date k n)
  = map (fun j => url_of date (100 * Z.of_nat j)) (seq k n).
Proof.
  revert k. induction n as [|n IH]; intros k; [reflexivity|].
  rewrite page_events_cons. cbn [app fetches seq map]. rewrite IH.
  reflexivity.
Qed.

(** C1, amended. Against a server that answers every page of a day with
    its hundred records of [db] and the total [T = length db], and with
    enough nesting depth for one call per page and the closing one,
    [earnings_on date] returns exactly the [T] records: the pages in
    increasing offset order, the current page first.  It fetches
    [max 1 (ceil (T / 100))] pages, at offsets 0, 100, 200, ...: one page
    even when [T = 0], since the total is only known from the first page. *)
Theorem earnings_on_paginates (self : YahooEarningsCalendar) (date : pyval)
  (db : list pyval) (depth : nat) (w : world) :
  isinstance_date date = true ->
  serves json_loads http_get strftime_ymd date db ->
  (pages (List.length db) < depth)%nat ->
  let n := pages (List.length db) in
  on_date depth self date 0 (VInt 1) w = (Ok db, w ++ events_of self date 0 n)
  /\ db = List.concat (map (page_slice db) (seq 0 n))
  /\ fetches (events_of self date 0 n)
     = map (fun k => url_of date (100 * Z.of_nat k)) (seq 0 n)
  /\ Z.of_nat n = Z.max 1 (ceil_div (Z.of_nat (List.length db)) 100).
Proof.
  intros Hdate Hserve Hdepth n. subst n.
  pose proof (pages_pos (List.length db)) as Hpos.
  repeat split.
  - destruct depth as [|depth]; [lia|].
    rewrite (earnings_on_page depth self date 0 (VInt 1)
               (VInt (Z.of_nat (List.length db))) (VList (page_slice db 0))).
    + change (0 + OFFSET_STEP) with (100 * Z.of_nat 1).
      destruct (pages (List.length db)) as [|m] eqn:Hm; [lia|].
      rewrite (earnings_on_rest self date db Hdate Hserve m 1 depth)
        by lia.
      cbn [fst snd rbind py_add_list].
      rewrite page_events_cons, <- app_assoc.
      change 1%nat with (S 0) at 1. rewrite skipn_page. reflexivity.
    + reflexivity.
    + exact Hdate.
    + apply (Hserve 0%nat). lia.
  - rewrite concat_pages; [reflexivity|].
    pose proof (pages_cover (List.length db)). lia.
  - apply fetches_page_events.
  - unfold pages, ceil_div.
    assert (0 <= (Z.of_nat (List.length db) + 100 - 1) / 100)
      by (apply Z.div_pos; lia).
    lia.
Qed.

(** ** Extraction: candidates and strategies *)

Abbreviation extract := (_extract_earnings_from_sveltekit json_loads).
Abbreviation scan := (scan_matches json_loads).




(** ** The normalizer *)

Lemma key_eqb_str (s t : string) : key_eqb (VStr s) (VStr t) = String.eqb s t.
Proof. reflexivity. Qed.

Lemma dict_store_str_keyed (s : string) (v : pyval) (d : list (pyval * pyval)) :
  str_keyed d -> str_keyed (dict_store (VStr s) v d).
Proof.
  induction 1 as [|[k x] d [u Hu] Hd IH]; cbn [dict_store].
  - repeat constructor. exists s. reflexivity.
  - cbn [fst] in Hu. subst k. destruct (key_eqb (VStr s) (VStr u)).
    + constructor; [exists u; reflexivity | exact Hd].
    + constructor; [exists u; reflexivity | exact IH].
Qed.

(** Looking a string key up after a store under a string key. *)
Lemma dict_lookup_store (s t : string) (v : pyval) (d : list (pyval * pyval)) :
  str_keyed d ->
  dict_lookup (VStr s) (dict_store (VStr t) v d)
  = if String.eqb s t then Some v else dict_lookup (VStr s) d.
Proof.
  induction 1 as [|[k x] d [u Hu] Hd IH]; cbn [dict_store dict_lookup].
  - rewrite key_eqb_str. reflexivity.
  - cbn [fst] in Hu. subst k. rewrite !key_eqb_str.
    destruct (String.eqb_spec t u) as [->|Htu]; cbn [dict_lookup].
    + rewrite key_eqb_str. destruct (String.eqb s u); reflexivity.
    + rewrite key_eqb_str, IH.
      destruct (String.eqb_spec s u) as [->|Hsu]; [|reflexivity].
      destruct (String.eqb_spec u t); [congruence | reflexivity].
Qed.

Lemma filled_str_keyed (r : list pyval) (columns : list string) :
  forall i d, str_keyed d -> str_keyed (filled r i columns d).
Proof.
  induction columns as [|c columns IH]; intros i d Hd; [exact Hd|].
  cbn [filled]. apply IH, dict_store_str_keyed, Hd.
Qed.

(** On a list row the inner loop of the normalizer builds [filled]. *)
Lemma fill_row_list (r : list pyval) (columns : list string) :
  forall i d,
    fill_row (VList r) i (map VStr columns) d = Ok (filled r i columns d).
Proof.
  induction columns as [|c columns IH]; intros i d; [reflexivity|].
  cbn [map fill_row filled py_len rbind].
  assert (Hcell : (if Nat.ltb i (List.length r)
                   then py_getitem_int (VList r) i else Ok VNone)
                  = Ok (cell r i)).
  { unfold cell. destruct (Nat.ltb_spec i (List.length r)) as [Hi|Hi].
    - cbn [py_getitem_int].
      destruct (nth_error r i) as [v|] eqn:Hn.
      + rewrite (nth_error_nth _ _ VNone Hn). reflexivity.
      + apply nth_error_None in Hn. lia.
    - rewrite nth_overflow by lia. reflexivity. }
  rewrite Hcell. cbn [rbind dict_setitem hashable]. apply IH.
Qed.

Lemma filled_app (r : list pyval) (a b : list string) :
  forall i d,
    filled r i (a ++ b) d = filled r (i + List.length a) b (filled r i a d).
Proof.
  induction a as [|c a IH]; intros i d; cbn [app filled List.length].
  - rewrite Nat.add_0_r. reflexivity.
  - rewrite IH. f_equal. lia.
Qed.

(** Every column identifier ends up a key of the record. *)
Lemma filled_has_key (r : list pyval) (s : string) (columns : list string) :
  forall i d,
    str_keyed d ->
    In s columns \/ dict_lookup (VStr s) d <> None ->
    dict_lookup (VStr s) (filled r i columns d) <> None.
Proof.
  induction columns as [|c columns IH]; intros i d Hd H; cbn [filled].
  - destruct H as [[]|H]; exact H.
  - apply IH; [apply dict_store_str_keyed, Hd|].
    rewrite dict_lookup_store by exact Hd.
    destruct (String.eqb_spec s c) as [->|Hsc]; [right; discriminate|].
    destruct H as [[->|H]|H]; [congruence | left; exact H | right; exact H].
Qed.

(** Past the end of the row, every column is filled with [None]. *)
Lemma filled_past_end (r : list pyval) (s : string) (columns : list string) :
  forall i d,
    str_keyed d ->
    (List.length r <= i)%nat ->
    In s columns \/ dict_lookup (VStr s) d = Some VNone ->
    dict_lookup (VStr s) (filled r i columns d) = Some VNone.
Proof.
  induction columns as [|c columns IH]; intros i d Hd Hi H; cbn [filled].
  - destruct H as [[]|H]; exact H.
  - apply IH; [apply dict_store_str_keyed, Hd | lia |].
    rewrite dict_lookup_store by exact Hd.
    unfold cell. rewrite nth_overflow by lia.
    destruct (String.eqb_spec s c) as [->|Hsc]; [right; reflexivity|].
    destruct H as [[->|H]|H]; [congruence | left; exact H | right; exact H].
Qed.

Lemma rmap_map {A B C} (f : B -> result C) (g : A -> B) (h : A -> C)
  (l : list A) :
  (forall a, f (g a) = Ok (h a)) -> rmap f (map g l) = Ok (map h l).
Proof.
  intros H. induction l as [|a l IH]; [reflexivity|].
  cbn [rmap map]. rewrite H, IH. reflexivity.
Qed.

(** The normalizer on a columnar document. *)
Lemma convert_columnar (result_ doc total : pyval) (ids : list string)
  (table : list (list pyval)) :
  columnar doc ids table ->
  py_get result_ "total" (VInt (Z.of_nat (List.length table))) = Ok total ->
  _convert_visualization_to_dict result_ doc
  = Ok (legacy_dict total
          (VList (map (fun r => VDict (filled r 0 ids [])) table))).
Proof.
  intros (cols & Hcols & Hids & Hrows) Htotal.
  unfold _convert_visualization_to_dict.
  rewrite Hcols. cbn [rbind py_iter]. rewrite Hids. cbn [rbind].
  rewrite Hrows. cbn [rbind py_iter].
  rewrite (rmap_map _ VList (fun r => VDict (filled r 0 ids []))).
  - cbn [rbind py_len]. rewrite length_map, Htotal. reflexivity.
  - intros r. rewrite fill_row_list. reflexivity.
Qed.

(** A column that does not come again leaves what is stored under its
    identifier alone. *)
Lemma filled_other (r : list pyval) (s : string) (columns : list string) :
  forall i d,
    str_keyed d ->
    ~ In s columns ->
    dict_lookup (VStr s) (filled r i columns d) = dict_lookup (VStr s) d.
Proof.
  induction columns as [|c columns IH]; intros i d Hd Hs; cbn [filled];
    [reflexivity|].
  rewrite IH;
    [| apply dict_store_str_keyed, Hd | intros H; apply Hs; right; exact H].
  rewrite dict_lookup_store by exact Hd.
  destruct (String.eqb_spec s c) as [->|]; [|reflexivity].
  exfalso. apply Hs. left. reflexivity.
Qed.

(** C6. On a columnar document of N rows and M column identifiers, the
    normalizer returns N records, in the order of the rows; the record of a
    row has every one of the M identifiers as a key; an identifier whose
    position lies past the end of the row maps to [None]; and an identifier
    maps to the value the row has at its position (at its last position,
    should the identifier come more than once). *)
Theorem normalization_shape (result_ doc total : pyval) (ids : list string)
  (table : list (list pyval)) :
  columnar doc ids table ->
  py_get result_ "total" (VInt (Z.of_nat (List.length table))) = Ok total ->
  exists recs : list (list (pyval * pyval)),
    _convert_visualization_to_dict result_ doc
    = Ok (legacy_dict total (VList (map VDict recs)))
    /\ List.length recs = List.length table
    /\ forall n r d,
         nth_error table n = Some r ->
         nth_error recs n = Some d ->
         forall i c,
           nth_error ids i = Some c ->
           (exists v, dict_lookup (VStr c) d = Some v)
           /\ ((List.length r <= i)%nat ->
               dict_lookup (VStr c) d = Some VNone)
           /\ ((forall i', (i < i')%nat -> nth_error ids i' <> Some c) ->
               forall v,
                 nth_error r i = Some v -> dict_lookup (VStr c) d = Some v).
Proof.
  intros Hdoc Htotal.
  exists (map (fun r => filled r 0 ids []) table).
  split; [|split].
  - rewrite (convert_columnar _ _ _ _ _ Hdoc Htotal), map_map. reflexivity.
  - apply length_map.
  - intros n r d Hr Hd i c Hc.
    rewrite nth_error_map, Hr in Hd. injection Hd as <-.
    split; [|split].
    + destruct (dict_lookup (VStr c) (filled r 0 ids [])) as [v|] eqn:Hv;
        [exists v; reflexivity|].
      exfalso. revert Hv. apply filled_has_key; [constructor|].
      left. eapply nth_error_In, Hc.
    + intros Hlen.
      destruct (nth_error_split _ _ Hc) as (pre & post & -> & Hpre).
      rewrite filled_app. apply filled_past_end.
      * apply filled_str_keyed. constructor.
      * cbn [Nat.add]. lia.
      * left. left. reflexivity.
    + intros Hlast v Hv.
      destruct (nth_error_split _ _ Hc) as (pre & post & -> & Hpre).
      rewrite filled_app. cbn [filled Nat.add].
      rewrite filled_other.
      * rewrite dict_lookup_store by (apply filled_str_keyed; constructor).
        rewrite String.eqb_refl, Hpre. unfold cell.
        rewrite (nth_error_nth _ _ VNone Hv). reflexivity.
      * apply dict_store_str_keyed, filled_str_keyed. constructor.
      * intros Hin. destruct (In_nth_error _ _ Hin) as [k Hk].
        apply (Hlast (List.length pre + S k)%nat); [lia|].
        rewrite nth_error_app2 by lia.
        replace (List.length pre + S k - List.length pre)%nat with (S k)
          by lia.
        exact Hk.
Qed.

(** ** The two layouts *)

Lemma dict_store_fresh (s : string) (v : pyval) (d : list (pyval * pyval)) :
  str_keyed d ->
  dict_lookup (VStr s) d = None ->
  dict_store (VStr s) v d = d ++ [(VStr s, v)].
Proof.
  induction 1 as [|[k x] d [u Hu] Hd IH]; cbn [dict_store dict_lookup app];
    [reflexivity|].
  cbn [fst] in Hu. subst k.
  destruct (key_eqb (VStr s) (VStr u)); [discriminate|].
  intros H. rewrite IH by exact H. reflexivity.
Qed.

Lemma dict_lookup_app_none (s : string) (d e : list (pyval * pyval)) :
  dict_lookup (VStr s) d = None ->
  dict_lookup (VStr s) (d ++ e) = dict_lookup (VStr s) e.
Proof.
  induction d as [|[k x] d IH]; cbn [dict_lookup app]; [reflexivity|].
  destruct (key_eqb (VStr s) k); [discriminate | exact IH].
Qed.

(** With distinct column identifiers the record lists the cells in column
    order. *)
Lemma filled_distinct (r : list pyval) (columns : list string) :
  NoDup columns ->
  forall i d,
    str_keyed d ->
    (forall c, In c columns -> dict_lookup (VStr c) d = None) ->
    filled r i columns d = d ++ cells r i columns.
Proof.
  induction 1 as [|c columns Hc Hnd IH]; intros i d Hd Hfresh;
    cbn [filled cells].
  - symmetry. apply app_nil_r.
  - rewrite dict_store_fresh; [|exact Hd | apply Hfresh; left; reflexivity].
    rewrite IH.
    + rewrite <- app_assoc. reflexivity.
    + rewrite <- dict_store_fresh;
        [|exact Hd | apply Hfresh; left; reflexivity].
      apply dict_store_str_keyed, Hd.
    + intros c' Hc'. rewrite dict_lookup_app_none
        by (apply Hfresh; right; exact Hc').
      cbn [dict_lookup]. rewrite key_eqb_str.
      destruct (String.eqb_spec c' c) as [->|]; [contradiction | reflexivity].
Qed.

Lemma cells_combine (columns : list string) :
  forall (r : list pyval) (pre : list pyval),
    List.length r = List.length columns ->
    cells (pre ++ r) (List.length pre) columns = combine (map VStr columns) r.
Proof.
  induction columns as [|c columns IH]; intros r pre Hlen; [reflexivity|].
  destruct r as [|v r]; [discriminate|].
  cbn [cells map combine]. f_equal.
  - unfold cell. rewrite nth_middle. reflexivity.
  - replace (pre ++ v :: r) with ((pre ++ [v]) ++ r)
      by (rewrite <- app_assoc; reflexivity).
    replace (S (List.length pre)) with (List.length (pre ++ [v]))
      by (rewrite length_app; cbn [List.length]; lia).
    apply IH. cbn [List.length] in Hlen. lia.
Qed.

(** A full row under distinct identifiers becomes the record that pairs
    each identifier with its cell. *)
Lemma filled_record (ids : list string) (r : list pyval) :
  NoDup ids ->
  List.length r = List.length ids ->
  filled r 0 ids [] = combine (map VStr ids) r.
Proof.
  intros Hnd Hlen.
  rewrite filled_distinct; [|exact Hnd | constructor | reflexivity].
  cbn [app]. apply (cells_combine ids r []). exact Hlen.
Qed.

(** C4. A page of the embedded-script layout whose scan comes to the
    columnar document [doc] of [result_], and a page of the
    inline-assignment layout that carries the same table as records with
    the same total, extract to data with the same result set: the same
    rows under [ScreenerResultsStore.results.rows] and the same total under
    [ScreenerCriteriaStore.meta.total].  What the normalizer returns is the
    legacy structure itself. *)
Theorem format_equivalence (page_new page_old : string)
  (result_ doc total data_old : pyval) (ids : list string)
  (table : list (list pyval)) :
  NoDup ids ->
  Forall (fun r => List.length r = List.length ids) table ->
  extract page_new = _convert_visualization_to_dict result_ doc ->
  columnar doc ids table ->
  py_get result_ "total" (VInt (Z.of_nat (List.length table))) = Ok total ->
  extract page_old = Ok VNone ->
  legacy_page_data json_loads page_old = Ok data_old ->
  page_result_set data_old = Ok (VList (records ids table), total) ->
  page_data json_loads page_new
  = Ok (legacy_dict total (VList (records ids table)))
  /\ page_data json_loads page_old = Ok data_old
  /\ page_result_set (legacy_dict total (VList (records ids table)))
     = page_result_set data_old.
Proof.
  intros Hnd Hfull Hscan Hdoc Htotal Hnone Hold Hset.
  assert (Hrecs : map (fun r => VDict (filled r 0 ids [])) table
                  = records ids table).
  { unfold records. apply map_ext_in. intros r Hr. f_equal.
    apply filled_record; [exact Hnd|].
    rewrite Forall_forall in Hfull. apply Hfull, Hr. }
  split; [|split].
  - unfold page_data. rewrite Hscan.
    rewrite (convert_columnar _ _ _ _ _ Hdoc Htotal), Hrecs. reflexivity.
  - unfold page_data. rewrite Hnone, Hold. reflexivity.
  - rewrite Hset. reflexivity.
Qed.

(** ** The next earnings date *)

Variable strptime : string -> option (Z * Z).
Variable timestamp : Z * Z -> result Z.
Variable utcnow : Z * Z.

Abbreviation earnings_of := (get_earnings_of json_loads http_get).
Abbreviation next_date :=
  (get_next_earnings_date json_loads http_get strptime timestamp utcnow).

Lemma getitem_str_error (v : pyval) (k : string) (e : exn) :
  py_getitem_str v k = Err e ->
  caught_by [KeyError; TypeError; IndexError] e = true.
Proof.
  destruct v; cbn [py_getitem_str]; try (intros [= <-]; reflexivity).
  destruct (dict_lookup _ _); [discriminate | intros [= <-]; reflexivity].
Qed.

Lemma getpath_error (p : list string) :
  forall v e,
    py_getpath v p = Err e ->
    caught_by [KeyError; TypeError; IndexError] e = true.
Proof.
  induction p as [|k p IH]; intros v e; cbn [py_getpath]; [discriminate|].
  destruct (py_getitem_str v k) as [x|e'] eqn:Hk; cbn [rbind].
  - apply IH.
  - intros [= <-]. eapply getitem_str_error, Hk.
Qed.

(** Whatever goes wrong on the quote-summary path is caught by the inner
    [except (KeyError, TypeError, IndexError)]. *)
Lemma quote_summary_error (data : pyval) (e : exn) :
  quote_summary_raw data = Err e ->
  caught_by [KeyError; TypeError; IndexError] e = true.
Proof.
  unfold quote_summary_raw.
  destruct (py_getpath data quote_summary_path) as [dates|e'] eqn:Hp;
    cbn [rbind].
  - destruct (py_getitem_int dates 0) as [first|e'] eqn:H0; cbn [rbind].
    + apply getitem_str_error.
    + intros [= <-]. destruct dates; cbn [py_getitem_int] in H0;
        try (injection H0 as <-; reflexivity).
      * destruct (String.get 0 s); [discriminate|].
        injection H0 as <-. reflexivity.
      * destruct (nth_error l 0); [discriminate|].
        injection H0 as <-. reflexivity.
      * destruct (dict_lookup _ d); [discriminate|].
        injection H0 as <-. reflexivity.
  - intros [= <-]. eapply getpath_error, Hp.
Qed.

(** C10. When the page of the symbol has no quote-summary path and
    [get_earnings_of] returns the empty list, [get_next_earnings_date]
    returns [None]: no timestamp and no exception.  The scan and its
    [raise] sit under the test that the list is not empty, and past that
    test the function ends. *)
Theorem next_earnings_date_none_on_empty (self : YahooEarningsCalendar)
  (symbol : string) (data : pyval) (w w1 w2 : world) :
  get_data self (stock_url symbol) w = (Ok data, w1) ->
  (forall raw, quote_summary_raw data <> Ok raw) ->
  earnings_of self symbol w1 = (Ok (VList []), w2) ->
  next_date self symbol w = (Ok VNone, w2).
Proof.
  intros Hdata Hpath Hearn.
  unfold get_next_earnings_date, try_except, bind.
  rewrite Hdata.
  destruct (quote_summary_raw data) as [raw|e] eqn:Hq.
  - exfalso. apply (Hpath raw). reflexivity.
  - rewrite (quote_summary_error _ _ Hq), Hearn. reflexivity.
Qed.

(** ** Date ranges *)

Lemma py_cmp_dates (a b : Z) :
  py_cmp (VDate a) (VDate b) = Ok (Some (Z.compare a b)).
Proof. reflexivity. Qed.

Lemma py_gt_dates (a b : Z) : py_gt (VDate a) (VDate b) = Ok (b <? a).
Proof.
  unfold py_gt, py_lt. rewrite py_cmp_dates. cbn [rbind is_lt].
  unfold Z.ltb. destruct (b ?= a); reflexivity.
Qed.

Lemma py_le_dates (a b : Z) : py_le (VDate a) (VDate b) = Ok (a <=? b).
Proof.
  unfold py_le. rewrite py_cmp_dates. cbn [rbind is_le].
  unfold Z.leb. destruct (a ?= b); reflexivity.
Qed.

(** Where [current_date <= to_date] holds between two dates or two
    datetimes, the ordinals are in that order. *)
Lemma py_le_ordinals (cur to : pyval) :
  isinstance_date cur = true ->
  py_le cur to = Ok true ->
  ordinal_of cur <= ordinal_of to.
Proof.
  unfold py_le.
  destruct cur as [| | | | | | |o|o us]; try discriminate; intros _;
    destruct to as [| | | | | | |y|y vs]; try discriminate;
    cbn [py_cmp rbind is_le ordinal_of].
  - destruct (Z.compare_spec o y); try discriminate; lia.
  - destruct (Z.compare_spec o y); try discriminate; lia.
Qed.

(** The bound of the loop is never what ends it: any two bounds past the
    number of days left give the same run. *)
Lemma between_loop_enough (depth : nat) (self : YahooEarningsCalendar)
  (to : pyval) :
  forall (m n n' : nat) (cur : pyval) (acc : list pyval) (w : world),
    ordinal_of to + 1 - ordinal_of cur <= Z.of_nat m ->
    (m < n)%nat -> (m < n')%nat ->
    between_loop json_loads http_get strftime_ymd n depth self cur to acc w
    = between_loop json_loads http_get strftime_ymd n' depth self cur to acc w.
Proof.
  induction m as [|m IH]; intros n n' cur acc w Hm Hn Hn';
    (destruct n as [|n]; [lia|]); (destruct n' as [|n']; [lia|]);
    cbn [between_loop]; unfold bind, lift;
    destruct (py_le cur to) as [[]|e] eqn:Hle; try reflexivity;
    destruct (on_date depth self cur 0 (VInt 1) w) as [[day|e] w1];
    try reflexivity;
    destruct (add_one_day cur) as [next|e] eqn:Hnext; try reflexivity;
    assert (Hdate : isinstance_date cur = true)
      by (destruct cur; try discriminate; reflexivity);
    pose proof (py_le_ordinals cur to Hdate Hle) as Hord.
  - lia.
  - apply IH; [|lia|lia].
    assert (ordinal_of next = ordinal_of cur + 1).
    { destruct cur as [| | | | | | |o|o us]; try discriminate;
        cbn [add_one_day] in Hnext;
        destruct (o + 1 <=? MAX_ORDINAL); try discriminate;
        injection Hnext as <-; reflexivity. }
    lia.
Qed.

(** A range whose start lies after its end is refused before anything is
    fetched. *)
Lemma earnings_between_after (depth : nat) (self : YahooEarningsCalendar)
  (a b : Z) (w : world) :
  b < a -> between depth self (VDate a) (VDate b) w = (Err range_error, w).
Proof.
  intros H. unfold earnings_between.
  rewrite (bind_lift_ok _ true); [reflexivity|].
  rewrite py_gt_dates. destruct (Z.ltb_spec b a); [reflexivity | lia].
Qed.

Abbreviation days := (each_day json_loads http_get strftime_ymd).

(** The loop over the days [c], ..., [b] before the last date there is. *)
Lemma between_loop_days (depth : nat) (self : YahooEarningsCalendar) (b : Z) :
  b < MAX_ORDINAL ->
  forall (m n : nat) (c : Z) (acc : list pyval) (w : world),
    c + Z.of_nat m = b + 1 -> (m < n)%nat ->
    between_loop json_loads http_get strftime_ymd n depth self
                 (VDate c) (VDate b) acc w
    = (rbind (fst (days depth self (days_from c m) w))
             (fun l => Ok (acc ++ l)),
       snd (days depth self (days_from c m) w)).
Proof.
  intros Hb. induction m as [|m IH]; intros n c acc w Hc Hn.
  - destruct n as [|n]; [lia|]. cbn [between_loop].
    rewrite (bind_lift_ok _ false).
    + cbn. rewrite app_nil_r. reflexivity.
    + rewrite py_le_dates. destruct (Z.leb_spec c b); [lia | reflexivity].
  - destruct n as [|n]; [lia|]. cbn [between_loop].
    rewrite (bind_lift_ok _ true)
      by (rewrite py_le_dates; destruct (Z.leb_spec c b); [reflexivity | lia]).
    unfold days_from. cbn [seq map each_day].
    rewrite Z.add_0_r. unfold bind.
    destruct (on_date depth self (VDate c) 0 (VInt 1) w) as [[day|e] w1];
      [|reflexivity].
    cbn [lift add_one_day].
    destruct (Z.leb_spec (c + 1) MAX_ORDINAL); [|lia].
    + rewrite IH by lia. unfold days_from.
      rewrite <- seq_shift, map_map.
      rewrite (map_ext (fun k => c + Z.of_nat (S k))
                       (fun k => c + 1 + Z.of_nat k)) by (intros; lia).
      destruct (days depth self _ w1) as [[l|e] w2]; cbn [fst snd rbind ret].
      * rewrite <- app_assoc. reflexivity.
      * reflexivity.
Qed.

(** Over a range that ends before the last date there is,
    [earnings_between] is [earnings_on] for each day from the first to the
    last, in that order, the results concatenated. *)
Lemma earnings_between_days (depth : nat) (self : YahooEarningsCalendar)
  (a b : Z) (w : world) :
  a <= b -> b < MAX_ORDINAL ->
  between depth self (VDate a) (VDate b) w
  = days depth self (days_from a (Z.to_nat (b - a + 1))) w.
Proof.
  intros Hab Hb. unfold earnings_between.
  rewrite (bind_lift_ok _ false)
    by (rewrite py_gt_dates; destruct (Z.ltb_spec b a); [lia | reflexivity]).
  cbn [isinstance_date andb negb].
  rewrite (between_loop_days depth self b Hb (Z.to_nat (b - a + 1)));
    [| lia | unfold between_bound; cbn [ordinal_of]; lia].
  destruct (days depth self _ w) as [[l|e] w1]; reflexivity.
Qed.

(** A range of one day before the last date there is: exactly
    [earnings_on] of that day. *)
Lemma earnings_between_one_day (depth : nat) (self : YahooEarningsCalendar)
  (d : Z) (w : world) :
  d < MAX_ORDINAL ->
  between depth self (VDate d) (VDate d) w
  = on_date depth self (VDate d) 0 (VInt 1) w.
Proof.
  intros Hd. rewrite earnings_between_days by lia.
  replace (d - d + 1) with 1 by lia.
  unfold days_from.
  change (Z.to_nat 1) with 1%nat. cbn [seq map each_day Z.of_nat].
  unfold bind. rewrite Z.add_0_r.
  destruct (on_date depth self (VDate d) 0 (VInt 1) w) as [[day|e] w1];
    [|reflexivity].
  cbn [ret]. rewrite app_nil_r. reflexivity.
Qed.

End Properties.

(** * The properties on the concrete site *)

Local Open Scope list_scope.

Abbreviation demo_on :=
  (earnings_on Demo.json_loads Demo.http_get Demo.strftime_ymd).
Abbreviation demo_between :=
  (earnings_between Demo.json_loads Demo.http_get Demo.strftime_ymd).
Abbreviation demo_earnings_of :=
  (get_earnings_of Demo.json_loads Demo.http_get).
Abbreviation demo_next :=
  (get_next_earnings_date Demo.json_loads Demo.http_get Demo.strptime
                          Demo.timestamp Demo.utcnow).
Abbreviation demo_data := (_get_data_dict Demo.json_loads Demo.http_get).

Lemma earnings_on_offset_past_limit_witness :
  100 >= 3
  /\ demo_on 1%nat Demo.self (VDate Demo.day_a) 100 (VInt 3) [] = (Ok [], []).
Proof.
  split; [lia|].
  apply (earnings_on_offset_past_limit Demo.json_loads Demo.http_get
           Demo.strftime_ymd 0 Demo.self (VDate Demo.day_a) 100 3 []).
  lia.
Defined.

Lemma earnings_on_stops_before_validation_witness :
  isinstance_date (VStr "2018-02-01") = false
  /\ py_ge (VInt 100) (VFloat (FFin 25 2)) = Ok true
  /\ demo_on 1%nat Demo.self (VStr "2018-02-01") 100 (VFloat (FFin 25 2)) []
     = (Ok [], []).
Proof.
  split; [reflexivity|]. split; [reflexivity|].
  apply (earnings_on_stops_before_validation Demo.json_loads Demo.http_get
           Demo.strftime_ymd 0 Demo.self (VStr "2018-02-01") 100
           (VFloat (FFin 25 2)) []); reflexivity.
Defined.

(** C8 fails on the code: a [datetime.datetime], a value that carries a
    time, is not refused; its day is fetched and its records returned. *)
Lemma earnings_on_accepts_datetime :
  pure_calendar_date (VDateTime Demo.day_a 36000000000) = false
  /\ demo_on 5%nat Demo.self (VDateTime Demo.day_a 36000000000) 0 (VInt 1) []
     = (Ok (map Demo.record Demo.table_a),
        [EvSleep (VInt 0); EvGet (Demo.day_url Demo.day_a 0)])
  /\ fst (demo_on 5%nat Demo.self (VDateTime Demo.day_a 36000000000) 0
                  (VInt 1) [])
     <> Err date_type_error.
Proof.
  split; [reflexivity|].
  assert (H : demo_on 5%nat Demo.self (VDateTime Demo.day_a 36000000000) 0
                      (VInt 1) []
              = (Ok (map Demo.record Demo.table_a),
                 [EvSleep (VInt 0); EvGet (Demo.day_url Demo.day_a 0)]))
    by (vm_compute; reflexivity).
  split; [exact H|]. rewrite H. discriminate.
Qed.

Lemma earnings_on_rejects_non_dates_witness :
  py_ge (VInt 0) (VInt 1) = Ok false
  /\ isinstance_date (VStr "2018-02-01") = false
  /\ demo_on 1%nat Demo.self (VStr "2018-02-01") 0 (VInt 1) []
     = (Err date_type_error, [])
  /\ demo_on 1%nat Demo.self (VDateTime Demo.day_a 36000000000) 0 (VInt 1) []
     = demo_on 1%nat Demo.self (VDate Demo.day_a) 0 (VInt 1) [].
Proof.
  split; [reflexivity|]. split; [reflexivity|].
  pose proof (earnings_on_rejects_non_dates Demo.json_loads Demo.http_get
                Demo.strftime_ymd 0 Demo.self 0 (VInt 1) [] eq_refl)
    as [Hreject Hdatetime].
  split; [apply Hreject; reflexivity | apply Hdatetime].
Defined.

(** C1 fails on the code: for a day whose total is 0 the property counts
    [ceil (0 / 100) = 0] fetches, and [earnings_on] fetches one page. *)
Lemma earnings_on_empty_day_fetches_once :
  fetched_page Demo.json_loads Demo.http_get [EvSleep (VInt 0)]
               (Demo.day_url Demo.day_empty 0)
  = Ok (VInt 0, VList [])
  /\ demo_on 5%nat Demo.self (VDate Demo.day_empty) 0 (VInt 1) []
     = (Ok [], [EvSleep (VInt 0); EvGet (Demo.day_url Demo.day_empty 0)])
  /\ ceil_div 0 100 = 0
  /\ Z.of_nat (List.length (fetches (snd (demo_on 5%nat Demo.self
                    (VDate Demo.day_empty) 0 (VInt 1) []))))
     <> ceil_div 0 100.
Proof.
  assert (H : demo_on 5%nat Demo.self (VDate Demo.day_empty) 0 (VInt 1) []
              = (Ok [], [EvSleep (VInt 0);
                         EvGet (Demo.day_url Demo.day_empty 0)]))
    by (vm_compute; reflexivity).
  split; [vm_compute; reflexivity|]. split; [exact H|].
  split; [reflexivity|]. rewrite H. vm_compute. discriminate.
Qed.

Lemma demo_serves_day_c :
  serves Demo.json_loads Demo.http_get Demo.strftime_ymd (VDate Demo.day_c)
         (map Demo.record Demo.table_c).
Proof.
  intros k w Hk.
  assert (Hp : pages (List.length (map Demo.record Demo.table_c)) = 3%nat)
    by (vm_compute; reflexivity).
  rewrite Hp in Hk.
  destruct k as [|[|[|k]]]; [vm_compute; reflexivity .. | lia].
Defined.

Lemma earnings_on_paginates_witness :
  isinstance_date (VDate Demo.day_c) = true
  /\ (pages (List.length (map Demo.record Demo.table_c)) < 5)%nat
  /\ List.length (map Demo.record Demo.table_c) = 250%nat
  /\ demo_on 5%nat Demo.self (VDate Demo.day_c) 0 (VInt 1) []
     = (Ok (map Demo.record Demo.table_c),
        [] ++ page_events Demo.strftime_ymd Demo.self (VDate Demo.day_c) 0
                (pages (List.length (map Demo.record Demo.table_c)))).
Proof.
  assert (Hd : (pages (List.length (map Demo.record Demo.table_c)) < 5)%nat)
    by (vm_compute; lia).
  split; [reflexivity|]. split; [exact Hd|]. split; [reflexivity|].
  exact (proj1 (earnings_on_paginates Demo.json_loads Demo.http_get
                  Demo.strftime_ymd Demo.self (VDate Demo.day_c)
                  (map Demo.record Demo.table_c) 5 [] eq_refl
                  demo_serves_day_c Hd)).
Defined.

Lemma demo_bad_candidates :
  Forall (fun m => no_match Demo.json_loads m = true) Demo.bad_candidates.
Proof. repeat constructor. Defined.



(** Errors of other classes are not passed over: a candidate whose body is
    not a string ends the extraction with the [TypeError] of [json.loads],
    before the candidates after it and the fallback are tried. *)
Example odd_candidate_raises :
  page_data Demo.json_loads
            (Demo.candidates_page [Demo.odd_candidate; Demo.good_candidate])
  = Err (Exn TypeError EmptyString).
Proof. vm_compute. reflexivity. Qed.

Lemma ragged_doc_columnar :
  columnar Demo.ragged_doc ["ticker"; "eps"; "ticker"]
           [[VStr "A"; VInt 1]; [VStr "B"; VInt 2; VStr "C"; VInt 4]; []].
Proof.
  exists (map Demo.column ["ticker"; "eps"; "ticker"]).
  repeat split.
Defined.

Lemma normalization_shape_witness :
  columnar Demo.ragged_doc ["ticker"; "eps"; "ticker"]
           [[VStr "A"; VInt 1]; [VStr "B"; VInt 2; VStr "C"; VInt 4]; []]
  /\ py_get (VDict []) "total" (VInt 3) = Ok (VInt 3)
  /\ exists recs : list (list (pyval * pyval)),
       _convert_visualization_to_dict (VDict []) Demo.ragged_doc
       = Ok (legacy_dict (VInt 3) (VList (map VDict recs)))
       /\ List.length recs = 3%nat
       /\ forall d,
            nth_error recs 0 = Some d ->
            dict_lookup (VStr "eps") d = Some (VInt 1)
            /\ dict_lookup (VStr "ticker") d = Some VNone.
Proof.
  split; [exact ragged_doc_columnar|]. split; [reflexivity|].
  destruct (normalization_shape (VDict []) Demo.ragged_doc (VInt 3)
              ["ticker"; "eps"; "ticker"]
              [[VStr "A"; VInt 1]; [VStr "B"; VInt 2; VStr "C"; VInt 4]; []]
              ragged_doc_columnar eq_refl) as (recs & Hconv & Hlen & Hrec).
  exists recs. split; [exact Hconv|]. split; [exact Hlen|].
  intros d Hd. split.
  - apply (proj2 (proj2 (Hrec 0%nat [VStr "A"; VInt 1] d eq_refl Hd
                           1%nat "eps" eq_refl))); [|reflexivity].
    intros [|[|[|i']]] Hi; try lia; cbn; try discriminate.
    destruct i'; discriminate.
  - apply (proj1 (proj2 (Hrec 0%nat [VStr "A"; VInt 1] d eq_refl Hd
                           2%nat "ticker" eq_refl))).
    cbn. lia.
Defined.

(** What the normalizer makes of the ragged document. *)
Example convert_ragged_doc :
  _convert_visualization_to_dict (VDict []) Demo.ragged_doc
  = Ok (legacy_dict (VInt 3)
          (VList [VDict [(VStr "ticker", VNone); (VStr "eps", VInt 1)];
                  VDict [(VStr "ticker", VStr "C"); (VStr "eps", VInt 2)];
                  VDict [(VStr "ticker", VNone); (VStr "eps", VNone)]])).
Proof. reflexivity. Qed.

Lemma demo_doc_columnar :
  columnar (Demo.earnings_doc Demo.table_a) Demo.column_ids Demo.table_a.
Proof.
  exists (map Demo.column Demo.column_ids). repeat split.
Defined.

Lemma demo_ids_distinct : NoDup Demo.column_ids.
Proof.
  repeat constructor; cbn [In]; intros H;
    repeat (destruct H as [H|H]; [discriminate|]); exact H.
Defined.

Lemma demo_rows_full :
  Forall (fun r => List.length r = List.length Demo.column_ids) Demo.table_a.
Proof. repeat constructor. Defined.

Lemma format_equivalence_witness :
  page_data Demo.json_loads
            (Demo.sveltekit_page (Demo.visualization Demo.table_a 3))
  = Ok (legacy_dict (VInt 3) (VList (records Demo.column_ids Demo.table_a)))
  /\ page_data Demo.json_loads
       (Demo.legacy_page
          (legacy_dict (VInt 3) (VList (map Demo.record Demo.table_a))))
     = Ok (legacy_dict (VInt 3) (VList (map Demo.record Demo.table_a)))
  /\ page_result_set
       (legacy_dict (VInt 3) (VList (records Demo.column_ids Demo.table_a)))
     = page_result_set
         (legacy_dict (VInt 3) (VList (map Demo.record Demo.table_a))).
Proof.
  apply (format_equivalence Demo.json_loads
           (Demo.sveltekit_page (Demo.visualization Demo.table_a 3))
           (Demo.legacy_page
              (legacy_dict (VInt 3) (VList (map Demo.record Demo.table_a))))
           Demo.result_a (Demo.earnings_doc Demo.table_a) (VInt 3)
           (legacy_dict (VInt 3) (VList (map Demo.record Demo.table_a)))
           Demo.column_ids Demo.table_a
           demo_ids_distinct demo_rows_full).
  - vm_compute. reflexivity.
  - exact demo_doc_columnar.
  - reflexivity.
  - vm_compute. reflexivity.
  - vm_compute. reflexivity.
  - reflexivity.
Defined.

Lemma next_earnings_date_none_on_empty_witness :
  demo_data Demo.self (stock_url "none") []
  = (Ok Demo.quote_data, [EvSleep (VInt 0); EvGet (stock_url "none")])
  /\ quote_summary_raw Demo.quote_data = Err (Exn KeyError EmptyString)
  /\ demo_earnings_of Demo.self "none"
       [EvSleep (VInt 0); EvGet (stock_url "none")]
     = (Ok (VList []),
        [EvSleep (VInt 0); EvGet (stock_url "none");
         EvSleep (VInt 0); EvGet (symbol_url "none")])
  /\ demo_next Demo.self "none" []
     = (Ok VNone,
        [EvSleep (VInt 0); EvGet (stock_url "none");
         EvSleep (VInt 0); EvGet (symbol_url "none")]).
Proof.
  assert (Hdata : demo_data Demo.self (stock_url "none") []
                  = (Ok Demo.quote_data,
                     [EvSleep (VInt 0); EvGet (stock_url "none")]))
    by (vm_compute; reflexivity).
  assert (Hearn : demo_earnings_of Demo.self "none"
                    [EvSleep (VInt 0); EvGet (stock_url "none")]
                  = (Ok (VList []),
                     [EvSleep (VInt 0); EvGet (stock_url "none");
                      EvSleep (VInt 0); EvGet (symbol_url "none")]))
    by (vm_compute; reflexivity).
  split; [exact Hdata|]. split; [reflexivity|]. split; [exact Hearn|].
  apply (next_earnings_date_none_on_empty Demo.json_loads Demo.http_get
           Demo.strptime Demo.timestamp Demo.utcnow Demo.self "none"
           Demo.quote_data [] _ _ Hdata); [|exact Hearn].
  intros raw. discriminate.
Defined.

(** C2 on the code: for a symbol whose record list is empty nothing is
    raised; the function returns [None]. *)
Theorem next_earnings_date_without_records :
  demo_earnings_of Demo.self "none" [] 
  = (Ok (VList []), [EvSleep (VInt 0); EvGet (symbol_url "none")])
  /\ fst (demo_next Demo.self "none" []) = Ok VNone
  /\ fst (demo_next Demo.self "none" []) <> Err symbol_error.
Proof.
  assert (H : fst (demo_next Demo.self "none" []) = Ok VNone)
    by (vm_compute; reflexivity).
  split; [vm_compute; reflexivity|]. split; [exact H|].
  rewrite H. discriminate.
Qed.

(** The other symbols of the site: the earliest coming announcement of
    [box] (2027-03-02 21:05:00), the exception for [old] whose
    announcements are past or unreadable, the quote-summary value of
    [leg]. *)
Example next_earnings_date_box :
  fst (demo_next Demo.self "box" []) = Ok (VInt 1804021500).
Proof. vm_compute. reflexivity. Qed.

Example next_earnings_date_old :
  fst (demo_next Demo.self "old" []) = Err symbol_error.
Proof. vm_compute. reflexivity. Qed.

Example next_earnings_date_leg :
  demo_next Demo.self "leg" []
  = (Ok (VInt 1803600000), [EvSleep (VInt 0); EvGet (stock_url "leg")]).
Proof. vm_compute. reflexivity. Qed.

(** C7 on the code: for the range of the one day 9999-12-31 the records of
    the day are fetched, and then stepping to the next day raises
    [OverflowError]; [earnings_on] of that day returns the records. *)
Theorem earnings_between_last_date_overflows :
  demo_on 5%nat Demo.self (VDate MAX_ORDINAL) 0 (VInt 1) []
  = (Ok (map Demo.record Demo.table_max),
     [EvSleep (VInt 0); EvGet (Demo.day_url MAX_ORDINAL 0)])
  /\ demo_between 5%nat Demo.self (VDate MAX_ORDINAL) (VDate MAX_ORDINAL) []
     = (Err (Exn OverflowError EmptyString),
        [EvSleep (VInt 0); EvGet (Demo.day_url MAX_ORDINAL 0)]).
Proof. split; vm_compute; reflexivity. Qed.

(** The ranges of the site before that date. *)
Example earnings_between_three_days :
  fst (demo_between 5%nat Demo.self (VDate Demo.day_a)
                    (VDate Demo.day_empty) [])
  = Ok (map Demo.record Demo.table_a ++ map Demo.record Demo.table_a ++ [])
  /\ fetches (snd (demo_between 5%nat Demo.self (VDate Demo.day_a)
                                (VDate Demo.day_empty) []))
     = [Demo.day_url Demo.day_a 0; Demo.day_url Demo.day_a_legacy 0;
        Demo.day_url Demo.day_empty 0].
Proof. split; vm_compute; reflexivity. Qed.

Example earnings_between_reversed :
  demo_between 5%nat Demo.self (VDate Demo.day_empty) (VDate Demo.day_a) []
  = (Err range_error, []).
Proof. apply earnings_between_after. vm_compute. reflexivity. Qed.

(** * Further properties *)

Section Normalizer.

(** ** What the normalizer returns *)

Lemma rmap_length {A B} (f : A -> result B) (l : list A) (l' : list B) :
  rmap f l = Ok l' -> List.length l' = List.length l.
Proof.
  revert l'. induction l as [|a l IH]; intros l'; cbn [rmap].
  - intros [= <-]. reflexivity.
  - destruct (f a) as [b|e]; [|discriminate].
    destruct (rmap f l) as [bs|e]; [|discriminate].
    intros [= <-]. cbn [List.length]. rewrite (IH bs); reflexivity.
Qed.

Lemma rmap_dicts {A} (g : A -> result (list (pyval * pyval))) (l : list A)
  (l' : list pyval) :
  rmap (fun a => rbind (g a) (fun d => Ok (VDict d))) l = Ok l' ->
  exists ds, l' = map VDict ds.
Proof.
  revert l'. induction l as [|a l IH]; intros l'; cbn [rmap].
  - intros [= <-]. exists []. reflexivity.
  - destruct (g a) as [d|e]; cbn [rbind]; [|discriminate].
    destruct (rmap _ l) as [bs|e]; [|discriminate].
    intros [= <-]. destruct (IH bs eq_refl) as [ds ->].
    exists (d :: ds). reflexivity.
Qed.

(** X1. Whatever the result object and the document, what the normalizer
    returns has the legacy shape: a list of dicts, one for each item of the
    document's rows, under the rows path, and under the total path the
    [total] of the result object as it stands, or the number of rows when
    the result object has none.  It is never empty, so [_get_data_dict]
    takes it. *)
Theorem normalizer_result (result_ doc data : pyval) :
  _convert_visualization_to_dict result_ doc = Ok data ->
  exists (total rows : pyval) (n : nat) (recs : list (list (pyval * pyval))),
    data = legacy_dict total (VList (map VDict recs))
    /\ page_result_set data = Ok (VList (map VDict recs), total)
    /\ py_truthy data = true
    /\ py_get doc "rows" (VList []) = Ok rows
    /\ py_len rows = Ok n
    /\ List.length recs = n
    /\ py_get result_ "total" (VInt (Z.of_nat n)) = Ok total.
Proof.
  unfold _convert_visualization_to_dict.
  destruct (py_get doc "columns" (VList [])) as [cols|e]; [|discriminate].
  cbn [rbind].
  destruct (py_iter cols) as [cols_l|e]; [|discriminate]. cbn [rbind].
  destruct (rmap _ cols_l) as [columns|e]; [|discriminate]. cbn [rbind].
  destruct (py_get doc "rows" (VList [])) as [rows|e]; [|discriminate].
  cbn [rbind].
  destruct (py_iter rows) as [items|e] eqn:Hitems; [|discriminate].
  cbn [rbind].
  destruct (rmap _ items) as [earnings_rows|e] eqn:Hrows; [|discriminate].
  cbn [rbind].
  destruct (py_len rows) as [n|e] eqn:Hlen; [|discriminate]. cbn [rbind].
  destruct (py_get result_ "total" _) as [total|e] eqn:Htotal;
    [|discriminate].
  cbn [rbind]. intros [= <-].
  pose proof (rmap_length _ _ _ Hrows) as Hn.
  destruct (rmap_dicts _ _ _ Hrows) as [recs ->].
  exists total, rows, n, recs.
  repeat split; try reflexivity; try assumption.
  rewrite length_map in Hn. rewrite Hn.
  destruct rows; try discriminate; cbn [py_iter py_len] in *;
    injection Hitems as <-; injection Hlen as <-;
    rewrite ?length_map; try reflexivity.
  unfold str_chars. clear. induction s as [|a s IH]; [reflexivity|].
  cbn. rewrite IH. reflexivity.
Qed.

Lemma normalizer_result_witness :
  _convert_visualization_to_dict (VDict []) Demo.ragged_doc
  = Ok (legacy_dict (VInt 3)
          (VList [VDict [(VStr "ticker", VNone); (VStr "eps", VInt 1)];
                  VDict [(VStr "ticker", VStr "C"); (VStr "eps", VInt 2)];
                  VDict [(VStr "ticker", VNone); (VStr "eps", VNone)]]))
  /\ exists (total rows : pyval) (n : nat)
            (recs : list (list (pyval * pyval))),
       py_len rows = Ok n /\ List.length recs = n
       /\ py_get (VDict []) "total" (VInt (Z.of_nat n)) = Ok total.
Proof.
  split; [reflexivity|].
  destruct (normalizer_result (VDict []) Demo.ragged_doc _ eq_refl)
    as (total & rows & n & recs & _ & _ & _ & _ & Hlen & Hn & Htotal).
  exists total, rows, n, recs. repeat split; assumption.
Defined.

(** X2. The record of a row of a columnar document maps an identifier to
    the cell at the last position the identifier has among the columns
    ([None] when the row ends before it), has no key that is not a column
    identifier, and, when the identifiers are distinct, lists them in
    column order whatever the length of the row. *)
Theorem normalizer_records (result_ doc total : pyval) (ids : list string)
  (table : list (list pyval)) :
  columnar doc ids table ->
  py_get result_ "total" (VInt (Z.of_nat (List.length table))) = Ok total ->
  exists recs : list (list (pyval * pyval)),
    _convert_visualization_to_dict result_ doc
    = Ok (legacy_dict total (VList (map VDict recs)))
    /\ forall n r d,
         nth_error table n = Some r ->
         nth_error recs n = Some d ->
         (forall j c,
            nth_error ids j = Some c ->
            (forall j', (j < j')%nat -> nth_error ids j' <> Some c) ->
            dict_lookup (VStr c) d = Some (cell r j))
         /\ (forall s, ~ In s ids -> dict_lookup (VStr s) d = None)
         /\ (NoDup ids -> d = cells r 0 ids).
Proof.
  intros Hdoc Htotal.
  exists (map (fun r => filled r 0 ids []) table). split.
  - rewrite (convert_columnar _ _ _ _ _ Hdoc Htotal), map_map. reflexivity.
  - intros n r d Hr Hd.
    rewrite nth_error_map, Hr in Hd. injection Hd as <-.
    split; [|split].
    + intros j c Hc Hlast.
      destruct (nth_error_split _ _ Hc) as (pre & post & -> & Hpre).
      rewrite filled_app. cbn [filled Nat.add].
      rewrite filled_other.
      * rewrite dict_lookup_store by (apply filled_str_keyed; constructor).
        rewrite String.eqb_refl, Hpre. reflexivity.
      * apply dict_store_str_keyed, filled_str_keyed. constructor.
      * intros Hin. destruct (In_nth_error _ _ Hin) as [k Hk].
        apply (Hlast (List.length pre + S k)%nat); [lia|].
        rewrite nth_error_app2 by lia.
        replace (List.length pre + S k - List.length pre)%nat with (S k)
          by lia.
        exact Hk.
    + intros s Hs. rewrite filled_other; [reflexivity | constructor | exact Hs].
    + intros Hnd.
      rewrite filled_distinct; [reflexivity | exact Hnd | constructor |].
      reflexivity.
Qed.

Lemma normalizer_records_witness :
  columnar Demo.ragged_doc ["ticker"; "eps"; "ticker"]
           [[VStr "A"; VInt 1]; [VStr "B"; VInt 2; VStr "C"; VInt 4]; []]
  /\ py_get (VDict []) "total" (VInt 3) = Ok (VInt 3)
  /\ exists recs : list (list (pyval * pyval)),
       _convert_visualization_to_dict (VDict []) Demo.ragged_doc
       = Ok (legacy_dict (VInt 3) (VList (map VDict recs)))
       /\ forall d,
            nth_error recs 1 = Some d ->
            dict_lookup (VStr "ticker") d = Some (VStr "C")
            /\ dict_lookup (VStr "surprise") d = None.
Proof.
  split; [exact ragged_doc_columnar|]. split; [reflexivity|].
  destruct (normalizer_records (VDict []) Demo.ragged_doc (VInt 3)
              ["ticker"; "eps"; "ticker"]
              [[VStr "A"; VInt 1]; [VStr "B"; VInt 2; VStr "C"; VInt 4]; []]
              ragged_doc_columnar eq_refl) as (recs & Hconv & Hrec).
  exists recs. split; [exact Hconv|]. intros d Hd.
  destruct (Hrec 1%nat [VStr "B"; VInt 2; VStr "C"; VInt 4] d eq_refl Hd)
    as (Hcell & Hnone & _).
  split.
  - apply (Hcell 2%nat "ticker" eq_refl).
    intros [|[|[|j']]] Hj; try lia; cbn; try discriminate.
    destruct j'; discriminate.
  - apply Hnone. cbn [In]. intros [H|[H|[H|[]]]]; discriminate.
Defined.

End Normalizer.

Section Extraction.

Variable json_loads : string -> option pyval.
Variable http_get : world -> string -> result string.

Abbreviation get_data := (_get_data_dict json_loads http_get).
Abbreviation extract := (_extract_earnings_from_sveltekit json_loads).

(** ** The primary strategy *)

Lemma convert_truthy (result_ doc data : pyval) :
  _convert_visualization_to_dict result_ doc = Ok data ->
  py_truthy data = true.
Proof.
  unfold _convert_visualization_to_dict.
  repeat match goal with
         | |- rbind ?r _ = _ -> _ =>
             destruct r; cbn [rbind]; [|discriminate]
         end.
  intros [= <-]. reflexivity.
Qed.

Lemma scan_documents_found (result_ : pyval) (docs : list pyval)
  (data : pyval) :
  scan_documents result_ docs = Ok (Some data) ->
  exists doc,
    In doc docs /\ _convert_visualization_to_dict result_ doc = Ok data.
Proof.
  induction docs as [|doc docs IH]; cbn [scan_documents]; [discriminate|].
  destruct (py_get doc "entityIdType" VNone) as [t|e]; cbn [rbind];
    [|discriminate].
  destruct (py_eq_str t "SP_EARNINGS").
  - destruct (_convert_visualization_to_dict result_ doc) as [d|e] eqn:Hd;
      cbn [rbind]; [|discriminate].
    intros [= <-]. exists doc. split; [left; reflexivity | exact Hd].
  - intros H. destruct (IH H) as (doc' & Hin & Hd).
    exists doc'. split; [right; exact Hin | exact Hd].
Qed.

Lemma scan_results_found (results : list pyval) (data : pyval) :
  scan_results results = Ok (Some data) ->
  exists result_ doc,
    In result_ results
    /\ _convert_visualization_to_dict result_ doc = Ok data.
Proof.
  induction results as [|r results IH]; cbn [scan_results]; [discriminate|].
  destruct (py_in_str "documents" r) as [[]|e]; cbn [rbind negb];
    [| | discriminate].
  - destruct (py_getitem_str r "documents") as [docs|e]; cbn [rbind];
      [|discriminate].
    destruct (py_iter docs) as [docs_l|e]; cbn [rbind]; [|discriminate].
    destruct (scan_documents r docs_l) as [[d|]|e] eqn:Hscan; cbn [rbind];
      [| |discriminate].
    + intros [= <-]. destruct (scan_documents_found _ _ _ Hscan)
        as (doc & _ & Hd).
      exists r, doc. split; [left; reflexivity | exact Hd].
    + intros H. destruct (IH H) as (r' & doc & Hin & Hd).
      exists r', doc. split; [right; exact Hin | exact Hd].
  - intros H. destruct (IH H) as (r' & doc & Hin & Hd).
    exists r', doc. split; [right; exact Hin | exact Hd].
Qed.

(** What a candidate yields is what the normalizer made of one of its
    documents. *)
Lemma try_match_found (match_ : string) (data : pyval) :
  try_match json_loads match_ = Ok (Some data) ->
  exists result_ doc, _convert_visualization_to_dict result_ doc = Ok data.
Proof.
  unfold try_match.
  destruct (py_json_loads json_loads (VStr match_)) as [parsed|e];
    cbn [rbind]; [|discriminate].
  destruct (py_in_str "body" parsed) as [[]|e]; cbn [rbind negb];
    try discriminate.
  destruct (py_getitem_str parsed "body") as [b|e]; cbn [rbind];
    [|discriminate].
  destruct (py_json_loads json_loads b) as [body|e]; cbn [rbind];
    [|discriminate].
  destruct (py_in_str "finance" body) as [[]|e]; cbn [rbind negb];
    try discriminate.
  destruct (py_getitem_str body "finance") as [fin|e]; cbn [rbind];
    [|discriminate].
  destruct (py_in_str "result" fin) as [[]|e]; cbn [rbind negb];
    try discriminate.
  destruct (py_getitem_str fin "result") as [rs|e]; cbn [rbind];
    [|discriminate].
  destruct (py_iter rs) as [rs_l|e]; cbn [rbind]; [|discriminate].
  intros H. destruct (scan_results_found _ _ H) as (r & doc & _ & Hd).
  exists r, doc. exact Hd.
Qed.

Lemma scan_skips (bad rest : list string) :
  Forall (fun m => no_match json_loads m = true) bad ->
  scan_matches json_loads (bad ++ rest) = scan_matches json_loads rest.
Proof.
  induction 1 as [|m bad Hm _ IH]; [reflexivity|].
  cbn [app scan_matches]. unfold no_match in Hm.
  destruct (try_match json_loads m) as [[d|]|e]; [discriminate | exact IH |].
  rewrite Hm. exact IH.
Qed.

Lemma scan_documents_skip (result_ : pyval) (pre rest : list pyval) :
  forallb plain_doc pre = true ->
  scan_documents result_ (pre ++ rest) = scan_documents result_ rest.
Proof.
  induction pre as [|doc pre IH]; [reflexivity|].
  cbn [forallb app scan_documents]. intros H.
  apply andb_prop in H as [Hdoc Hpre].
  destruct doc; try discriminate. cbn [plain_doc py_get] in *.
  destruct (dict_lookup (VStr "entityIdType") d) as [t|]; cbn [rbind].
  - destruct (py_eq_str t "SP_EARNINGS"); [discriminate | apply IH, Hpre].
  - apply IH, Hpre.
Qed.

Lemma scan_results_skip (skipped rest : list pyval) :
  forallb no_earnings_doc skipped = true ->
  scan_results (skipped ++ rest) = scan_results rest.
Proof.
  induction skipped as [|r skipped IH]; [reflexivity|].
  cbn [forallb app scan_results]. intros H.
  apply andb_prop in H as [Hr Hskipped].
  destruct r; try discriminate.
  cbn [no_earnings_doc py_in_str py_getitem_str] in *.
  destruct (dict_lookup (VStr "documents") d) as [docs|]; cbn [rbind negb];
    [|apply IH, Hskipped].
  destruct docs; try discriminate. cbn [py_iter rbind].
  rewrite <- (app_nil_r l), scan_documents_skip by exact Hr.
  cbn [scan_documents rbind]. apply IH, Hskipped.
Qed.

Lemma getitem_in (v : pyval) (k : string) (x : pyval) :
  py_getitem_str v k = Ok x -> py_in_str k v = Ok true.
Proof.
  destruct v; try discriminate. cbn [py_getitem_str py_in_str].
  destruct (dict_lookup (VStr k) d); [reflexivity | discriminate].
Qed.

(** X3. The first candidate that holds an earnings document in columnar
    form decides the extraction.  The candidate parses to an answer whose
    [body] is the text of a visualization answer; among the results of
    that answer those before [result_] hold no earnings document, and among
    the documents of [result_] those before [doc] are no earnings
    documents; [doc] is one, in columnar form.  Then the data of the page
    is what the normalizer makes of [doc] and [result_]: the records of the
    rows of [doc] with the total of [result_].  The candidates before this
    one do not match; those after it, the results and documents after
    [result_] and [doc], and the fallback play no role. *)
Theorem first_candidate_wins (page_content : string)
  (bad : list string) (match_ : string) (rest : list string)
  (outer : list (pyval * pyval)) (b : string) (body : pyval)
  (skipped : list pyval) (result_ : pyval) (later : list pyval)
  (pre : list pyval) (doc : pyval) (post : list pyval)
  (ids : list string) (table : list (list pyval)) (total : pyval) :
  re_findall_sveltekit page_content = bad ++ match_ :: rest ->
  Forall (fun m => no_match json_loads m = true) bad ->
  json_loads match_ = Some (VDict outer) ->
  dict_lookup (VStr "body") outer = Some (VStr b) ->
  json_loads b = Some body ->
  py_getpath body ["finance"; "result"]
  = Ok (VList (skipped ++ result_ :: later)) ->
  forallb no_earnings_doc skipped = true ->
  py_getitem_str result_ "documents" = Ok (VList (pre ++ doc :: post)) ->
  forallb plain_doc pre = true ->
  py_get doc "entityIdType" VNone = Ok (VStr "SP_EARNINGS") ->
  columnar doc ids table ->
  py_get result_ "total" (VInt (Z.of_nat (List.length table))) = Ok total ->
  page_data json_loads page_content
  = _convert_visualization_to_dict result_ doc
  /\ page_data json_loads page_content
     = Ok (legacy_dict total
             (VList (map (fun r => VDict (filled r 0 ids [])) table))).
Proof.
  intros Hfind Hbad Hmatch Hbody Hb Hpath Hskipped Hdocs Hpre Htype Hdoc
         Htotal.
  pose proof (convert_columnar _ _ _ _ _ Hdoc Htotal) as Hconv.
  assert (Htry : try_match json_loads match_
                 = Ok (Some (legacy_dict total
                        (VList (map (fun r => VDict (filled r 0 ids []))
                                    table))))).
  { unfold try_match. cbn [py_json_loads]. rewrite Hmatch.
    cbn [rbind py_in_str py_getitem_str]. rewrite Hbody.
    cbn [rbind negb py_json_loads]. rewrite Hb. cbn [rbind].
    cbn [py_getpath] in Hpath.
    destruct (py_getitem_str body "finance") as [fin|e] eqn:Hfin;
      [|discriminate].
    cbn [rbind] in Hpath.
    destruct (py_getitem_str fin "result") as [rs|e] eqn:Hrs;
      [|discriminate].
    cbn [rbind] in Hpath. injection Hpath as ->.
    rewrite (getitem_in _ _ _ Hfin). cbn [rbind negb].
    rewrite (getitem_in _ _ _ Hrs). cbn [rbind negb].
    rewrite Hrs. cbn [rbind py_iter].
    rewrite scan_results_skip by exact Hskipped.
    cbn [scan_results]. rewrite (getitem_in _ _ _ Hdocs), Hdocs.
    cbn [rbind negb py_iter].
    rewrite scan_documents_skip by exact Hpre.
    cbn [scan_documents]. rewrite Htype. cbn [rbind py_eq_str].
    rewrite String.eqb_refl, Hconv. reflexivity. }
  assert (Hpage : page_data json_loads page_content
                  = Ok (legacy_dict total
                          (VList (map (fun r => VDict (filled r 0 ids []))
                                      table)))).
  { unfold page_data, _extract_earnings_from_sveltekit.
    rewrite Hfind, scan_skips by exact Hbad.
    cbn [scan_matches]. rewrite Htry. reflexivity. }
  split; [rewrite Hconv|]; exact Hpage.
Qed.

(** X4. An exception of a candidate that is neither [JSONDecodeError] nor
    [KeyError] (the [TypeError] or [AttributeError] of JSON of another
    shape) ends the extraction: it leaves [_get_data_dict] as it is,
    after the sleep and the request; the candidates after it and the
    fallback are not tried. *)
Theorem candidate_error_propagates (page_content : string)
  (bad : list string) (match_ : string) (rest : list string) (e : exn) :
  re_findall_sveltekit page_content = bad ++ match_ :: rest ->
  Forall (fun m => no_match json_loads m = true) bad ->
  try_match json_loads match_ = Err e ->
  caught_by [JSONDecodeError; KeyError] e = false ->
  page_data json_loads page_content = Err e
  /\ forall self url w,
       http_get (w ++ [EvSleep (delay self)]) url = Ok page_content ->
       get_data self url w = (Err e, w ++ [EvSleep (delay self); EvGet url]).
Proof.
  intros Hfind Hbad Hmatch He.
  assert (Hpage : page_data json_loads page_content = Err e).
  { unfold page_data, _extract_earnings_from_sveltekit.
    rewrite Hfind, scan_skips by exact Hbad.
    cbn [scan_matches]. rewrite Hmatch, He. reflexivity. }
  split; [exact Hpage|]. intros self url w Hget.
  unfold _get_data_dict, bind, time_sleep, requests_get_text, lift.
  rewrite Hget, Hpage, <- app_assoc. reflexivity.
Qed.

(** ** The pattern *)

Lemma findall_without_tag (s : string) :
  forall skip,
    str_contains tag_open s = false -> findall_from skip s = [].
Proof.
  induction s as [|a s IH]; intros skip H; [reflexivity|].
  cbn [str_contains] in H. apply orb_false_elim in H as [Hpre Hrest].
  cbn [findall_from]. destruct skip as [|k]; [|apply IH, Hrest].
  unfold match_here, strip_prefix. rewrite Hpre. apply IH, Hrest.
Qed.

(** X5. A page in which the opening of a visualization script element
    does not occur has no candidate: the primary strategy returns [None]
    and the data of the page is what the fallback makes of it. *)
Theorem no_tag_no_candidate (page_content : string) :
  str_contains tag_open page_content = false ->
  re_findall_sveltekit page_content = []
  /\ extract page_content = Ok VNone
  /\ page_data json_loads page_content
     = rcatch (legacy_page_data json_loads page_content)
              [IndexError; JSONDecodeError] (fun _ => Err unparseable).
Proof.
  intros H.
  assert (Hfind : re_findall_sveltekit page_content = [])
    by (apply findall_without_tag, H).
  split; [exact Hfind|].
  unfold page_data, _extract_earnings_from_sveltekit. rewrite Hfind.
  split; reflexivity.
Qed.

(** ** The fallback *)

Lemma str_append_assoc (a b c : string) :
  ((a ++ b) ++ c = a ++ (b ++ c))%string.
Proof.
  induction a as [|x a IH]; [reflexivity|]. cbn. rewrite IH. reflexivity.
Qed.

Lemma str_drop_last_app (s : string) (c : ascii) :
  str_drop_last (s ++ String c EmptyString)%string = s.
Proof.
  induction s as [|x s IH]; [reflexivity|].
  cbn [append str_drop_last]. rewrite IH.
  destruct s; reflexivity.
Qed.

Lemma prefix_app (p x : string) : prefix p (p ++ x)%string = true.
Proof.
  induction p as [|a p IH]; cbn [append prefix]; [destruct x; reflexivity|].
  destruct (ascii_dec a a); [exact IH | contradiction].
Qed.

Lemma str_drop_app (p x : string) :
  str_drop (String.length p) (p ++ x)%string = x.
Proof. induction p as [|a p IH]; [reflexivity | exact IH]. Qed.

Lemma str_split_once_prefix (p x : string) :
  str_split_once p (p ++ x)%string = [EmptyString; x].
Proof.
  destruct (p ++ x)%string as [|a s] eqn:H; cbn [str_split_once];
    rewrite <- H, prefix_app, str_drop_app; reflexivity.
Qed.

(** X6. When the primary strategy finds nothing, the data of the page is
    read off the first line that starts with [root.App.main = ]: the last
    character of that line is dropped whatever it is, the prefix is cut
    off, and the text in between is parsed; later lines with the prefix
    play no role.  Text that does not parse makes the page unparseable. *)
Theorem fallback_reads_first_line (page_content text : string) (c : ascii)
  (others : list string) :
  extract page_content = Ok VNone ->
  filter (prefix assign_prefix) (str_split_char newline page_content)
  = (assign_prefix ++ text ++ String c EmptyString)%string :: others ->
  page_data json_loads page_content
  = match json_loads text with
    | Some data => Ok data
    | None => Err unparseable
    end.
Proof.
  intros Hnone Hline. unfold page_data. rewrite Hnone.
  cbn [rbind py_truthy]. unfold legacy_page_data. rewrite Hline.
  cbn [strs_index nth_error rbind].
  rewrite <- str_append_assoc, str_drop_last_app, str_split_once_prefix.
  cbn [strs_index nth_error rbind py_json_loads].
  destruct (json_loads text); reflexivity.
Qed.

End Extraction.

Lemma first_candidate_wins_witness :
  re_findall_sveltekit Demo.mixed_page
  = Demo.bad_candidates ++ Demo.good_candidate :: []
  /\ Demo.json_loads Demo.good_candidate
     = Some (Demo.fetched (Demo.visualization Demo.table_a 3))
  /\ Demo.json_loads (Demo.json_text (Demo.visualization Demo.table_a 3))
     = Some (Demo.visualization Demo.table_a 3)
  /\ py_getpath (Demo.visualization Demo.table_a 3) ["finance"; "result"]
     = Ok (VList ([] ++ Demo.result_a :: []))
  /\ py_getitem_str Demo.result_a "documents"
     = Ok (VList ([VDict [(VStr "entityIdType", VStr "SP_SCREENER")]]
                  ++ Demo.earnings_doc Demo.table_a :: []))
  /\ page_data Demo.json_loads Demo.mixed_page
     = Ok (legacy_dict (VInt 3)
             (VList (map (fun r => VDict (filled r 0 Demo.column_ids []))
                         Demo.table_a))).
Proof.
  assert (Hfind : re_findall_sveltekit Demo.mixed_page
                  = Demo.bad_candidates ++ Demo.good_candidate :: [])
    by (vm_compute; reflexivity).
  assert (Hmatch : Demo.json_loads Demo.good_candidate
                   = Some (Demo.fetched (Demo.visualization Demo.table_a 3)))
    by (vm_compute; reflexivity).
  assert (Hb : Demo.json_loads
                 (Demo.json_text (Demo.visualization Demo.table_a 3))
               = Some (Demo.visualization Demo.table_a 3))
    by (vm_compute; reflexivity).
  split; [exact Hfind|]. split; [exact Hmatch|]. split; [exact Hb|].
  split; [reflexivity|]. split; [reflexivity|].
  exact (proj2 (first_candidate_wins Demo.json_loads Demo.mixed_page
                  Demo.bad_candidates Demo.good_candidate [] _
                  (Demo.json_text (Demo.visualization Demo.table_a 3))
                  (Demo.visualization Demo.table_a 3)
                  [] Demo.result_a []
                  [VDict [(VStr "entityIdType", VStr "SP_SCREENER")]]
                  (Demo.earnings_doc Demo.table_a) []
                  Demo.column_ids Demo.table_a (VInt 3)
                  Hfind demo_bad_candidates Hmatch eq_refl Hb eq_refl
                  eq_refl eq_refl eq_refl eq_refl demo_doc_columnar
                  eq_refl)).
Defined.

Lemma candidate_error_propagates_witness :
  re_findall_sveltekit
    (Demo.candidates_page
       (Demo.bad_candidates ++ [Demo.odd_candidate; Demo.good_candidate]))
  = Demo.bad_candidates ++ Demo.odd_candidate :: [Demo.good_candidate]
  /\ try_match Demo.json_loads Demo.odd_candidate
     = Err (Exn TypeError EmptyString)
  /\ page_data Demo.json_loads
       (Demo.candidates_page
          (Demo.bad_candidates ++ [Demo.odd_candidate; Demo.good_candidate]))
     = Err (Exn TypeError EmptyString).
Proof.
  assert (Hfind : re_findall_sveltekit
                    (Demo.candidates_page
                       (Demo.bad_candidates
                        ++ [Demo.odd_candidate; Demo.good_candidate]))
                  = Demo.bad_candidates
                    ++ Demo.odd_candidate :: [Demo.good_candidate])
    by (vm_compute; reflexivity).
  assert (Hodd : try_match Demo.json_loads Demo.odd_candidate
                 = Err (Exn TypeError EmptyString))
    by (vm_compute; reflexivity).
  split; [exact Hfind|]. split; [exact Hodd|].
  exact (proj1 (candidate_error_propagates Demo.json_loads Demo.http_get _
                  Demo.bad_candidates Demo.odd_candidate
                  [Demo.good_candidate] _ Hfind demo_bad_candidates Hodd
                  eq_refl)).
Defined.

Lemma no_tag_no_candidate_witness :
  str_contains tag_open (Demo.legacy_page Demo.quote_data) = false
  /\ re_findall_sveltekit (Demo.legacy_page Demo.quote_data) = []
  /\ page_data Demo.json_loads (Demo.legacy_page Demo.quote_data)
     = Ok Demo.quote_data.
Proof.
  assert (H : str_contains tag_open (Demo.legacy_page Demo.quote_data)
              = false) by (vm_compute; reflexivity).
  destruct (no_tag_no_candidate Demo.json_loads _ H) as (Hfind & _ & Hpage).
  split; [exact H|]. split; [exact Hfind|].
  rewrite Hpage. vm_compute. reflexivity.
Defined.

Lemma fallback_reads_first_line_witness :
  _extract_earnings_from_sveltekit Demo.json_loads
     (Demo.legacy_page Demo.quote_data) = Ok VNone
  /\ filter (prefix assign_prefix)
            (str_split_char newline (Demo.legacy_page Demo.quote_data))
     = (assign_prefix ++ Demo.json_text Demo.quote_data
        ++ String ";" EmptyString)%string :: []
  /\ page_data Demo.json_loads (Demo.legacy_page Demo.quote_data)
     = Ok Demo.quote_data.
Proof.
  assert (Hnone : _extract_earnings_from_sveltekit Demo.json_loads
                    (Demo.legacy_page Demo.quote_data) = Ok VNone)
    by (vm_compute; reflexivity).
  assert (Hline : filter (prefix assign_prefix)
                    (str_split_char newline
                       (Demo.legacy_page Demo.quote_data))
                  = (assign_prefix ++ Demo.json_text Demo.quote_data
                     ++ String ";" EmptyString)%string :: [])
    by (vm_compute; reflexivity).
  split; [exact Hnone|]. split; [exact Hline|].
  rewrite (fallback_reads_first_line Demo.json_loads _ _ _ _ Hnone Hline).
  vm_compute. reflexivity.
Defined.

Section Pages.

Variable json_loads : string -> option pyval.
Variable http_get : world -> string -> result string.
Variable strftime_ymd : Z -> string.

Abbreviation get_data := (_get_data_dict json_loads http_get).
Abbreviation on_date := (earnings_on json_loads http_get strftime_ymd).
Abbreviation url_of := (dated_url strftime_ymd).
Abbreviation fetched := (fetched_page json_loads http_get).

(** ** What [earnings_on] asks the server *)

Lemma offsets_from_S (offset : Z) (n : nat) :
  offsets_from offset (S n)
  = offset :: offsets_from (offset + OFFSET_STEP) n.
Proof.
  unfold offsets_from. cbn [seq map]. f_equal.
  - change (Z.of_nat 0) with 0. lia.
  - rewrite <- seq_shift, map_map. apply map_ext. intros j. lia.
Qed.

(** X7. Whatever the server answers, [earnings_on] only asks for pages of
    the day it was given, at the offsets [offset], [offset + 100],
    [offset + 200], ... without a gap, each request after a sleep of
    [self.delay], and never more pages than the nesting depth allows. *)
Theorem earnings_on_requests (depth : nat) (self : YahooEarningsCalendar)
  (date : pyval) :
  forall (offset : Z) (count : pyval) (w : world),
  exists n,
    (n <= depth)%nat
    /\ snd (on_date depth self date offset count w)
       = w ++ blocks self (map (url_of date) (offsets_from offset n)).
Proof.
  induction depth as [|depth IH]; intros offset count w.
  - exists 0%nat. split; [lia|]. cbn. rewrite app_nil_r. reflexivity.
  - cbn [earnings_on]. unfold bind, lift, ret, raise.
    assert (Hnone : forall r : result (list pyval),
              exists n, (n <= S depth)%nat
                /\ snd (r, w)
                   = w ++ blocks self
                            (map (url_of date) (offsets_from offset n))).
    { intros r. exists 0%nat. split; [lia|]. cbn.
      rewrite app_nil_r. reflexivity. }
    destruct (py_ge (VInt offset) count) as [[]|e]; try apply Hnone.
    destruct (isinstance_date date); cbn [negb]; [|apply Hnone].
    unfold _get_data_dict, bind, time_sleep, requests_get_text, lift.
    rewrite <- app_assoc. cbn [app].
    assert (Hone : forall r : result (list pyval),
              exists n, (n <= S depth)%nat
                /\ snd (r, w ++ [EvSleep (delay self);
                                 EvGet (url_of date offset)])
                   = w ++ blocks self
                            (map (url_of date) (offsets_from offset n))).
    { intros r. exists 1%nat. split; [lia|].
      rewrite offsets_from_S. cbn. reflexivity. }
    destruct (http_get _ _) as [text|e]; [|apply Hone].
    destruct (page_data json_loads text) as [data|e]; [|apply Hone].
    destruct (py_getpath data stores_path) as [st|e]; [|apply Hone].
    destruct (py_getpath st total_path) as [total|e]; [|apply Hone].
    destruct (IH (offset + OFFSET_STEP) total
                 (w ++ [EvSleep (delay self); EvGet (url_of date offset)]))
      as (n & Hn & Htrace).
    exists (S n). split; [lia|].
    rewrite offsets_from_S. cbn [map blocks flat_map app].
    rewrite <- app_assoc in Htrace. cbn [app] in Htrace.
    unfold blocks in Htrace. rewrite <- Htrace.
    destruct (on_date depth self date _ total _) as [[more|e] w2];
      [|reflexivity].
    destruct (py_getpath st rows_path); reflexivity.
Qed.

(** ** Failures of a page *)

Lemma py_ge_not_number (offset : Z) (total : pyval) :
  as_number total = None -> py_ge (VInt offset) total = raise_ TypeError.
Proof. destruct total; try discriminate; reflexivity. Qed.

(** X8. No partial result: when the page asked for cannot be had
    (transport failure, undecodable or unparseable page), [earnings_on]
    raises that exception after the one sleep and request; and when a later
    page fails, the exception is raised although the pages before it were
    fetched and read. *)
Theorem earnings_on_all_or_nothing (depth : nat)
  (self : YahooEarningsCalendar) (date : pyval) (offset : Z) (count : pyval)
  (w : world) :
  py_ge (VInt offset) count = Ok false ->
  isinstance_date date = true ->
  (forall e,
     fst (get_data self (url_of date offset) w) = Err e ->
     on_date (S depth) self date offset count w
     = (Err e, w ++ [EvSleep (delay self); EvGet (url_of date offset)]))
  /\ (forall total rows e,
        fetched (w ++ [EvSleep (delay self)]) (url_of date offset)
        = Ok (total, rows) ->
        fst (on_date depth self date (offset + OFFSET_STEP) total
               (w ++ [EvSleep (delay self); EvGet (url_of date offset)]))
        = Err e ->
        fst (on_date (S depth) self date offset count w) = Err e).
Proof.
  intros Hge Hdate. split.
  - intros e He. cbn [earnings_on].
    rewrite (bind_lift_ok _ false) by exact Hge. rewrite Hdate. cbn [negb].
    unfold bind at 1. rewrite get_data_dict_run in *. cbn [fst] in He.
    rewrite He. reflexivity.
  - intros total rows e Hpage Hrest.
    rewrite (earnings_on_page json_loads http_get strftime_ymd depth self
               date offset count total rows w Hge Hdate Hpage).
    cbn [fst]. rewrite Hrest. reflexivity.
Qed.

(** X9. A page whose total is not a number ([null], a string, a list)
    makes [earnings_on] raise [TypeError] once the page is read: the total
    becomes the limit of the next call, whose first test compares the
    offset with it.  No further page is asked for, and the rows of the
    page are lost. *)
Theorem earnings_on_total_not_a_number (depth : nat)
  (self : YahooEarningsCalendar) (date : pyval) (offset : Z)
  (count total rows : pyval) (w : world) :
  py_ge (VInt offset) count = Ok false ->
  isinstance_date date = true ->
  fetched (w ++ [EvSleep (delay self)]) (url_of date offset)
  = Ok (total, rows) ->
  as_number total = None ->
  on_date (S (S depth)) self date offset count w
  = (Err (Exn TypeError EmptyString),
     w ++ [EvSleep (delay self); EvGet (url_of date offset)]).
Proof.
  intros Hge Hdate Hpage Htotal.
  rewrite (earnings_on_page json_loads http_get strftime_ymd (S depth) self
             date offset count total rows w Hge Hdate Hpage).
  cbn [earnings_on].
  rewrite (bind_lift_err _ (Exn TypeError EmptyString))
    by (apply py_ge_not_number, Htotal).
  reflexivity.
Qed.

(** The count a caller passes only decides whether the call is cut
    short: two counts that both lie above the offset give the same
    records and the same requests, since every later limit is the total of
    a page. *)
Theorem earnings_on_count_only_gates (depth : nat)
  (self : YahooEarningsCalendar) (date : pyval) (offset : Z)
  (count count' : pyval) (w : world) :
  py_ge (VInt offset) count = Ok false ->
  py_ge (VInt offset) count' = Ok false ->
  on_date depth self date offset count w
  = on_date depth self date offset count' w.
Proof.
  intros H H'. destruct depth as [|depth]; [reflexivity|].
  cbn [earnings_on].
  rewrite (bind_lift_ok _ false) by exact H.
  rewrite (bind_lift_ok _ false) by exact H'.
  reflexivity.
Qed.

End Pages.

Lemma earnings_on_all_or_nothing_witness :
  py_ge (VInt 0) (VInt 1) = Ok false
  /\ isinstance_date (VDate Odd.day_null_total) = true
  /\ earnings_on Odd.json_loads Odd.http_get Demo.strftime_ymd 3 Demo.self
       (VDate (Odd.day_null_total + 1)) 0 (VInt 1) []
     = (Err (Exn RequestException "connection refused"),
        [EvSleep (VInt 0); EvGet (Demo.day_url (Odd.day_null_total + 1) 0)])
  /\ fst (demo_on 2%nat Demo.self (VDate Demo.day_c) 0 (VInt 1) [])
     = Err (Exn RecursionError EmptyString).
Proof.
  split; [reflexivity|]. split; [reflexivity|]. split.
  - apply (proj1 (earnings_on_all_or_nothing Odd.json_loads Odd.http_get
                    Demo.strftime_ymd 2 Demo.self
                    (VDate (Odd.day_null_total + 1)) 0 (VInt 1) []
                    eq_refl eq_refl)).
    vm_compute. reflexivity.
  - apply (proj2 (earnings_on_all_or_nothing Demo.json_loads Demo.http_get
                    Demo.strftime_ymd 1 Demo.self (VDate Demo.day_c) 0
                    (VInt 1) [] eq_refl eq_refl)
             (VInt 250) (VList (map Demo.record (Demo.page_c 0))));
      vm_compute; reflexivity.
Defined.

Lemma earnings_on_total_not_a_number_witness :
  fetched_page Odd.json_loads Odd.http_get [EvSleep (VInt 0)]
               (Demo.day_url Odd.day_null_total 0)
  = Ok (VNone, VList (map Demo.record Demo.table_a))
  /\ as_number VNone = None
  /\ earnings_on Odd.json_loads Odd.http_get Demo.strftime_ymd 5 Demo.self
       (VDate Odd.day_null_total) 0 (VInt 1) []
     = (Err (Exn TypeError EmptyString),
        [EvSleep (VInt 0); EvGet (Demo.day_url Odd.day_null_total 0)]).
Proof.
  assert (Hpage : fetched_page Odd.json_loads Odd.http_get
                    ([] ++ [EvSleep (delay Demo.self)])
                    (dated_url Demo.strftime_ymd (VDate Odd.day_null_total) 0)
                  = Ok (VNone, VList (map Demo.record Demo.table_a)))
    by (vm_compute; reflexivity).
  split; [exact Hpage|]. split; [reflexivity|].
  exact (earnings_on_total_not_a_number Odd.json_loads Odd.http_get
           Demo.strftime_ymd 3 Demo.self (VDate Odd.day_null_total) 0
           (VInt 1) VNone _ [] eq_refl eq_refl Hpage eq_refl).
Defined.

Lemma earnings_on_count_only_gates_witness :
  py_ge (VInt 0) (VInt 1) = Ok false
  /\ py_ge (VInt 0) (VFloat (FInf false)) = Ok false
  /\ demo_on 5%nat Demo.self (VDate Demo.day_c) 0 (VInt 1) []
     = demo_on 5%nat Demo.self (VDate Demo.day_c) 0 (VFloat (FInf false)) [].
Proof.
  split; [reflexivity|]. split; [reflexivity|].
  apply earnings_on_count_only_gates; reflexivity.
Defined.

Section Ranges.

Variable json_loads : string -> option pyval.
Variable http_get : world -> string -> result string.
Variable strftime_ymd : Z -> string.

Abbreviation on_date := (earnings_on json_loads http_get strftime_ymd).
Abbreviation between := (earnings_between json_loads http_get strftime_ymd).
Abbreviation loop := (between_loop json_loads http_get strftime_ymd).
Abbreviation days := (each_day json_loads http_get strftime_ymd).

(** ** The checks of [earnings_between] *)

(** X10. [earnings_between] compares its arguments before it looks at
    their types.  Two integers or two strings in descending order raise the
    [ValueError] of a range whose start is after its end, in ascending
    order the [TypeError] that asks for date objects; a date with a
    datetime raises the [TypeError] of the comparison itself, whichever
    comes first.  Nothing is fetched in any of these cases. *)
Theorem earnings_between_checks (depth : nat) (self : YahooEarningsCalendar)
  (w : world) :
  (forall a b : Z,
     between depth self (VInt a) (VInt b) w
     = (Err (if b <? a then range_error else range_type_error), w))
  /\ (forall s t : string,
        between depth self (VStr s) (VStr t) w
        = (Err (if String.ltb t s then range_error else range_type_error),
           w))
  /\ (forall o y us : Z,
        between depth self (VDate o) (VDateTime y us) w
        = (Err (Exn TypeError EmptyString), w)
        /\ between depth self (VDateTime y us) (VDate o) w
           = (Err (Exn TypeError EmptyString), w)).
Proof.
  split; [|split].
  - intros a b. unfold earnings_between, bind, lift, py_gt, py_lt.
    cbn [py_cmp as_number num_compare rbind is_lt].
    unfold Z.ltb. destruct (b ?= a); reflexivity.
  - intros s t. unfold earnings_between, bind, lift, py_gt, py_lt.
    cbn [py_cmp rbind is_lt]. unfold String.ltb.
    destruct (String.compare t s); reflexivity.
  - intros o y us. split; reflexivity.
Qed.

(** ** The days of a range *)

(** X11. For two dates [from_date <= to_date] with [to_date] before
    9999-12-31, [earnings_between] is a plain [earnings_on] (offset 0,
    count 1) for every day from the first to the last, in that order, with
    the lists concatenated; the first day that fails ends the call with
    its exception. *)
Theorem earnings_between_each_day (depth : nat)
  (self : YahooEarningsCalendar) (a b : Z) (w : world) :
  a <= b -> b < MAX_ORDINAL ->
  between depth self (VDate a) (VDate b) w
  = days depth self (days_from a (Z.to_nat (b - a + 1))) w.
Proof.
  intros Hab Hb.
  exact (earnings_between_days json_loads http_get strftime_ymd depth self
           a b w Hab Hb).
Qed.

Lemma loop_to_max_raises (depth : nat) (self : YahooEarningsCalendar) :
  forall (m n : nat) (c : Z) (acc : list pyval) (w : world),
    c + Z.of_nat m = MAX_ORDINAL + 1 -> (1 <= m)%nat -> (m < n)%nat ->
    exists e,
      fst (loop n depth self (VDate c) (VDate MAX_ORDINAL) acc w) = Err e.
Proof.
  induction m as [|m IH]; intros n c acc w Hc Hm Hn; [lia|].
  destruct n as [|n]; [lia|]. cbn [between_loop].
  rewrite (bind_lift_ok _ true)
    by (rewrite py_le_dates;
        destruct (Z.leb_spec c MAX_ORDINAL); [reflexivity | lia]).
  unfold bind.
  destruct (on_date depth self (VDate c) 0 (VInt 1) w) as [[day|e] w1];
    [|exists e; reflexivity].
  cbn [lift add_one_day].
  destruct (Z.leb_spec (c + 1) MAX_ORDINAL) as [Hle|Hgt].
  - apply IH; lia.
  - exists (Exn OverflowError EmptyString). reflexivity.
Qed.

(** X12. A range of dates that ends on 9999-12-31 never returns: either a
    day fails, or every day is fetched and the step past the last date
    raises [OverflowError]. *)
Theorem earnings_between_to_max_raises (depth : nat)
  (self : YahooEarningsCalendar) (a : Z) (w : world) :
  a <= MAX_ORDINAL ->
  exists e,
    fst (between depth self (VDate a) (VDate MAX_ORDINAL) w) = Err e.
Proof.
  intros Ha. unfold earnings_between.
  rewrite (bind_lift_ok _ false)
    by (rewrite py_gt_dates;
        destruct (Z.ltb_spec MAX_ORDINAL a); [lia | reflexivity]).
  cbn [isinstance_date andb negb].
  apply (loop_to_max_raises depth self (Z.to_nat (MAX_ORDINAL - a + 1)));
    [lia | lia | unfold between_bound; cbn [ordinal_of]; lia].
Qed.

Lemma py_le_datetimes (c us b vs : Z) :
  py_le (VDateTime c us) (VDateTime b vs)
  = Ok ((c <? b) || ((c =? b) && (us <=? vs))).
Proof.
  unfold py_le. cbn [py_cmp rbind].
  destruct (Z.compare_spec c b), (Z.ltb_spec c b), (Z.eqb_spec c b);
    try lia; reflexivity.
Qed.

Lemma loop_datetimes (depth : nat) (self : YahooEarningsCalendar)
  (us b vs : Z) :
  last_day us b vs < MAX_ORDINAL ->
  forall (m n : nat) (c : Z) (acc : list pyval) (w : world),
    c + Z.of_nat m = last_day us b vs + 1 -> (m < n)%nat ->
    loop n depth self (VDateTime c us) (VDateTime b vs) acc w
    = (rbind (fst (days depth self (days_from c m) w))
             (fun l => Ok (acc ++ l)),
       snd (days depth self (days_from c m) w)).
Proof.
  intros Hlast. induction m as [|m IH]; intros n c acc w Hc Hn.
  - destruct n as [|n]; [lia|]. cbn [between_loop].
    rewrite (bind_lift_ok _ false).
    + cbn. rewrite app_nil_r. reflexivity.
    + rewrite py_le_datetimes. unfold last_day in Hc.
      destruct (Z.leb_spec us vs), (Z.ltb_spec c b), (Z.eqb_spec c b);
        cbn [orb andb]; try reflexivity; lia.
  - destruct n as [|n]; [lia|]. cbn [between_loop].
    rewrite (bind_lift_ok _ true).
    + unfold days_from. cbn [seq map each_day].
      rewrite Z.add_0_r. unfold bind.
      rewrite earnings_on_datetime.
      destruct (on_date depth self (VDate c) 0 (VInt 1) w) as [[day|e] w1];
        [|reflexivity].
      cbn [lift add_one_day].
      destruct (Z.leb_spec (c + 1) MAX_ORDINAL); [|lia].
      rewrite IH by lia. unfold days_from.
      rewrite <- seq_shift, map_map.
      rewrite (map_ext (fun k => c + Z.of_nat (S k))
                       (fun k => c + 1 + Z.of_nat k)) by (intros; lia).
      destruct (days depth self _ w1) as [[l|e] w2]; cbn [fst snd rbind ret].
      * rewrite <- app_assoc. reflexivity.
      * reflexivity.
    + rewrite py_le_datetimes. unfold last_day in Hc.
      destruct (Z.leb_spec us vs), (Z.ltb_spec c b), (Z.eqb_spec c b);
        cbn [orb andb]; try reflexivity; lia.
Qed.

(** X13. Between two datetimes the days are counted with the time of day:
    the range runs from the day of the start to the day of the end when
    the time of the start is not later than the time of the end, and stops
    a day earlier otherwise, because the loop compares whole datetimes.
    Each day is queried as its calendar day. *)
Theorem earnings_between_datetimes (depth : nat)
  (self : YahooEarningsCalendar) (a us b vs : Z) (w : world) :
  a < b \/ (a = b /\ us <= vs) ->
  last_day us b vs < MAX_ORDINAL ->
  between depth self (VDateTime a us) (VDateTime b vs) w
  = days depth self
         (days_from a (Z.to_nat (last_day us b vs - a + 1))) w.
Proof.
  intros Hab Hlast. unfold earnings_between.
  rewrite (bind_lift_ok _ false).
  - cbn [isinstance_date andb negb].
    rewrite (loop_datetimes depth self us b vs Hlast
               (Z.to_nat (last_day us b vs - a + 1))).
    + destruct (days depth self _ w) as [[l|e] w1]; reflexivity.
    + unfold last_day in *. destruct (Z.leb_spec us vs); lia.
    + unfold between_bound, last_day. cbn [ordinal_of].
      destruct (Z.leb_spec us vs); lia.
  - unfold py_gt, py_lt. cbn [py_cmp rbind].
    destruct (Z.compare_spec b a); cbn [is_lt]; try reflexivity; try lia.
    destruct (Z.compare_spec vs us); cbn [is_lt]; try reflexivity; lia.
Qed.

End Ranges.

Lemma earnings_between_each_day_witness :
  Demo.day_a <= Demo.day_empty
  /\ Demo.day_empty < MAX_ORDINAL
  /\ demo_between 5%nat Demo.self (VDate Demo.day_a) (VDate Demo.day_empty) []
     = each_day Demo.json_loads Demo.http_get Demo.strftime_ymd 5 Demo.self
         (days_from Demo.day_a 3) [].
Proof.
  assert (H1 : Demo.day_a <= Demo.day_empty)
    by (apply Z.leb_le; vm_compute; reflexivity).
  assert (H2 : Demo.day_empty < MAX_ORDINAL)
    by (apply Z.ltb_lt; vm_compute; reflexivity).
  split; [exact H1|]. split; [exact H2|].
  exact (earnings_between_each_day Demo.json_loads Demo.http_get
           Demo.strftime_ymd 5 Demo.self Demo.day_a Demo.day_empty []
           H1 H2).
Defined.

Lemma earnings_between_to_max_raises_witness :
  MAX_ORDINAL - 1 <= MAX_ORDINAL
  /\ exists e,
       fst (earnings_between Odd.json_loads Odd.http_get Demo.strftime_ymd
              5 Demo.self (VDate (MAX_ORDINAL - 1)) (VDate MAX_ORDINAL) [])
       = Err e.
Proof.
  assert (H : MAX_ORDINAL - 1 <= MAX_ORDINAL) by lia.
  split; [exact H|].
  exact (earnings_between_to_max_raises Odd.json_loads Odd.http_get
           Demo.strftime_ymd 5 Demo.self (MAX_ORDINAL - 1) [] H).
Defined.

Lemma earnings_between_datetimes_witness :
  (Demo.day_a < Demo.day_empty
   \/ (Demo.day_a = Demo.day_empty /\ 50400000000 <= 46800000000))
  /\ last_day 50400000000 Demo.day_empty 46800000000 = Demo.day_a_legacy
  /\ fetches (snd (demo_between 5%nat Demo.self
                     (VDateTime Demo.day_a 50400000000)
                     (VDateTime Demo.day_empty 46800000000) []))
     = [Demo.day_url Demo.day_a 0; Demo.day_url Demo.day_a_legacy 0].
Proof.
  assert (H1 : Demo.day_a < Demo.day_empty
               \/ (Demo.day_a = Demo.day_empty
                   /\ 50400000000 <= 46800000000))
    by (left; apply Z.ltb_lt; vm_compute; reflexivity).
  assert (H2 : last_day 50400000000 Demo.day_empty 46800000000
               < MAX_ORDINAL)
    by (apply Z.ltb_lt; vm_compute; reflexivity).
  split; [exact H1|]. split; [vm_compute; reflexivity|].
  rewrite (earnings_between_datetimes Demo.json_loads Demo.http_get
             Demo.strftime_ymd 5 Demo.self Demo.day_a 50400000000
             Demo.day_empty 46800000000 [] H1 H2).
  vm_compute. reflexivity.
Defined.

Section Symbols.

Variable json_loads : string -> option pyval.
Variable http_get : world -> string -> result string.
Variable strptime : string -> option (Z * Z).
Variable timestamp : Z * Z -> result Z.
Variable utcnow : Z * Z.

Abbreviation get_data := (_get_data_dict json_loads http_get).
Abbreviation earnings_of := (get_earnings_of json_loads http_get).
Abbreviation next_date :=
  (get_next_earnings_date json_loads http_get strptime timestamp utcnow).
Abbreviation upcoming := (upcoming_timestamp strptime timestamp utcnow).
Abbreviation attempt2 := (second_attempt strptime timestamp utcnow).

(** ** [get_earnings_of] *)

Lemma earnings_of_run (self : YahooEarningsCalendar) (symbol : string)
  (w : world) :
  earnings_of self symbol w
  = (match rbind (fst (get_data self (symbol_url symbol) w))
                 (fun d => py_getpath d (stores_path ++ rows_path)) with
     | Ok rows => Ok rows
     | Err _ => Err symbol_error
     end,
     w ++ blocks self [symbol_url symbol]).
Proof.
  unfold get_earnings_of, try_except, bind, lift, raise.
  rewrite get_data_dict_run. cbn [fst blocks flat_map app].
  destruct (rbind _ _) as [d|e]; cbn [rbind]; [|reflexivity].
  destruct (py_getpath d _); reflexivity.
Qed.

(** X14. [get_earnings_of] is one request for the calendar page of the
    symbol and is not paginated.  From a page whose data the extraction
    gives in the common form, a total and rows, it returns the rows of that
    one page as they are: the total is not read, so a total larger than
    the number of rows brings no further request.  Every failure, of the
    request, of the extraction, or of data that lack the rows path, comes
    out as the one [Exception] of an invalid symbol, whatever the class of
    the exception, after the same sleep and request. *)
Theorem get_earnings_of_outcome (self : YahooEarningsCalendar)
  (symbol : string) (w : world) :
  (forall page total rows,
     http_get (w ++ [EvSleep (delay self)]) (symbol_url symbol) = Ok page ->
     page_data json_loads page = Ok (legacy_dict total rows) ->
     earnings_of self symbol w
     = (Ok rows, w ++ blocks self [symbol_url symbol]))
  /\ (forall e,
        http_get (w ++ [EvSleep (delay self)]) (symbol_url symbol) = Err e ->
        earnings_of self symbol w
        = (Err symbol_error, w ++ blocks self [symbol_url symbol]))
  /\ (forall page e,
        http_get (w ++ [EvSleep (delay self)]) (symbol_url symbol) = Ok page ->
        page_data json_loads page = Err e ->
        earnings_of self symbol w
        = (Err symbol_error, w ++ blocks self [symbol_url symbol]))
  /\ (forall page data e,
        http_get (w ++ [EvSleep (delay self)]) (symbol_url symbol) = Ok page ->
        page_data json_loads page = Ok data ->
        py_getpath data (stores_path ++ rows_path) = Err e ->
        earnings_of self symbol w
        = (Err symbol_error, w ++ blocks self [symbol_url symbol])).
Proof.
  rewrite earnings_of_run, get_data_dict_run. cbn [fst].
  repeat split.
  - intros page total rows -> Hpage. cbn [rbind]. rewrite Hpage.
    reflexivity.
  - intros e ->. reflexivity.
  - intros page e -> Hpage. cbn [rbind]. rewrite Hpage. reflexivity.
  - intros page data e -> Hpage Hpath. cbn [rbind]. rewrite Hpage.
    cbn [rbind]. rewrite Hpath. reflexivity.
Qed.

(** ** [get_next_earnings_date] *)

Lemma handler_collapses (e : exn) (w : world) :
  (if caught_by [ValueError; KeyError; TypeError] e
   then raise symbol_error
   else if caught_by [Exception] e then raise symbol_error
        else @raise pyval e) w
  = (Err symbol_error, w).
Proof.
  destruct (caught_by [ValueError; KeyError; TypeError] e); [reflexivity|].
  unfold caught_by. cbn [existsb subclass orb]. reflexivity.
Qed.

(** Past a failed quote-summary lookup the outcome is that of the second
    attempt, every exception of it turned into the one of an invalid
    symbol. *)
Lemma next_date_second_attempt (self : YahooEarningsCalendar)
  (symbol : string) (data earnings : pyval) (w w1 w2 : world) :
  get_data self (stock_url symbol) w = (Ok data, w1) ->
  (forall raw, quote_summary_raw data <> Ok raw) ->
  earnings_of self symbol w1 = (Ok earnings, w2) ->
  next_date self symbol w
  = (match attempt2 earnings with
     | Ok v => Ok v
     | Err _ => Err symbol_error
     end, w2).
Proof.
  intros Hdata Hpath Hearn.
  unfold get_next_earnings_date, try_except, bind.
  rewrite Hdata.
  destruct (quote_summary_raw data) as [raw|e] eqn:Hq;
    [exfalso; apply (Hpath raw); reflexivity|].
  rewrite (quote_summary_error _ _ Hq), Hearn.
  unfold second_attempt. destruct (py_truthy earnings); [|reflexivity].
  unfold lift, ret.
  destruct (py_len earnings) as [n|e']; cbn [rbind];
    [|apply handler_collapses].
  destruct (Nat.ltb 0 n); [|reflexivity].
  destruct (sorted_by_start earnings) as [l|e']; cbn [rbind];
    [|apply handler_collapses].
  destruct (scan_upcoming strptime timestamp utcnow l) as [v|e'];
    [reflexivity | apply handler_collapses].
Qed.

(** X15. [get_next_earnings_date] returns a value or raises the one
    [Exception] with the message of an invalid symbol, never anything else:
    also the exception for no upcoming date is replaced by it.  It asks for
    the quote page and at most once more for the calendar page of the
    symbol.  When the quote page has the quote-summary path, the value
    there is returned as it is and the calendar page is not asked for. *)
Theorem next_date_outcome (self : YahooEarningsCalendar) (symbol : string)
  (w : world) :
  ((exists v, fst (next_date self symbol w) = Ok v)
   \/ fst (next_date self symbol w) = Err symbol_error)
  /\ (snd (next_date self symbol w) = w ++ blocks self [stock_url symbol]
      \/ snd (next_date self symbol w)
         = w ++ blocks self [stock_url symbol; symbol_url symbol])
  /\ (forall data raw,
        fst (get_data self (stock_url symbol) w) = Ok data ->
        quote_summary_raw data = Ok raw ->
        next_date self symbol w
        = (Ok raw, w ++ blocks self [stock_url symbol])).
Proof.
  unfold get_next_earnings_date, try_except, bind.
  rewrite get_data_dict_run. cbn [blocks flat_map app].
  destruct (rbind _ _) as [data|e]; cbn [fst].
  - destruct (quote_summary_raw data) as [raw|e] eqn:Hq.
    + cbn [ret fst snd]. split; [left; exists raw; reflexivity|].
      split; [left; reflexivity|].
      intros data' raw' [= <-] Hraw. rewrite Hq in Hraw.
      injection Hraw as <-. reflexivity.
    + rewrite (quote_summary_error _ _ Hq), earnings_of_run.
      cbn [blocks flat_map app]. rewrite <- app_assoc. cbn [app].
      split; [|split; [right|]].
      * destruct (match rbind _ _ with Ok rows => Ok rows | Err _ => _ end)
          as [earnings|e'].
        -- destruct (py_truthy earnings); [|left; exists VNone; reflexivity].
           unfold lift, ret.
           destruct (py_len earnings) as [n|e']; cbn [rbind];
             [|right; rewrite handler_collapses; reflexivity].
           destruct (Nat.ltb 0 n); [|left; exists VNone; reflexivity].
           destruct (sorted_by_start earnings) as [l|e'];
             [|right; rewrite handler_collapses; reflexivity].
           destruct (scan_upcoming strptime timestamp utcnow l) as [v|e'];
             [left; exists v; reflexivity|].
           right. rewrite handler_collapses. reflexivity.
        -- right. rewrite handler_collapses. reflexivity.
      * destruct (match rbind _ _ with Ok rows => Ok rows | Err _ => _ end)
          as [earnings|e'].
        -- destruct (py_truthy earnings); [|reflexivity].
           unfold lift, ret.
           destruct (py_len earnings) as [n|e']; cbn [rbind];
             [|rewrite handler_collapses; reflexivity].
           destruct (Nat.ltb 0 n); [|reflexivity].
           destruct (sorted_by_start earnings) as [l|e'];
             [|rewrite handler_collapses; reflexivity].
           destruct (scan_upcoming strptime timestamp utcnow l) as [v|e'];
             [reflexivity|].
           rewrite handler_collapses. reflexivity.
        -- rewrite handler_collapses. reflexivity.
      * intros data' raw' [= <-] Hraw. rewrite Hq in Hraw. discriminate.
  - rewrite handler_collapses. cbn [fst snd].
    split; [right; reflexivity|]. split; [left; reflexivity|].
    intros data raw H. discriminate.
Qed.

End Symbols.

Lemma get_earnings_of_outcome_witness :
  page_data Demo.json_loads
    (Demo.sveltekit_page (Demo.visualization (Demo.page_c 0) 250))
  = Ok (legacy_dict (VInt 250) (VList (map Demo.record (Demo.page_c 0))))
  /\ List.length (Demo.page_c 0) = 100%nat
  /\ get_earnings_of Demo.json_loads
       (fun _ _ =>
          Ok (Demo.sveltekit_page (Demo.visualization (Demo.page_c 0) 250)))
       Demo.self "big" []
     = (Ok (VList (map Demo.record (Demo.page_c 0))),
        [] ++ blocks Demo.self [symbol_url "big"])
  /\ get_earnings_of Odd.json_loads Odd.http_get Demo.self "gone" []
     = (Err symbol_error, [] ++ blocks Demo.self [symbol_url "gone"]).
Proof.
  assert (Hpage : page_data Demo.json_loads
                    (Demo.sveltekit_page
                       (Demo.visualization (Demo.page_c 0) 250))
                  = Ok (legacy_dict (VInt 250)
                          (VList (map Demo.record (Demo.page_c 0)))))
    by (vm_compute; reflexivity).
  split; [exact Hpage|]. split; [reflexivity|]. split.
  - exact (proj1 (get_earnings_of_outcome Demo.json_loads
                    (fun _ _ =>
                       Ok (Demo.sveltekit_page
                             (Demo.visualization (Demo.page_c 0) 250)))
                    Demo.self "big" [])
             _ (VInt 250) (VList (map Demo.record (Demo.page_c 0)))
             eq_refl Hpage).
  - exact (proj1 (proj2 (get_earnings_of_outcome Odd.json_loads Odd.http_get
                           Demo.self "gone" []))
             (Exn RequestException "connection refused") eq_refl).
Defined.

Lemma next_date_outcome_witness :
  fst (demo_data Demo.self (stock_url "leg") []) = Ok Demo.quote_data_leg
  /\ quote_summary_raw Demo.quote_data_leg = Ok (VInt 1803600000)
  /\ demo_next Demo.self "leg" []
     = (Ok (VInt 1803600000), [] ++ blocks Demo.self [stock_url "leg"]).
Proof.
  assert (H : fst (demo_data Demo.self (stock_url "leg") [])
              = Ok Demo.quote_data_leg) by (vm_compute; reflexivity).
  split; [exact H|]. split; [reflexivity|].
  exact (proj2 (proj2 (next_date_outcome Demo.json_loads Demo.http_get
                         Demo.strptime Demo.timestamp Demo.utcnow Demo.self
                         "leg" []))
           Demo.quote_data_leg (VInt 1803600000) H eq_refl).
Defined.

Section Sorting.

(** ** The order of the scan *)

Lemma py_lt_strings (s t : string) :
  py_lt (VStr s) (VStr t) = Ok (String.ltb s t).
Proof.
  unfold py_lt, String.ltb. cbn [py_cmp rbind is_lt].
  destruct (String.compare s t); reflexivity.
Qed.

Lemma ltb_leb (s t : string) : String.ltb s t = true -> String.leb s t = true.
Proof.
  unfold String.ltb, String.leb. destruct (String.compare s t);
    [discriminate | reflexivity | discriminate].
Qed.

Lemma not_ltb_leb (s t : string) :
  String.ltb s t = false -> String.leb t s = true.
Proof.
  unfold String.ltb, String.leb. rewrite (String.compare_antisym t s).
  destruct (String.compare s t); cbn [CompOpp];
    [reflexivity | discriminate | reflexivity].
Qed.

(** Inserting a pair with a string key into a sorted list of such pairs. *)
Lemma insert_by_key_sorted (x : pyval * pyval) (l : list (pyval * pyval)) :
  keyed_str x -> Forall keyed_str l -> Sorted keyed_le l ->
  exists l',
    insert_by_key x l = Ok l'
    /\ Permutation (x :: l) l'
    /\ Forall keyed_str l'
    /\ Sorted keyed_le l'
    /\ (forall y, HdRel keyed_le y l -> keyed_le y x -> HdRel keyed_le y l').
Proof.
  intros (s & Hs & Hx). induction 1 as [|y l (t & Ht & Hy) Hl IH];
    intros Hsorted.
  - exists [x]. repeat split; try (repeat constructor; fail).
    + constructor; [exists s; split; assumption | constructor].
    + intros y _ Hyx. constructor. exact Hyx.
  - cbn [insert_by_key]. rewrite Hs, Ht, py_lt_strings.
    destruct (String.ltb s t) eqn:Hlt.
    + exists (x :: y :: l). repeat split.
      * apply Permutation_refl.
      * constructor; [exists s; split; assumption|].
        constructor; [exists t; split; assumption | exact Hl].
      * constructor; [exact Hsorted|]. constructor.
        exists s, t. rewrite <- Hs, <- Ht.
        repeat split; try assumption. apply ltb_leb, Hlt.
      * intros z _ Hzx. constructor. exact Hzx.
    + apply Sorted_inv in Hsorted as [Hsorted Hhd].
      destruct (IH Hsorted) as (l' & Hins & Hperm & Hall & Hsort & Hrel).
      rewrite Hins. exists (y :: l'). repeat split.
      * rewrite perm_swap. constructor. exact Hperm.
      * constructor; [exists t; split; assumption | exact Hall].
      * constructor; [exact Hsort|]. apply Hrel; [exact Hhd|].
        exists t, s. rewrite <- Hs, <- Ht.
        repeat split; try assumption. apply not_ltb_leb, Hlt.
      * intros z Hz _. apply HdRel_inv in Hz. constructor. exact Hz.
Qed.

Lemma fold_insert_sorted (l : list (pyval * pyval)) :
  Forall keyed_str l ->
  forall acc,
    Forall keyed_str acc -> Sorted keyed_le acc ->
    exists l',
      fold_left (fun a x => rbind a (fun a0 => insert_by_key x a0)) l
                (Ok acc) = Ok l'
      /\ Permutation (acc ++ l) l'
      /\ Sorted keyed_le l'.
Proof.
  induction 1 as [|x l Hx Hl IH]; intros acc Hacc Hsorted.
  - exists acc. rewrite app_nil_r. repeat split; [reflexivity | exact Hsorted].
  - destruct (insert_by_key_sorted x acc Hx Hacc Hsorted)
      as (acc' & Hins & Hperm & Hall & Hsort & _).
    cbn [fold_left rbind]. rewrite Hins.
    destruct (IH acc' Hall Hsort) as (l' & Hfold & Hperm' & Hsort').
    exists l'. repeat split; [exact Hfold | | exact Hsort'].
    rewrite <- Hperm'. rewrite <- Hperm.
    rewrite <- Permutation_middle. reflexivity.
Qed.

Lemma keyed_records (recs : list pyval) :
  Forall has_str_start recs ->
  exists keyed,
    rmap (fun x =>
            rbind (py_get x "startdatetime" (VStr EmptyString))
                  (fun k => Ok (k, x))) recs
    = Ok keyed
    /\ map snd keyed = recs
    /\ Forall keyed_str keyed.
Proof.
  induction 1 as [|r recs (s & Hr) _ (keyed & Hmap & Hsnd & Hall)].
  - exists []. repeat split. constructor.
  - exists ((VStr s, r) :: keyed). cbn [rmap]. rewrite Hr. cbn [rbind].
    rewrite Hmap. repeat split.
    + cbn [map snd]. rewrite Hsnd. reflexivity.
    + constructor; [|exact Hall]. exists s. split; [reflexivity | exact Hr].
Qed.

Lemma sorted_map_snd (l : list (pyval * pyval)) :
  Sorted keyed_le l -> Sorted start_le (map snd l).
Proof.
  induction 1 as [|x l Hsort IH Hhd]; cbn [map]; constructor; [exact IH|].
  destruct Hhd as [|y l (s & t & Hs & Ht & Hle & Hx & Hy)]; cbn [map];
    constructor.
  exists s, t. rewrite <- Hs, <- Ht. repeat split; assumption.
Qed.

(** X16. When every record has a string for its start (or none, which
    counts as the empty string), the records are scanned in ascending order
    of these strings as strings, character by character: the sorted list is
    a permutation of the records in which each start string is less than
    or equal to the next. *)
Theorem sorted_by_start_ascending (recs : list pyval) :
  Forall has_str_start recs ->
  exists l,
    sorted_by_start (VList recs) = Ok l
    /\ Permutation recs l
    /\ Sorted start_le l.
Proof.
  intros Hrecs. unfold sorted_by_start. cbn [py_iter rbind].
  destruct (keyed_records recs Hrecs) as (keyed & Hmap & Hsnd & Hall).
  rewrite Hmap. cbn [rbind]. unfold sort_by_key.
  destruct (fold_insert_sorted keyed Hall [] (Forall_nil _) (Sorted_nil _))
    as (l' & Hfold & Hperm & Hsort).
  rewrite Hfold. cbn [rbind]. exists (map snd l'). repeat split.
  - rewrite <- Hsnd. apply Permutation_map. exact Hperm.
  - apply sorted_map_snd, Hsort.
Qed.

Lemma leb_trans (a b c : string) :
  String.leb a b = true -> String.leb b c = true -> String.leb a c = true.
Proof.
  unfold String.leb. revert b c.
  induction a as [|x a IH]; intros [|y b] [|z c]; cbn [String.compare];
    try (intros; reflexivity || discriminate).
  unfold Ascii.compare.
  destruct (N.compare_spec (N_of_ascii x) (N_of_ascii y)) as [Hxy|Hxy|Hxy];
    destruct (N.compare_spec (N_of_ascii y) (N_of_ascii z)) as [Hyz|Hyz|Hyz];
    destruct (N.compare_spec (N_of_ascii x) (N_of_ascii z)) as [Hxz|Hxz|Hxz];
    try lia; try (intros; reflexivity || discriminate).
  apply IH.
Qed.

Lemma start_le_trans (a b c : pyval) :
  start_le a b -> start_le b c -> start_le a c.
Proof.
  intros (s & t & Ha & Hb & Hst) (t' & u & Hb' & Hc & Htu).
  rewrite Hb in Hb'. injection Hb' as <-.
  exists s, u. repeat split; try assumption.
  apply (leb_trans s t u); assumption.
Qed.

(** The sorted list with every record before the records that follow it,
    not only before the next one. *)
Lemma sorted_by_start_strongly (recs : list pyval) :
  Forall has_str_start recs ->
  exists l,
    sorted_by_start (VList recs) = Ok l
    /\ Permutation recs l
    /\ StronglySorted start_le l.
Proof.
  intros Hrecs. unfold sorted_by_start. cbn [py_iter rbind].
  destruct (keyed_records recs Hrecs) as (keyed & Hmap & Hsnd & Hall).
  rewrite Hmap. cbn [rbind]. unfold sort_by_key.
  destruct (fold_insert_sorted keyed Hall [] (Forall_nil _) (Sorted_nil _))
    as (l' & Hfold & Hperm & Hsort).
  rewrite Hfold. cbn [rbind]. exists (map snd l'). repeat split.
  - rewrite <- Hsnd. apply Permutation_map. exact Hperm.
  - apply Sorted_StronglySorted; [|apply sorted_map_snd, Hsort].
    intros a b c. apply start_le_trans.
Qed.

End Sorting.

Lemma demo_box_starts :
  Forall has_str_start (map Demo.record Demo.table_box).
Proof.
  repeat constructor; eexists; reflexivity.
Defined.

Lemma sorted_by_start_ascending_witness :
  Forall has_str_start (map Demo.record Demo.table_box)
  /\ exists l,
       sorted_by_start (VList (map Demo.record Demo.table_box)) = Ok l
       /\ Permutation (map Demo.record Demo.table_box) l
       /\ Sorted start_le l.
Proof.
  split; [exact demo_box_starts|].
  exact (sorted_by_start_ascending _ demo_box_starts).
Defined.

Section Scan.

Variable json_loads : string -> option pyval.
Variable http_get : world -> string -> result string.
Variable strptime : string -> option (Z * Z).
Variable timestamp : Z * Z -> result Z.
Variable utcnow : Z * Z.

Abbreviation get_data := (_get_data_dict json_loads http_get).
Abbreviation earnings_of := (get_earnings_of json_loads http_get).
Abbreviation next_date :=
  (get_next_earnings_date json_loads http_get strptime timestamp utcnow).
Abbreviation upcoming := (upcoming_timestamp strptime timestamp utcnow).
Abbreviation scan := (scan_upcoming strptime timestamp utcnow).

(** ** The scan for the next date *)

Lemma scan_upcoming_skip (pre rest : list pyval) :
  Forall (fun x => upcoming x = Ok None) pre ->
  scan (pre ++ rest) = scan rest.
Proof.
  induction 1 as [|x pre Hx _ IH]; [reflexivity|].
  cbn [app scan_upcoming]. rewrite Hx. exact IH.
Qed.

(** What one turn of the loop makes of a record whose start is the string
    [s]. *)
Lemma upcoming_of_start (x : pyval) (s : string) :
  py_get x "startdatetime" (VStr EmptyString) = Ok (VStr s) ->
  upcoming x
  = match start_moment strptime s with
    | Some d =>
        match dt_compare d utcnow with
        | Lt => Ok None
        | _ =>
            rcatch (rbind (timestamp d) (fun t => Ok (Some (VInt t))))
                   [ValueError] (fun _ => Ok None)
        end
    | None => Ok None
    end.
Proof.
  intros Hx. unfold upcoming_timestamp. rewrite Hx. cbn [rbind].
  destruct s as [|a s]; [reflexivity|].
  cbn [py_truthy]. unfold upcoming_of_str, start_moment.
  destruct (str_contains "T" (String a s)); [|reflexivity].
  destruct (strptime _) as [d|]; [|reflexivity].
  destruct (dt_compare d utcnow); reflexivity.
Qed.

Lemma scan_least (l : list pyval) (r : pyval) (s : string) (d : Z * Z)
  (t : Z) :
  StronglySorted start_le l ->
  In r l ->
  py_get r "startdatetime" (VStr EmptyString) = Ok (VStr s) ->
  start_moment strptime s = Some d ->
  dt_compare d utcnow <> Lt ->
  timestamp d = Ok t ->
  (forall x s' d',
     In x l ->
     py_get x "startdatetime" (VStr EmptyString) = Ok (VStr s') ->
     start_moment strptime s' = Some d' ->
     dt_compare d' utcnow <> Lt ->
     String.leb s s' = true) ->
  scan l = Ok (VInt t).
Proof.
  intros Hsorted Hin Hr Hd Hnow Ht.
  assert (Hup : forall x, py_get x "startdatetime" (VStr EmptyString)
                          = Ok (VStr s) ->
                          upcoming x = Ok (Some (VInt t))).
  { intros x Hx. rewrite (upcoming_of_start x s Hx), Hd, Ht.
    destruct (dt_compare d utcnow); [reflexivity | contradiction
                                    | reflexivity]. }
  induction Hsorted as [|x l Hsorted IH Hall]; [contradiction|].
  intros Hleast. cbn [scan_upcoming].
  destruct Hin as [->|Hin]; [rewrite (Hup r Hr); reflexivity|].
  rewrite Forall_forall in Hall.
  destruct (Hall r Hin) as (sx & s' & Hx & Hr' & Hle).
  rewrite Hr in Hr'. injection Hr' as <-.
  assert (Hrest : scan l = Ok (VInt t)).
  { apply IH; [exact Hin|]. intros y s' d' Hy. apply Hleast. right. exact Hy. }
  rewrite (upcoming_of_start x sx Hx).
  destruct (start_moment strptime sx) as [d'|] eqn:Hd'; [|exact Hrest].
  destruct (dt_compare d' utcnow) eqn:Hc; [|exact Hrest|].
  - assert (Hsx : sx = s).
    { apply String.leb_antisym; [exact Hle|].
      apply (Hleast x sx d'); [left; reflexivity | exact Hx | exact Hd'|].
      rewrite Hc. discriminate. }
    subst sx. rewrite Hd in Hd'. injection Hd' as <-. rewrite Ht.
    reflexivity.
  - assert (Hsx : sx = s).
    { apply String.leb_antisym; [exact Hle|].
      apply (Hleast x sx d'); [left; reflexivity | exact Hx | exact Hd'|].
      rewrite Hc. discriminate. }
    subst sx. rewrite Hd in Hd'. injection Hd' as <-. rewrite Ht.
    reflexivity.
Qed.

(** X17. With the quote-summary path absent and records whose starts are
    strings, [get_next_earnings_date] returns the timestamp of the earliest
    upcoming record: a record whose start reads as a moment that is not
    before now, and whose start string is, as a string, less than or equal
    to that of every record with such a moment.  When there are records
    and every start that reads as a moment is before now, it raises the
    [Exception] of an invalid symbol. *)
Theorem next_date_first_upcoming (self : YahooEarningsCalendar)
  (symbol : string) (data : pyval) (recs : list pyval) (w w1 w2 : world) :
  get_data self (stock_url symbol) w = (Ok data, w1) ->
  (forall raw, quote_summary_raw data <> Ok raw) ->
  earnings_of self symbol w1 = (Ok (VList recs), w2) ->
  Forall has_str_start recs ->
  (forall r s d t,
     In r recs ->
     py_get r "startdatetime" (VStr EmptyString) = Ok (VStr s) ->
     start_moment strptime s = Some d ->
     dt_compare d utcnow <> Lt ->
     timestamp d = Ok t ->
     (forall x s' d',
        In x recs ->
        py_get x "startdatetime" (VStr EmptyString) = Ok (VStr s') ->
        start_moment strptime s' = Some d' ->
        dt_compare d' utcnow <> Lt ->
        String.leb s s' = true) ->
     next_date self symbol w = (Ok (VInt t), w2))
  /\ (recs <> [] ->
      (forall x s' d',
         In x recs ->
         py_get x "startdatetime" (VStr EmptyString) = Ok (VStr s') ->
         start_moment strptime s' = Some d' ->
         dt_compare d' utcnow = Lt) ->
      next_date self symbol w = (Err symbol_error, w2)).
Proof.
  intros Hdata Hpath Hearn Hstarts.
  pose proof (next_date_second_attempt json_loads http_get strptime
                timestamp utcnow self symbol data (VList recs) w w1 w2
                Hdata Hpath Hearn) as Hnext.
  unfold second_attempt in Hnext.
  destruct (sorted_by_start_strongly recs Hstarts)
    as (l & Hl & Hperm & Hsorted).
  rewrite Hl in Hnext. cbn [rbind] in Hnext.
  split.
  - intros r s d t Hin Hr Hd Hnow Ht Hleast.
    destruct recs as [|r0 recs]; [contradiction|].
    cbn [py_truthy py_len rbind List.length Nat.ltb Nat.leb] in Hnext.
    rewrite Hnext.
    rewrite (scan_least l r s d t Hsorted); [reflexivity | | exact Hr
      | exact Hd | exact Hnow | exact Ht |].
    + apply (Permutation_in _ Hperm), Hin.
    + intros x s' d' Hx. apply Hleast.
      apply (Permutation_in _ (Permutation_sym Hperm)), Hx.
  - intros Hrecs Hpast.
    destruct recs as [|r0 recs]; [contradiction|].
    cbn [py_truthy py_len rbind List.length Nat.ltb Nat.leb] in Hnext.
    rewrite Hnext.
    rewrite <- (app_nil_r l), scan_upcoming_skip; [reflexivity|].
    rewrite Forall_forall. intros x Hx.
    apply (Permutation_in _ (Permutation_sym Hperm)) in Hx.
    rewrite Forall_forall in Hstarts.
    destruct (Hstarts x Hx) as [s' Hs'].
    rewrite (upcoming_of_start x s' Hs').
    destruct (start_moment strptime s') as [d'|] eqn:Hd'; [|reflexivity].
    rewrite (Hpast x s' d' Hx Hs' Hd'). reflexivity.
Qed.

(** ** The start time of a record *)

Lemma prefix_nil (s : string) : prefix EmptyString s = true.
Proof. destruct s; reflexivity. Qed.

Lemma contains_char_app (c : ascii) (s x : string) :
  str_contains (String c EmptyString) (s ++ x)%string
  = str_contains (String c EmptyString) s
    || str_contains (String c EmptyString) x.
Proof.
  induction s as [|a s IH].
  - cbn [append]. destruct x; reflexivity.
  - cbn [append str_contains prefix]. rewrite IH, !prefix_nil.
    destruct (ascii_dec c a); reflexivity.
Qed.

Lemma str_take_app (s x : string) :
  str_take (String.length s) (s ++ x)%string = s.
Proof.
  induction s as [|a s IH]; [reflexivity|].
  cbn [String.length append str_take]. rewrite IH. reflexivity.
Qed.

Lemma str_take_all (s : string) : str_take (String.length s) s = s.
Proof.
  induction s as [|a s IH]; [reflexivity|].
  cbn [String.length str_take]. rewrite IH. reflexivity.
Qed.

Lemma split_head (s t : string) :
  str_contains "." s = false ->
  hd EmptyString (str_split_char "." (s ++ String "." t)%string) = s.
Proof.
  induction s as [|a s IH]; intros H; [reflexivity|].
  cbn [str_contains prefix] in H.
  apply orb_false_elim in H as [Ha Hs]. rewrite prefix_nil in Ha.
  cbn [append str_split_char].
  destruct (Ascii.eqb_spec a ".") as [->|Hne].
  - destruct (ascii_dec "." "."); [discriminate | contradiction].
  - specialize (IH Hs).
    destruct (str_split_char "." (s ++ String "." t)%string);
      cbn [hd] in *; rewrite IH; reflexivity.
Qed.

(** X18. What follows the seconds of a start time is not read: a start
    string of the nineteen characters [YYYY-MM-DDTHH:MM:SS] followed by
    milliseconds or by a UTC offset gives the same outcome as the nineteen
    characters alone, so the offset does not move the time that is compared
    with now and returned. *)
Theorem start_suffix_ignored (fields fields' : list (pyval * pyval))
  (s suffix : string) :
  dict_lookup (VStr "startdatetime") fields = Some (VStr (s ++ suffix)) ->
  dict_lookup (VStr "startdatetime") fields' = Some (VStr s) ->
  String.length s = 19%nat ->
  str_contains "T" s = true ->
  str_contains "." s = false ->
  str_contains "." suffix = false \/ (exists t, suffix = String "." t) ->
  upcoming (VDict fields) = upcoming (VDict fields').
Proof.
  intros Hf Hf' Hlen HT Hdot Hsuffix.
  unfold upcoming_timestamp. cbn [py_get]. rewrite Hf, Hf'. cbn [rbind].
  assert (Hs : exists a s', s = String a s')
    by (destruct s; [discriminate | eauto]).
  destruct Hs as (a & s' & Hs).
  assert (Htruthy : py_truthy (VStr (s ++ suffix)) = true)
    by (rewrite Hs; reflexivity).
  assert (Htruthy' : py_truthy (VStr s) = true) by (rewrite Hs; reflexivity).
  rewrite Htruthy, Htruthy'. f_equal.
  unfold upcoming_of_str.
  rewrite contains_char_app, HT. cbn [orb].
  rewrite contains_char_app, Hdot. cbn [orb].
  replace (str_take 19 s) with s
    by (rewrite <- Hlen, str_take_all; reflexivity).
  destruct Hsuffix as [Hno|[t ->]].
  - rewrite Hno, <- Hlen, str_take_app. reflexivity.
  - replace (str_contains "." (String "." t)) with true
      by (cbn [str_contains prefix]; rewrite prefix_nil;
          destruct (ascii_dec "." "."); [reflexivity | contradiction]).
    rewrite split_head by exact Hdot. reflexivity.
Qed.

(** ** A record without a start *)

Lemma py_lt_none_r (a : pyval) : py_lt a VNone = raise_ TypeError.
Proof. destruct a; reflexivity. Qed.

Lemma fold_insert_err (l : list (pyval * pyval)) (e : exn) :
  fold_left (fun a x => rbind a (fun a0 => insert_by_key x a0)) l (Err e)
  = Err e.
Proof. induction l as [|x l IH]; [reflexivity | exact IH]. Qed.

Lemma insert_by_key_length (x : pyval * pyval) (l l' : list (pyval * pyval)) :
  insert_by_key x l = Ok l' -> List.length l' = S (List.length l).
Proof.
  revert l'. induction l as [|y l IH]; intros l'; cbn [insert_by_key].
  - intros [= <-]. reflexivity.
  - destruct (py_lt (fst x) (fst y)) as [[]|e]; [| |discriminate].
    + intros [= <-]. reflexivity.
    + destruct (insert_by_key x l) as [r|e]; [|discriminate].
      intros [= <-]. cbn [List.length]. rewrite (IH r eq_refl). reflexivity.
Qed.

Lemma fold_insert_length (l : list (pyval * pyval)) :
  forall acc l',
    fold_left (fun a x => rbind a (fun a0 => insert_by_key x a0)) l (Ok acc)
    = Ok l' ->
    List.length l' = (List.length acc + List.length l)%nat.
Proof.
  induction l as [|x l IH]; intros acc l'; cbn [fold_left rbind].
  - intros [= <-]. cbn [List.length]. lia.
  - destruct (insert_by_key x acc) as [acc'|e] eqn:Hins.
    + intros H. rewrite (IH _ _ H), (insert_by_key_length _ _ _ Hins).
      cbn [List.length]. lia.
    + rewrite fold_insert_err. discriminate.
Qed.

(** A key that is [None] among two keys or more cannot be sorted. *)
Lemma sort_with_none (pre post : list (pyval * pyval)) (x : pyval * pyval) :
  fst x = VNone ->
  pre ++ post <> [] ->
  exists e, sort_by_key (pre ++ x :: post) = Err e.
Proof.
  intros Hx Hmore. unfold sort_by_key. rewrite fold_left_app.
  destruct (fold_left _ pre (Ok [])) as [acc|e] eqn:Hpre.
  - cbn [fold_left rbind].
    destruct acc as [|y acc].
    + apply fold_insert_length in Hpre. cbn [List.length] in Hpre.
      destruct pre; [|discriminate]. cbn [app] in Hmore.
      destruct post as [|z post]; [contradiction|].
      cbn [insert_by_key fold_left rbind].
      rewrite Hx, py_lt_none_r. cbn [raise_].
      exists (Exn TypeError EmptyString). apply fold_insert_err.
    + cbn [insert_by_key]. rewrite Hx. cbn [py_lt py_cmp as_number rbind].
      exists (Exn TypeError EmptyString). apply fold_insert_err.
  - exists e. apply fold_insert_err.
Qed.

Lemma keyed_fields (fieldss : list (list (pyval * pyval))) :
  rmap (fun x =>
          rbind (py_get x "startdatetime" (VStr EmptyString))
                (fun k => Ok (k, x))) (map VDict fieldss)
  = Ok (map (fun fields => (start_of fields, VDict fields)) fieldss).
Proof.
  apply rmap_map. intros fields. unfold start_of. cbn [py_get].
  destruct (dict_lookup _ fields); reflexivity.
Qed.

(** X19. One record whose start is [None], as the normalizer makes it for
    a row that ends before the start column, is enough for
    [get_next_earnings_date] to raise as soon as there are two records or
    more: the sort compares [None] with another key, and that exception
    comes out as the one of an invalid symbol, whatever upcoming dates the
    other records have. *)
Theorem next_date_fails_on_missing_start (self : YahooEarningsCalendar)
  (symbol : string) (data : pyval)
  (pre post : list (list (pyval * pyval))) (fields : list (pyval * pyval))
  (w w1 w2 : world) :
  get_data self (stock_url symbol) w = (Ok data, w1) ->
  (forall raw, quote_summary_raw data <> Ok raw) ->
  earnings_of self symbol w1
  = (Ok (VList (map VDict (pre ++ fields :: post))), w2) ->
  dict_lookup (VStr "startdatetime") fields = Some VNone ->
  pre ++ post <> [] ->
  next_date self symbol w = (Err symbol_error, w2).
Proof.
  intros Hdata Hpath Hearn Hnone Hmore.
  rewrite (next_date_second_attempt json_loads http_get strptime timestamp
             utcnow self symbol data _ w w1 w2 Hdata Hpath Hearn).
  unfold second_attempt.
  assert (Hlen : exists n, List.length (map VDict (pre ++ fields :: post))
                           = S n).
  { rewrite length_map, length_app. cbn [List.length].
    exists (List.length pre + List.length post)%nat. lia. }
  destruct Hlen as [n Hlen].
  destruct (map VDict (pre ++ fields :: post)) as [|r0 rs] eqn:Hmap;
    [discriminate|].
  cbn [py_truthy py_len rbind List.length Nat.ltb Nat.leb].
  rewrite <- Hmap. unfold sorted_by_start. cbn [py_iter rbind].
  rewrite keyed_fields. cbn [rbind]. rewrite map_app. cbn [map].
  destruct (sort_with_none
              (map (fun f => (start_of f, VDict f)) pre)
              (map (fun f => (start_of f, VDict f)) post)
              (start_of fields, VDict fields)) as [e He].
  - unfold start_of. rewrite Hnone. reflexivity.
  - intros H. apply Hmore. apply app_eq_nil in H as [H1 H2].
    apply map_eq_nil in H1, H2. subst. reflexivity.
  - rewrite He. reflexivity.
Qed.

End Scan.

Lemma demo_old_starts :
  Forall has_str_start (map Demo.record Demo.table_old).
Proof.
  repeat constructor; eexists; reflexivity.
Defined.

Lemma next_date_first_upcoming_witness :
  Forall has_str_start (map Demo.record Demo.table_box)
  /\ In (Demo.record (Demo.row "BOX" "Box, Inc." "2027-03-02T21:05:00.000Z"))
        (map Demo.record Demo.table_box)
  /\ start_moment Demo.strptime "2027-03-02T21:05:00.000Z"
     = Some (Demo.ordinal_of_civil 2027 3 2, 75900000000)
  /\ dt_compare (Demo.ordinal_of_civil 2027 3 2, 75900000000) Demo.utcnow
     = Gt
  /\ Demo.timestamp (Demo.ordinal_of_civil 2027 3 2, 75900000000)
     = Ok 1804021500
  /\ demo_next Demo.self "box" []
     = (Ok (VInt 1804021500),
        [EvSleep (VInt 0); EvGet (stock_url "box");
         EvSleep (VInt 0); EvGet (symbol_url "box")])
  /\ demo_next Demo.self "old" []
     = (Err symbol_error,
        [EvSleep (VInt 0); EvGet (stock_url "old");
         EvSleep (VInt 0); EvGet (symbol_url "old")]).
Proof.
  split; [exact demo_box_starts|].
  split; [right; right; left; reflexivity|].
  split; [vm_compute; reflexivity|].
  split; [vm_compute; reflexivity|].
  split; [vm_compute; reflexivity|].
  split.
  - apply (proj1 (next_date_first_upcoming Demo.json_loads Demo.http_get
                    Demo.strptime Demo.timestamp Demo.utcnow Demo.self "box"
                    Demo.quote_data (map Demo.record Demo.table_box)
                    [] [EvSleep (VInt 0); EvGet (stock_url "box")] _
                    ltac:(vm_compute; reflexivity)
                    ltac:(intros raw; discriminate)
                    ltac:(vm_compute; reflexivity)
                    demo_box_starts)
             (Demo.record
                (Demo.row "BOX" "Box, Inc." "2027-03-02T21:05:00.000Z"))
             "2027-03-02T21:05:00.000Z"
             (Demo.ordinal_of_civil 2027 3 2, 75900000000)
             1804021500).
    + right. right. left. reflexivity.
    + reflexivity.
    + vm_compute. reflexivity.
    + vm_compute. discriminate.
    + vm_compute. reflexivity.
    + intros x s' d' [<-|[<-|[<-|[<-|[]]]]] [= <-] Hd' Hnow.
      * reflexivity.
      * vm_compute in Hd'. injection Hd' as <-.
        exfalso. apply Hnow. vm_compute. reflexivity.
      * reflexivity.
      * vm_compute in Hd'. discriminate.
  - apply (proj2 (next_date_first_upcoming Demo.json_loads Demo.http_get
                    Demo.strptime Demo.timestamp Demo.utcnow Demo.self "old"
                    Demo.quote_data (map Demo.record Demo.table_old)
                    [] [EvSleep (VInt 0); EvGet (stock_url "old")] _
                    ltac:(vm_compute; reflexivity)
                    ltac:(intros raw; discriminate)
                    ltac:(vm_compute; reflexivity)
                    demo_old_starts)).
    + discriminate.
    + intros x s' d' [<-|[<-|[]]] [= <-] Hd'.
      * vm_compute in Hd'. injection Hd' as <-. vm_compute. reflexivity.
      * vm_compute in Hd'. discriminate.
Defined.

Lemma start_suffix_ignored_witness :
  upcoming_timestamp Demo.strptime Demo.timestamp Demo.utcnow
    (VDict [(VStr "startdatetime", VStr "2027-03-02T21:05:00-05:00")])
  = upcoming_timestamp Demo.strptime Demo.timestamp Demo.utcnow
      (VDict [(VStr "startdatetime", VStr "2027-03-02T21:05:00")])
  /\ upcoming_timestamp Demo.strptime Demo.timestamp Demo.utcnow
       (VDict [(VStr "startdatetime", VStr "2027-03-02T21:05:00.000+09:00")])
     = upcoming_timestamp Demo.strptime Demo.timestamp Demo.utcnow
         (VDict [(VStr "startdatetime", VStr "2027-03-02T21:05:00")])
  /\ upcoming_timestamp Demo.strptime Demo.timestamp Demo.utcnow
       (VDict [(VStr "startdatetime", VStr "2027-03-02T21:05:00")])
     = Ok (Some (VInt 1804021500)).
Proof.
  split; [|split].
  - apply (start_suffix_ignored Demo.strptime Demo.timestamp Demo.utcnow
             _ _ "2027-03-02T21:05:00" "-05:00"); try reflexivity.
    left. reflexivity.
  - apply (start_suffix_ignored Demo.strptime Demo.timestamp Demo.utcnow
             _ _ "2027-03-02T21:05:00" ".000+09:00"); try reflexivity.
    right. exists "000+09:00"%string. reflexivity.
  - reflexivity.
Defined.

Lemma next_date_fails_on_missing_start_witness :
  get_earnings_of Odd.json_loads Odd.http_get Demo.self "short"
    [EvSleep (VInt 0); EvGet (stock_url "short")]
  = (Ok (VList (map VDict
           ([combine (map VStr Demo.column_ids)
                     (Demo.row "SHRT" "Short Corp."
                               "2027-06-01T12:00:00.000Z")]
            ++ [(VStr "ticker", VStr "SHRT");
                (VStr "companyshortname", VStr "Short Corp.");
                (VStr "startdatetime", VNone);
                (VStr "epsestimate", VNone)] :: []))),
     [EvSleep (VInt 0); EvGet (stock_url "short");
      EvSleep (VInt 0); EvGet (symbol_url "short")])
  /\ get_next_earnings_date Odd.json_loads Odd.http_get Demo.strptime
       Demo.timestamp Demo.utcnow Demo.self "short" []
     = (Err symbol_error,
        [EvSleep (VInt 0); EvGet (stock_url "short");
         EvSleep (VInt 0); EvGet (symbol_url "short")]).
Proof.
  assert (Hearn :
    get_earnings_of Odd.json_loads Odd.http_get Demo.self "short"
      [EvSleep (VInt 0); EvGet (stock_url "short")]
    = (Ok (VList (map VDict
             ([combine (map VStr Demo.column_ids)
                       (Demo.row "SHRT" "Short Corp."
                                 "2027-06-01T12:00:00.000Z")]
              ++ [(VStr "ticker", VStr "SHRT");
                  (VStr "companyshortname", VStr "Short Corp.");
                  (VStr "startdatetime", VNone);
                  (VStr "epsestimate", VNone)] :: []))),
       [EvSleep (VInt 0); EvGet (stock_url "short");
        EvSleep (VInt 0); EvGet (symbol_url "short")]))
    by (vm_compute; reflexivity).
  split; [exact Hearn|].
  apply (next_date_fails_on_missing_start Odd.json_loads Odd.http_get
           Demo.strptime Demo.timestamp Demo.utcnow Demo.self "short"
           Demo.quote_data _ _ _ [] _ _
           ltac:(vm_compute; reflexivity)
           ltac:(intros raw; discriminate)
           Hearn eq_refl).
  discriminate.
Defined.
